(** * OpenBlock Link simulator: session and device-simulation engine

    A shallow embedding of the WebSocket simulator: the message dispatcher,
    the [handle*] functions, the callbacks they give to [setTimeout] and
    [setInterval], and the simulated code execution; then the properties of
    its protocol. The two variants of the simulator share this code; the
    bridge to a real Pico of the second variant is left out.

    Conventions of the model:
    - A connection object lives on a heap, at the address of its client
      number. The registry [activeConnections] holds a reference to it and so
      does every closure scheduled for it: removing the connection from the
      registry does not remove the object.
    - [ws.send] is recorded as a call, in the list [sent] of the connection
      object, with the time of the call. What a socket does with a frame
      after it has closed belongs to the WebSocket library.
    - Time is the clock of the event loop in milliseconds, a rational number.
      A timer fires exactly when it is due, the earliest first.
    - The calls of [Math.random] return [rnd 0], [rnd 1], ... in the order
      they are made. A product with a power of two is exact in double
      precision and is written as such; the other products and sums that end
      in a reading or in a substituted number are rounded to the nearest
      double ([Double.round]). The delays given to the timers are kept as
      exact rationals: they are only added to the clock and compared.
    - A device name is a string that is only compared; the text of a program
      is a sequence of UTF-16 code units.
    - Logging, the statistics interval and the shutdown handler do not change
      the state of the engine and are left out. *)

From Stdlib Require Import QArith Qround Lqa Lia ZArith NArith List Bool Decimal Ascii String.
From stdpp Require Import gmap strings list.

Local Open Scope list_scope.

(** ** Double-precision numbers

    A JavaScript number is a double. The values met here are far from the
    overflow threshold, so a double is a rational number and an operation
    gives the double nearest to the exact result. *)

Module Double.

Local Open Scope Q_scope.

(** The nearest integer, a tie going to the even one. *)
Definition round_even (x : Q) : Z :=
  let f := Qfloor x in
  match Qcompare (x - inject_Z f) (1 # 2) with
  | Lt => f
  | Gt => (f + 1)%Z
  | Eq => if Z.even f then f else (f + 1)%Z
  end.

(** The binary exponent of a positive number, from [2 ^ -1100] upwards. *)
Definition exponent (x : Q) : Z :=
  (Z.log2 (Qfloor (x * inject_Z (2 ^ 1100))) - 1100)%Z.

(** The binary places kept after the point: 52 below the leading bit, and
    never more than 1074. *)
Definition places (x : Q) : Z := Z.min (52 - exponent x) 1074.

Definition round_pos (x : Q) : Q :=
  let j := places x in
  if (0 <=? j)%Z
  then inject_Z (round_even (x * inject_Z (2 ^ j))) / inject_Z (2 ^ j)
  else inject_Z (round_even (x / inject_Z (2 ^ (- j)))) * inject_Z (2 ^ (- j)).

(** The double nearest to [x], a tie going to the even significand. *)
Definition round (x : Q) : Q :=
  match Qcompare x 0 with
  | Eq => 0
  | Gt => round_pos x
  | Lt => - round_pos (- x)
  end.

End Double.

(** ** JavaScript strings and the text operations used by [handleExecuteCode] *)

Module JsText.

(** A JavaScript string is a sequence of UTF-16 code units; [length],
    [split], [trim], [includes] and a regular expression without the [u]
    flag all work on code units. *)
Abbreviation jsstring := (list N).

(** The code units of an ASCII literal. *)
Fixpoint units (s : string) : jsstring :=
  match s with
  | EmptyString => []
  | String a s' => N_of_ascii a :: units s'
  end.

(** WhiteSpace and LineTerminator, the code units that [trim] strips. *)
Definition is_white_space (c : N) : bool :=
  ((9 <=? c) && (c <=? 13) || (c =? 32) || (c =? 160) || (c =? 5760)
   || (8192 <=? c) && (c <=? 8202) || (c =? 8232) || (c =? 8233)
   || (c =? 8239) || (c =? 8287) || (c =? 12288) || (c =? 65279))%N.

(** The code units that [.] does not match. *)
Definition is_line_terminator (c : N) : bool :=
  ((c =? 10) || (c =? 13) || (c =? 8232) || (c =? 8233))%N.

(** The character class of the two quote characters (39 and 34). *)
Definition is_quote (c : N) : bool := ((c =? 39) || (c =? 34))%N.

Fixpoint trimStart (s : jsstring) : jsstring :=
  match s with
  | [] => []
  | c :: s' => if is_white_space c then trimStart s' else s
  end.

Definition trim (s : jsstring) : jsstring :=
  rev (trimStart (rev (trimStart s))).

(** [s.split('\n')]: the empty string gives one empty line. *)
Fixpoint split (s : jsstring) : list jsstring :=
  match s with
  | [] => [[]]
  | c :: s' =>
      if (c =? 10)%N then [] :: split s'
      else match split s' with
           | l :: ls => (c :: l) :: ls
           | [] => [[c]]
           end
  end.

(** [lines.join('\n')]. *)
Fixpoint join (l : list jsstring) : jsstring :=
  match l with
  | [] => []
  | [x] => x
  | x :: l' => x ++ 10%N :: join l'
  end.

Fixpoint startsWith (s p : jsstring) : bool :=
  match p, s with
  | [], _ => true
  | _ :: _, [] => false
  | a :: p', b :: s' => (a =? b)%N && startsWith s' p'
  end.

Fixpoint includes (s p : jsstring) : bool :=
  startsWith s p
  || match s with
     | [] => false
     | _ :: s' => includes s' p
     end.

Fixpoint strip_prefix (p s : jsstring) : option jsstring :=
  match p, s with
  | [], _ => Some s
  | _ :: _, [] => None
  | a :: p', b :: s' => if (a =? b)%N then strip_prefix p' s' else None
  end.

(** The tail of both regular expressions, a quote character and then a
    closing parenthesis, tried at the head of [s]. *)
Definition closes (s : jsstring) : bool :=
  match s with
  | q :: p :: _ => is_quote q && (p =? 41)%N
  | _ => false
  end.

(** The lazy group [(.*?)] followed by the tail: the shortest run of
    non-terminators after which the tail matches. *)
Fixpoint lazy_group (s : jsstring) : option jsstring :=
  if closes s then Some []
  else match s with
       | [] => None
       | c :: s' =>
           if is_line_terminator c then None
           else option_map (cons c) (lazy_group s')
       end.

(** One attempt of the expression (prefix, quote, lazy group, tail) at the
    head of [s]; the result is capture group 1. *)
Definition match_here (prefix s : jsstring) : option jsstring :=
  match strip_prefix prefix s with
  | Some (q :: rest) => if is_quote q then lazy_group rest else None
  | _ => None
  end.

(** [s.match(re)] without the [g] flag: the leftmost start index wins. *)
Fixpoint regex_match (prefix s : jsstring) : option jsstring :=
  match match_here prefix s with
  | Some m => Some m
  | None => match s with
            | [] => None
            | _ :: s' => regex_match prefix s'
            end
  end.

(** The expression for print with a quoted literal. *)
Definition printMatch (trimmedLine : jsstring) : option jsstring :=
  regex_match (units "print(") trimmedLine.

(** The expression for print with an f-string. *)
Definition fStringMatch (trimmedLine : jsstring) : option jsstring :=
  regex_match (units "print(f") trimmedLine.

(** [s.replace(/pat/g, rep)] for a literal, non-empty pattern: matches are
    taken left to right and do not overlap. *)
Fixpoint replace_from (pat rep : jsstring) (skip : nat) (s : jsstring) : jsstring :=
  match s with
  | [] => []
  | c :: s' =>
      match skip with
      | S k => replace_from pat rep k s'
      | O => if startsWith s pat
             then rep ++ replace_from pat rep (length pat - 1) s'
             else c :: replace_from pat rep 0 s'
      end
  end.

Definition replace (pat rep s : jsstring) : jsstring := replace_from pat rep 0 s.

Fixpoint uint_units (u : Decimal.uint) : jsstring :=
  match u with
  | Nil => []
  | D0 u => 48%N :: uint_units u
  | D1 u => 49%N :: uint_units u
  | D2 u => 50%N :: uint_units u
  | D3 u => 51%N :: uint_units u
  | D4 u => 52%N :: uint_units u
  | D5 u => 53%N :: uint_units u
  | D6 u => 54%N :: uint_units u
  | D7 u => 55%N :: uint_units u
  | D8 u => 56%N :: uint_units u
  | D9 u => 57%N :: uint_units u
  end.

(** The decimal text of an integer, as the replacement argument is
    converted by [replace]. *)
Definition number_units (z : Z) : jsstring :=
  match Z.to_int z with
  | Decimal.Pos u => uint_units u
  | Decimal.Neg u => 45%N :: uint_units u
  end.

(** The fixed lines appended for the idioms found in the text. *)
Definition LED_ENCENDIDO : jsstring := [55357; 56481; 32]%N ++ units "LED encendido".
Definition LED_APAGADO : jsstring := [55357; 56481; 32]%N ++ units "LED apagado".
Definition ESPERANDO : jsstring := [9201; 65039; 32]%N ++ units "Esperando...".
Definition BUCLE_INFINITO : jsstring := [55357; 56580; 32]%N ++ units "Bucle infinito iniciado".

(** The body of [lines.forEach]: [k] counts the calls of [Math.random] made
    so far, [rnd] gives the value each call returns. *)
Definition scanLine (rnd : nat -> Q) (st : nat * list jsstring) (line : jsstring)
  : nat * list jsstring :=
  let '(k, output) := st in
  let trimmedLine := trim line in
  match trimmedLine with
  | [] => (k, output)
  | _ :: _ =>
      if startsWith trimmedLine (units "#") then (k, output)
      else
        let output :=
          match printMatch trimmedLine with
          | Some m => output ++ [m]
          | None => output
          end in
        match fStringMatch trimmedLine with
        | Some m =>
            let outputLine := replace (units "{value}") (number_units (Qfloor (rnd k * 1024))) m in
            let outputLine := replace (units "{angle}") (number_units (Qfloor (Double.round (rnd (S k) * 180)))) outputLine in
            (S (S k), output ++ [outputLine])
        | None => (k, output)
        end
  end.

Definition idiomLines (code : jsstring) : list jsstring :=
  (if includes code (units "led.on()") || includes code (units "led.value(1)")
   then [LED_ENCENDIDO] else [])
  ++ (if includes code (units "led.off()") || includes code (units "led.value(0)")
      then [LED_APAGADO] else [])
  ++ (if includes code (units "time.sleep") then [ESPERANDO] else [])
  ++ (if includes code (units "while True") then [BUCLE_INFINITO] else []).

(** The [output] array of [handleExecuteCode] just before its [setTimeout],
    with the number of random draws made. *)
Definition simulateOutput (rnd : nat -> Q) (k : nat) (code : jsstring)
  : nat * list jsstring :=
  let lines := split code in
  let '(k', output) := fold_left (scanLine rnd) lines (k, []) in
  (k', output ++ idiomLines code).

End JsText.

Import JsText.


(** ** The device catalog *)

Module Catalog.

Inductive Pin :=
| PinNumber (n : Z)
| PinName (label : string).

Record Pins := mkPins {
  digital : list Pin;
  analog : list Pin;
  pwm : option (list Pin) }.

Record DeviceDescriptor := mkDevice {
  id : string;
  name : string;
  type : string;
  port : string;
  status : string;
  capabilities : list string;
  pins : Pins }.

Definition numbered (l : list Z) : list Pin := map PinNumber l.

Definition arduino_uno : DeviceDescriptor :=
  mkDevice "arduino-uno" "Arduino UNO" "arduino" "COM3" "available"
    ["digital"; "analog"; "pwm"; "serial"]%string
    (mkPins (numbered [2; 3; 4; 5; 6; 7; 8; 9; 10; 11; 12; 13]%Z)
            (map PinName ["A0"; "A1"; "A2"; "A3"; "A4"; "A5"]%string)
            (Some (numbered [3; 5; 6; 9; 10; 11]%Z))).

Definition microbit_v2 : DeviceDescriptor :=
  mkDevice "microbit-v2" "micro:bit V2" "microbit" "COM4" "available"
    ["led"; "button"; "accelerometer"; "compass"; "temperature"]%string
    (mkPins (numbered [0; 1; 2; 3; 4; 5; 6; 7; 8; 9; 10; 11; 12; 13; 14; 15; 16; 19; 20]%Z)
            (numbered [0; 1; 2; 3; 4; 10]%Z)
            None).

Definition raspberry_pico : DeviceDescriptor :=
  mkDevice "raspberry-pico" "Raspberry Pi Pico" "pico" "COM5" "available"
    ["digital"; "analog"; "pwm"; "i2c"; "spi"]%string
    (mkPins (numbered [0; 1; 2; 3; 4; 5; 6; 7; 8; 9; 10; 11; 12; 13; 14; 15; 16; 17;
                       18; 19; 20; 21; 22; 26; 27; 28]%Z)
            (numbered [26; 27; 28; 29]%Z)
            None).

(** The own properties of the object literal, in insertion order (the order
    of [Object.values]). *)
Definition SIMULATED_DEVICES : list (string * DeviceDescriptor) :=
  [("arduino-uno"%string, arduino_uno);
   ("microbit-v2"%string, microbit_v2);
   ("raspberry-pico"%string, raspberry_pico)].

Fixpoint own_property (l : list (string * DeviceDescriptor)) (key : string)
  : option DeviceDescriptor :=
  match l with
  | [] => None
  | (k, d) :: l' => if String.eqb k key then Some d else own_property l' key
  end.

(** [SIMULATED_DEVICES] is an object literal, so its prototype is
    [Object.prototype]; these are the property names found there. Every one
    of them holds a function or an object, hence a truthy value. *)
Definition object_prototype_keys : list string :=
  ["constructor"; "__defineGetter__"; "__defineSetter__"; "hasOwnProperty";
   "__lookupGetter__"; "__lookupSetter__"; "isPrototypeOf";
   "propertyIsEnumerable"; "toString"; "valueOf"; "__proto__";
   "toLocaleString"]%string.

(** The value of [SIMULATED_DEVICES[deviceId]] when it is not [undefined]. *)
Inductive PropertyValue :=
| OwnDevice (d : DeviceDescriptor)
| Inherited (key : string).

(** [SIMULATED_DEVICES[deviceId]]: own properties first, then the prototype;
    [None] is [undefined]. *)
Definition get_property (deviceId : string) : option PropertyValue :=
  match own_property SIMULATED_DEVICES deviceId with
  | Some d => Some (OwnDevice d)
  | None =>
      if existsb (String.eqb deviceId) object_prototype_keys
      then Some (Inherited deviceId)
      else None
  end.

(** What the spread [{...device}] copies: the own enumerable properties. A
    function or [Object.prototype] has none. *)
Definition spread (device : PropertyValue) : option DeviceDescriptor :=
  match device with
  | OwnDevice d => Some d
  | Inherited _ => None
  end.

End Catalog.

(** ** Sessions, frames, timers and the server state *)

(** The object stored in [connection.devices]: the spread of the catalog
    value, then the four fields written after it ([status] overrides the
    descriptor's). *)
Record DeviceSession := mkSession {
  descriptor : option Catalog.DeviceDescriptor;
  peripheralId : option string;
  baudrate : Z;
  connectedAt : Q;
  status : string }.

Inductive SensorData :=
| ArduinoData (A0 A1 A2 D2 D3 D13 : Z)
| MicrobitData (x y z : Q) (temperature buttonA buttonB : Z)
| PicoData (GP26 GP27 GP28 GP0 GP1 GP2 GP25 : Z)
| NoData.

(** The [data] field of a [deviceData] frame: telemetry, or the echo of a
    [sendData] request (its payload is kept opaque). *)
Inductive DataPayload :=
| Telemetry (sensorData : SensorData) (timestamp : Q)
| Processed (data : string) (timestamp : Q).

(** The frames given to [ws.send]. Time stamps are the clock of the event
    loop; their ISO text is not modelled. *)
Inductive Frame :=
| Welcome (clientId : nat)
| InvalidFormat
| ErrorFrame (message : string)
| DeviceList (devices : list (Catalog.DeviceDescriptor * bool))
| DeviceConnected (deviceId : string) (peripheralId : option string) (baudrate : Z)
    (capabilities : option (list string)) (pins : option Catalog.Pins)
| DeviceDisconnected (deviceId : string)
| DeviceData (deviceId : string) (data : DataPayload)
| DeviceStatus (deviceId : string) (status : string) (connectedAt uptime : Q)
| Pong (timestamp : Q)
| CodeUploaded (deviceId : string) (codeLength : nat) (timestamp : Q)
| CodeExecuted (deviceId : string) (output : jsstring) (timestamp : Q)
| DeviceAction (deviceId action message : string) (pin : option string) (pattern : string)
| CodeInjected (deviceId : string)
| CodeOutput (deviceId : string).

(** A connection object. It lives on the heap: the registry holds one
    reference to it, and every callback scheduled for it holds another, so it
    outlives its registration. [sent] is the sequence of [ws.send] calls made
    on its socket, each with the time of the call. *)
Record Connection := mkConnection {
  ip : string;
  connected : bool;
  devices : gmap string DeviceSession;
  sent : list (Q * Frame) }.

(** The closures given to [setTimeout] and [setInterval], with the variables
    each one captures. [connection] is a reference to a connection object;
    [clientId] is the number the registry is looked up with. *)
Inductive Callback :=
| ConnectDone (clientId connection : nat) (deviceId : string)
    (device : Catalog.PropertyValue) (peripheralId : option string) (baudrate : Z)
| SendDataDone (connection : nat) (deviceId data : string)
| UploadDone (clientId connection : nat) (deviceId : string) (code : jsstring)
| AutoExecute (clientId : nat) (deviceId : string) (code : jsstring)
| ExecuteDone (connection : nat) (deviceId : string) (output : list jsstring)
| PicoInject (clientId connection : nat) (deviceId : string)
| PicoOutput (connection : nat) (deviceId : string)
| ArduinoBlink (clientId connection : nat) (deviceId : string)
| MicrobitPattern (clientId connection : nat) (deviceId : string)
| TelemetryTick (connection : nat) (deviceId : string).

(** A pending timer; [period] is [Some p] for [setInterval]. *)
Record Timer := mkTimer {
  tid : nat;
  due : Q;
  period : option Q;
  callback : Callback }.

Record State := mkState {
  activeConnections : gset nat;
  heap : gmap nat Connection;
  connectionId : nat;
  timers : list Timer;
  nextTimer : nat;
  now : Q;
  draws : nat }.

(** A parsed client message; the fields a kind does not use are ignored. *)
Record Message := mkMessage {
  msg_type : string;
  msg_deviceId : string;
  msg_peripheralId : option string;
  msg_baudrate : option Z;
  msg_data : string;
  msg_code : jsstring }.

(** What the event loop can run next. [EvMessage] carries [None] when
    [JSON.parse] throws. *)
Inductive Event :=
| EvConnection (t : Q) (ip : string)
| EvMessage (t : Q) (clientId : nat) (raw : option Message)
| EvClose (t : Q) (clientId : nat)
| EvError (t : Q) (clientId : nat)
| EvTimer (t : nat).

Definition initial : State := mkState ∅ ∅ 0 [] 0 0 0.

(** ** The handlers *)

Section Engine.

(** The value returned by each call of [Math.random], numbered from 0, as
    an exact rational; the arithmetic on it is exact. *)
Variable rnd : nat -> Q.

Definition with_heap (h : gmap nat Connection) (s : State) : State :=
  mkState (activeConnections s) h (connectionId s) (timers s) (nextTimer s)
          (now s) (draws s).

Definition with_timers (l : list Timer) (s : State) : State :=
  mkState (activeConnections s) (heap s) (connectionId s) l (nextTimer s)
          (now s) (draws s).

Definition at_time (t : Q) (s : State) : State :=
  mkState (activeConnections s) (heap s) (connectionId s) (timers s)
          (nextTimer s) t (draws s).

(** [Math.random()] *)
Definition random (s : State) : Q * State :=
  (rnd (draws s),
   mkState (activeConnections s) (heap s) (connectionId s) (timers s)
           (nextTimer s) (now s) (S (draws s))).

Definition record_send (t : Q) (f : Frame) (c : Connection) : Connection :=
  mkConnection (ip c) (connected c) (devices c) (sent c ++ [(t, f)]).

(** [connection.ws.send(JSON.stringify(f))] *)
Definition send (connection : nat) (f : Frame) (s : State) : State :=
  with_heap (alter (record_send (now s) f) connection (heap s)) s.

Definition with_devices (m : gmap string DeviceSession) (c : Connection) : Connection :=
  mkConnection (ip c) (connected c) m (sent c).

(** [connection.devices.set(deviceId, session)] *)
Definition devices_set (connection : nat) (deviceId : string) (session : DeviceSession)
    (s : State) : State :=
  with_heap (alter (fun c => with_devices (<[deviceId := session]> (devices c)) c)
                   connection (heap s)) s.

(** [connection.devices.delete(deviceId)] *)
Definition devices_delete (connection : nat) (deviceId : string) (s : State) : State :=
  with_heap (alter (fun c => with_devices (delete deviceId (devices c)) c)
                   connection (heap s)) s.

Definition devices_of (s : State) (connection : nat) : gmap string DeviceSession :=
  match heap s !! connection with
  | Some c => devices c
  | None => ∅
  end.

(** [connection.devices.get(deviceId)] *)
Definition devices_get (s : State) (connection : nat) (deviceId : string)
  : option DeviceSession :=
  devices_of s connection !! deviceId.

(** [connection.devices.has(deviceId)] *)
Definition devices_has (s : State) (connection : nat) (deviceId : string) : bool :=
  match devices_get s connection deviceId with
  | Some _ => true
  | None => false
  end.

(** [activeConnections.get(clientId)]: a reference to the connection
    object, which sits at the address of its client number. *)
Definition get_connection (s : State) (clientId : nat) : option nat :=
  if bool_decide (clientId ∈ activeConnections s) then Some clientId else None.

(** [setTimeout(cb, delay)]; the handle it returns is never kept. *)
Definition setTimeout (cb : Callback) (delay : Q) (s : State) : State :=
  mkState (activeConnections s) (heap s) (connectionId s)
          (timers s ++ [mkTimer (nextTimer s) (now s + delay) None cb])
          (S (nextTimer s)) (now s) (draws s).

(** [setInterval(cb, delay)]; the handle is [nextTimer s]. *)
Definition setInterval (cb : Callback) (delay : Q) (s : State) : State :=
  mkState (activeConnections s) (heap s) (connectionId s)
          (timers s ++ [mkTimer (nextTimer s) (now s + delay) (Some delay) cb])
          (S (nextTimer s)) (now s) (draws s).

Definition clearInterval (t : nat) (s : State) : State :=
  with_timers (filter (fun tm => negb (tid tm =? t)%nat) (timers s)) s.

Definition not_connected (deviceId : string) : Frame :=
  ErrorFrame ("Dispositivo " ++ deviceId ++ " no está conectado")%string.

Definition handleGetDeviceList (clientId : nat) (s : State) : State :=
  match get_connection s clientId with
  | None => s
  | Some connection =>
      let devices :=
        map (fun kd => (snd kd, devices_has s connection (Catalog.id (snd kd))))
            Catalog.SIMULATED_DEVICES in
      send connection (DeviceList devices) s
  end.

Definition handleConnectDevice (clientId : nat) (message : Message) (s : State) : State :=
  match get_connection s clientId with
  | None => s
  | Some connection =>
      let deviceId := msg_deviceId message in
      let peripheralId := msg_peripheralId message in
      let baudrate := default 9600%Z (msg_baudrate message) in
      match Catalog.get_property deviceId with
      | None =>
          send connection
               (ErrorFrame ("Dispositivo no encontrado: " ++ deviceId)%string) s
      | Some device =>
          let '(r, s) := random s in
          setTimeout (ConnectDone clientId connection deviceId device peripheralId baudrate)
                     (r * 1000 + 500) s
      end
  end.

Definition handleDisconnectDevice (clientId : nat) (message : Message) (s : State) : State :=
  match get_connection s clientId with
  | None => s
  | Some connection =>
      let deviceId := msg_deviceId message in
      if negb (devices_has s connection deviceId)
      then send connection (not_connected deviceId) s
      else send connection (DeviceDisconnected deviceId)
                (devices_delete connection deviceId s)
  end.

Definition handleSendData (clientId : nat) (message : Message) (s : State) : State :=
  match get_connection s clientId with
  | None => s
  | Some connection =>
      let deviceId := msg_deviceId message in
      let data := msg_data message in
      if negb (devices_has s connection deviceId)
      then send connection (not_connected deviceId) s
      else
        let '(r, s) := random s in
        setTimeout (SendDataDone connection deviceId data) (r * 200 + 100) s
  end.

Definition handleGetDeviceStatus (clientId : nat) (message : Message) (s : State) : State :=
  match get_connection s clientId with
  | None => s
  | Some connection =>
      let deviceId := msg_deviceId message in
      match devices_get s connection deviceId with
      | None => send connection (not_connected deviceId) s
      | Some device =>
          send connection
               (DeviceStatus deviceId (status device) (connectedAt device)
                             (now s - connectedAt device)) s
      end
  end.

Definition handlePing (clientId : nat) (s : State) : State :=
  match get_connection s clientId with
  | None => s
  | Some connection => send connection (Pong (now s)) s
  end.

Definition handleUploadCode (clientId : nat) (deviceId : string) (code : jsstring)
    (s : State) : State :=
  match get_connection s clientId with
  | None => s
  | Some connection =>
      if negb (devices_has s connection deviceId)
      then send connection (not_connected deviceId) s
      else
        let '(r, s) := random s in
        setTimeout (UploadDone clientId connection deviceId code) (r * 2000 + 1000) s
  end.

(** [handleExecuteCode(clientId, {deviceId, code})] *)
Definition handleExecuteCode (clientId : nat) (deviceId : string) (code : jsstring)
    (s : State) : State :=
  match get_connection s clientId with
  | None => s
  | Some connection =>
      if negb (devices_has s connection deviceId)
      then send connection (not_connected deviceId) s
      else
        let '(k, output) := simulateOutput rnd (draws s) code in
        let s := mkState (activeConnections s) (heap s) (connectionId s) (timers s)
                         (nextTimer s) (now s) k in
        let '(r, s) := random s in
        setTimeout (ExecuteDone connection deviceId output) (r * 1000 + 500) s
  end.

Definition handleDeviceSpecificActions (clientId : nat) (deviceId : string) (s : State)
  : State :=
  match get_connection s clientId with
  | None => s
  | Some connection =>
      if String.eqb deviceId "raspberry-pico"
      then setTimeout (PicoInject clientId connection deviceId) 1000 s
      else if String.eqb deviceId "arduino-uno"
      then setTimeout (ArduinoBlink clientId connection deviceId) 1000 s
      else if String.eqb deviceId "microbit-v2"
      then setTimeout (MicrobitPattern clientId connection deviceId) 1000 s
      else s
  end.

Definition startDeviceDataSimulation (clientId : nat) (deviceId : string) (s : State)
  : State :=
  match get_connection s clientId with
  | None => s
  | Some connection =>
      match devices_get s connection deviceId with
      | None => s
      | Some device =>
          let '(r, s) := random s in
          setInterval (TelemetryTick connection deviceId) (1000 + r * 2000) s
      end
  end.

(** [Math.random() > bound ? 1 : 0] *)
Definition above (bound r : Q) : Z := if Qle_bool r bound then 0%Z else 1%Z.

(** The [switch (deviceId)] of the telemetry callback; the draws are made in
    the order the object literal lists its fields. The products with 1024
    and 4096 are exact; the literal 0.8 is the double nearest to 4/5. *)
Definition sampleSensorData (deviceId : string) (k : nat) : SensorData * nat :=
  if String.eqb deviceId "arduino-uno" then
    (ArduinoData (Qfloor (rnd k * 1024)) (Qfloor (rnd (k + 1) * 1024))
                 (Qfloor (rnd (k + 2) * 1024))
                 (above (1 # 2) (rnd (k + 3))) (above (1 # 2) (rnd (k + 4)))
                 (above (1 # 2) (rnd (k + 5))),
     (k + 6)%nat)
  else if String.eqb deviceId "microbit-v2" then
    (MicrobitData (Double.round (Double.round (rnd k - (1 # 2)) * 2000))
                  (Double.round (Double.round (rnd (k + 1) - (1 # 2)) * 2000))
                  (Double.round (Double.round (rnd (k + 2) - (1 # 2)) * 2000))
                  (Qfloor (Double.round (Double.round (rnd (k + 3) * 30) + 15)))
                  (above (Double.round (4 # 5)) (rnd (k + 4)))
                  (above (Double.round (4 # 5)) (rnd (k + 5))),
     (k + 6)%nat)
  else if String.eqb deviceId "raspberry-pico" then
    (PicoData (Qfloor (rnd k * 4096)) (Qfloor (rnd (k + 1) * 4096))
              (Qfloor (rnd (k + 2) * 4096))
              (above (1 # 2) (rnd (k + 3))) (above (1 # 2) (rnd (k + 4)))
              (above (1 # 2) (rnd (k + 5))) 1,
     (k + 6)%nat)
  else (NoData, k).

(** [peripheralId || device.port] *)
Definition or_port (peripheralId : option string) (device : Catalog.PropertyValue)
  : option string :=
  match peripheralId with
  | Some (String _ _) => peripheralId
  | _ => Catalog.port <$> Catalog.spread device
  end.

(** ** The scheduled callbacks *)

(** The callback of [handleConnectDevice]. *)
Definition connectDone (clientId connection : nat) (deviceId : string)
    (device : Catalog.PropertyValue) (peripheralId : option string) (baudrate : Z)
    (s : State) : State :=
  if devices_has s connection deviceId
  then send connection
            (ErrorFrame ("Dispositivo " ++ deviceId ++ " ya está conectado")%string) s
  else
    let s := devices_set connection deviceId
               (mkSession (Catalog.spread device) (or_port peripheralId device)
                          baudrate (now s) "connected") s in
    let s := send connection
               (DeviceConnected deviceId (or_port peripheralId device) baudrate
                  (Catalog.capabilities <$> Catalog.spread device)
                  (Catalog.pins <$> Catalog.spread device)) s in
    let s := startDeviceDataSimulation clientId deviceId s in
    handleDeviceSpecificActions clientId deviceId s.

(** The callback of [startDeviceDataSimulation]; [interval] is its own
    handle. *)
Definition telemetryTick (interval connection : nat) (deviceId : string) (s : State)
  : State :=
  if negb (devices_has s connection deviceId)
  then clearInterval interval s
  else
    let '(sensorData, k) := sampleSensorData deviceId (draws s) in
    let s := mkState (activeConnections s) (heap s) (connectionId s) (timers s)
                     (nextTimer s) (now s) k in
    send connection (DeviceData deviceId (Telemetry sensorData (now s))) s.

Definition runCallback (t : nat) (cb : Callback) (s : State) : State :=
  match cb with
  | ConnectDone clientId connection deviceId device peripheralId baudrate =>
      connectDone clientId connection deviceId device peripheralId baudrate s
  | SendDataDone connection deviceId data =>
      send connection (DeviceData deviceId (Processed data (now s))) s
  | UploadDone clientId connection deviceId code =>
      let s := send connection (CodeUploaded deviceId (length code) (now s)) s in
      setTimeout (AutoExecute clientId deviceId code) 1000 s
  | AutoExecute clientId deviceId code =>
      handleExecuteCode clientId deviceId code s
  | ExecuteDone connection deviceId output =>
      send connection (CodeExecuted deviceId (join output) (now s)) s
  | PicoInject clientId connection deviceId =>
      let s := send connection (CodeInjected deviceId) s in
      setTimeout (PicoOutput connection deviceId) 500 s
  | PicoOutput connection deviceId =>
      send connection (CodeOutput deviceId) s
  | ArduinoBlink clientId connection deviceId =>
      send connection
           (DeviceAction deviceId "led_blink" "LED integrado parpadeando"
                         (Some "D13"%string) "blink_5_times") s
  | MicrobitPattern clientId connection deviceId =>
      send connection
           (DeviceAction deviceId "led_pattern" "Patrón de bienvenida en LED matrix"
                         None "smile_face") s
  | TelemetryTick connection deviceId =>
      telemetryTick t connection deviceId s
  end.

(** ** The dispatcher and the socket events *)

Definition handleMessage (clientId : nat) (message : Message) (s : State) : State :=
  match get_connection s clientId with
  | None => s
  | Some connection =>
      let type := msg_type message in
      if String.eqb type "getDeviceList" then handleGetDeviceList clientId s
      else if String.eqb type "connectDevice" then handleConnectDevice clientId message s
      else if String.eqb type "disconnectDevice" then handleDisconnectDevice clientId message s
      else if String.eqb type "sendData" then handleSendData clientId message s
      else if String.eqb type "getDeviceStatus" then handleGetDeviceStatus clientId message s
      else if String.eqb type "ping" then handlePing clientId s
      else if String.eqb type "uploadCode"
      then handleUploadCode clientId (msg_deviceId message) (msg_code message) s
      else if String.eqb type "executeCode"
      then handleExecuteCode clientId (msg_deviceId message) (msg_code message) s
      else send connection
                (ErrorFrame ("Tipo de mensaje no soportado: " ++ type)%string) s
  end.

(** [wss.on('connection')] *)
Definition onConnection (clientIP : string) (s : State) : State :=
  let clientId := S (connectionId s) in
  let s := mkState ({[clientId]} ∪ activeConnections s)
                   (<[clientId := mkConnection clientIP true ∅ []]> (heap s))
                   clientId (timers s) (nextTimer s) (now s) (draws s) in
  send clientId (Welcome clientId) s.

(** [ws.on('message')] of the socket of [clientId]. *)
Definition onMessage (clientId : nat) (raw : option Message) (s : State) : State :=
  match raw with
  | Some message => handleMessage clientId message s
  | None => send clientId InvalidFormat s
  end.

(** [ws.on('close')] and [ws.on('error')] *)
Definition onClose (clientId : nat) (s : State) : State :=
  mkState (activeConnections s ∖ {[clientId]}) (heap s) (connectionId s)
          (timers s) (nextTimer s) (now s) (draws s).

(** ** The event loop *)

Definition find_timer (t : nat) (s : State) : option Timer :=
  find (fun tm => (tid tm =? t)%nat) (timers s).

Definition remove_timer (t : nat) (s : State) : State := clearInterval t s.

(** An interval that its callback did not clear is armed again, one period
    after this firing. *)
Definition rearm (t : nat) (p : Q) (s : State) : State :=
  with_timers
    ((fun tm => if (tid tm =? t)%nat
                then mkTimer (tid tm) (now s + p) (period tm) (callback tm)
                else tm) <$> timers s) s.

Definition fire (tm : Timer) (s : State) : State :=
  match period tm with
  | None => runCallback (tid tm) (callback tm) (remove_timer (tid tm) s)
  | Some p => rearm (tid tm) p (runCallback (tid tm) (callback tm) s)
  end.

(** Nothing is due before [t], and the clock has not passed [t]. *)
Definition quiet_until (t : Q) (s : State) : bool :=
  Qle_bool (now s) t && forallb (fun tm => Qle_bool t (due tm)) (timers s).

(** One turn of the event loop. Timers fire at the time they are due, the
    earliest first; a socket event at time [t] runs when no timer is due
    before [t]. [None]: the event cannot happen in this state. *)
Definition step (e : Event) (s : State) : option State :=
  match e with
  | EvConnection t clientIP =>
      if quiet_until t s then Some (onConnection clientIP (at_time t s)) else None
  | EvMessage t clientId raw =>
      match heap s !! clientId with
      | Some _ =>
          if quiet_until t s then Some (onMessage clientId raw (at_time t s)) else None
      | None => None
      end
  | EvClose t clientId | EvError t clientId =>
      match heap s !! clientId with
      | Some _ => if quiet_until t s then Some (onClose clientId (at_time t s)) else None
      | None => None
      end
  | EvTimer t =>
      match find_timer t s with
      | Some tm =>
          if quiet_until (due tm) s then Some (fire tm (at_time (due tm) s)) else None
      | None => None
      end
  end.

Fixpoint run (evs : list Event) (s : State) : option State :=
  match evs with
  | [] => Some s
  | e :: evs' =>
      match step e s with
      | Some s' => run evs' s'
      | None => None
      end
  end.

Inductive reachable : State -> Prop :=
| reachable_initial : reachable initial
| reachable_step e s s' : reachable s -> step e s = Some s' -> reachable s'.

(** The frames sent on a connection, in order. *)
Definition sent_on (s : State) (connection : nat) : list (Q * Frame) :=
  match heap s !! connection with
  | Some c => sent c
  | None => []
  end.

End Engine.

(** ** Invariants of the reachable states *)

(** The connection objects a closure holds a reference to. *)
Definition captured (cb : Callback) : list nat :=
  match cb with
  | ConnectDone _ connection _ _ _ _ => [connection]
  | SendDataDone connection _ _ => [connection]
  | UploadDone _ connection _ _ => [connection]
  | AutoExecute _ _ _ => []
  | ExecuteDone connection _ _ => [connection]
  | PicoInject _ connection _ => [connection]
  | PicoOutput connection _ => [connection]
  | ArduinoBlink _ connection _ => [connection]
  | MicrobitPattern _ connection _ => [connection]
  | TelemetryTick connection _ => [connection]
  end.

Definition is_telemetry (cb : Callback) : bool :=
  match cb with
  | TelemetryTick _ _ => true
  | _ => false
  end.

Record wf (s : State) : Prop := mkWf {
  wf_tid_fresh : forall tm, tm ∈ timers s -> (tid tm < nextTimer s)%nat;
  wf_tid_unique : NoDup (tid <$> timers s);
  wf_heap_bound : forall c, is_Some (heap s !! c) -> (c <= connectionId s)%nat;
  wf_registered : forall c, c ∈ activeConnections s -> is_Some (heap s !! c);
  wf_interval : forall tm, tm ∈ timers s ->
      is_telemetry (callback tm) = true <-> is_Some (period tm);
  wf_known : forall c d, is_Some (devices_of s c !! d) ->
      is_Some (Catalog.get_property d);
  wf_connect : forall tm clientId c d device p b, tm ∈ timers s ->
      callback tm = ConnectDone clientId c d device p b ->
      Catalog.get_property d = Some device;
  wf_captured : forall tm c, tm ∈ timers s -> c ∈ captured (callback tm) ->
      is_Some (heap s !! c) }.

(** Bounds that hold when every random value lies in the range of
    [Math.random]. *)
Record timed (s : State) : Prop := mkTimed {
  timed_period : forall tm p, tm ∈ timers s -> period tm = Some p ->
      (1000 <= p /\ p < 3000)%Q;
  timed_sendData : forall tm c d data, tm ∈ timers s ->
      callback tm = SendDataDone c d data -> (due tm < now s + 300)%Q }.

(** The device stays out of the connection's map in every state a run
    passes through. *)
Fixpoint detached_along (rnd : nat -> Q) (c : nat) (d : string) (evs : list Event)
    (s : State) : bool :=
  negb (devices_has s c d)
  && match evs with
     | [] => true
     | e :: evs' =>
         match step rnd e s with
         | Some s' => detached_along rnd c d evs' s'
         | None => true
         end
     end.

(** ** Where timers and frames come from

    [s0] is the state a handler or callback starts from, and [fired] the
    timer whose callback is running, if any. *)

Definition is_sendData (cb : Callback) : bool :=
  match cb with
  | SendDataDone _ _ _ => true
  | _ => false
  end.

(** A timer made while handling the event: an interval with a period drawn
    for it, the delayed answer to a [sendData] accepted for an attached
    device, or any other time-out. *)
Definition spawned (rnd : nat -> Q) (s0 : State) (tm : Timer) : Prop :=
  (exists k c d,
     period tm = Some (1000 + rnd k * 2000)%Q
     /\ due tm = (now s0 + (1000 + rnd k * 2000))%Q
     /\ callback tm = TelemetryTick c d)
  \/ (exists k c d data,
        period tm = None
        /\ due tm = (now s0 + (rnd k * 200 + 100))%Q
        /\ callback tm = SendDataDone c d data
        /\ devices_has s0 c d = true)
  \/ (period tm = None /\ is_sendData (callback tm) = false
      /\ is_telemetry (callback tm) = false).

(** A frame sent on connection [c] while handling the event: a
    [deviceData] frame comes only from the timer that fired, either the
    answer to a [sendData] or a telemetry tick that found the device in the
    map. *)
Definition emitted (s0 : State) (fired : option Timer) (c : nat) (f : Frame) : Prop :=
  forall d payload, f = DeviceData d payload ->
    exists tm, fired = Some tm
      /\ ((exists data, callback tm = SendDataDone c d data)
          \/ (callback tm = TelemetryTick c d /\ devices_has s0 c d = true)).

Definition effect (rnd : nat -> Q) (s0 : State) (fired : option Timer)
    (s s' : State) : Prop :=
  now s = now s0 ->
  now s' = now s0
  /\ (forall tm, tm ∈ timers s' -> tm ∈ timers s \/ spawned rnd s0 tm)
  /\ (forall c, exists new,
        sent_on s' c = sent_on s c ++ new
        /\ Forall (fun tf => fst tf = now s0 /\ emitted s0 fired c (snd tf)) new).

(** The timer an event fires, if it is a timer event. *)
Definition fired_timer (e : Event) (s : State) : option Timer :=
  match e with
  | EvTimer t => find_timer t s
  | _ => None
  end.

(** ** What an event changes in the connection objects *)

(** The connection object a callback works on: the one it captured, or for
    the automatic execution the one its client number is registered with. *)
Definition target (cb : Callback) : nat :=
  match cb with
  | ConnectDone _ connection _ _ _ _ => connection
  | SendDataDone connection _ _ => connection
  | UploadDone _ connection _ _ => connection
  | AutoExecute clientId _ _ => clientId
  | ExecuteDone connection _ _ => connection
  | PicoInject _ connection _ => connection
  | PicoOutput connection _ => connection
  | ArduinoBlink _ connection _ => connection
  | MicrobitPattern _ connection _ => connection
  | TelemetryTick connection _ => connection
  end.

(** A session as the completion of [connectDevice] writes it at time [t]
    under the name [d]. *)
Definition fresh_session (t : Q) (d : string) (session : DeviceSession) : Prop :=
  status session = "connected"%string
  /\ connectedAt session = t
  /\ exists device, Catalog.get_property d = Some device
       /\ descriptor session = Catalog.spread device.

(** [s'] differs from [s] in the connection objects at most at [c]: the
    registry, the client counter and every other object are the same, the
    object at [c] is neither made nor lost, and a session in its map was there
    before or is fresh. *)
Definition touch (t : Q) (c : nat) (s s' : State) : Prop :=
  activeConnections s' = activeConnections s
  /\ connectionId s' = connectionId s
  /\ (forall c', c' <> c -> heap s' !! c' = heap s !! c')
  /\ (is_Some (heap s' !! c) <-> is_Some (heap s !! c))
  /\ (forall d session, devices_of s' c !! d = Some session ->
        devices_of s c !! d = Some session \/ fresh_session t d session).

(** Every session is one that a completed [connectDevice] wrote, not later
    than now. *)
Definition sessions_ok (s : State) : Prop :=
  forall c d session, devices_of s c !! d = Some session ->
    exists t, (t <= now s)%Q /\ fresh_session t d session.

(** The first frame of every connection is its welcome, with its own client
    number, and every frame was sent at or before now, in time order. *)
Fixpoint in_time_order (limit : Q) (l : list (Q * Frame)) : Prop :=
  match l with
  | [] => True
  | (t, _) :: l' => (t <= limit)%Q /\ in_time_order t l'
  end.

Definition log_ok (s : State) : Prop :=
  forall c conn, heap s !! c = Some conn ->
    (exists t rest, sent conn = (t, Welcome c) :: rest)
    /\ in_time_order (now s) (rev (sent conn)).

(** ** Concrete inputs used by the examples *)

(** A source of random values that always returns 0, and one that returns
    0 for the first [n] calls and 1/2 afterwards. *)
Definition tape_zero : nat -> Q := fun _ => 0%Q.

Definition message_for (type deviceId : string) (code : jsstring) : Message :=
  mkMessage type deviceId None None "" code.

(** A line is scanned when its trimmed text is neither empty nor a comment. *)
Definition scanned (line : jsstring) : bool :=
  match trim line with
  | [] => false
  | _ :: _ => negb (startsWith (trim line) (units "#"))
  end.

(** The [case] labels of [handleMessage]. *)
Definition message_kinds : list string :=
  ["getDeviceList"; "connectDevice"; "disconnectDevice"; "sendData";
   "getDeviceStatus"; "ping"; "uploadCode"; "executeCode"]%string.

(** The five requests that name a device and answer an unknown one with an
    error. *)
Definition device_requests : list string :=
  ["connectDevice"; "disconnectDevice"; "getDeviceStatus"; "uploadCode";
   "executeCode"]%string.

(** The state reached from the start by a sequence of events, if they can
    all happen. *)
Definition state_after (rnd : nat -> Q) (evs : list Event) : State :=
  default initial (run rnd evs initial).

(** One client, connected at time 0, asks for the Arduino at time 1; the
    request completes at time 501 and the telemetry period is 1000 ms. *)
Definition arduino_attached : list Event :=
  [EvConnection 0 "127.0.0.1";
   EvMessage 1 1 (Some (message_for "connectDevice" "arduino-uno" []));
   EvTimer 0].

Definition connect_again : Event :=
  EvMessage 600 1 (Some (message_for "connectDevice" "arduino-uno" [])).

(** One client asks for a device called [toString]. *)
Definition toString_requested : list Event :=
  [EvConnection 0 "127.0.0.1";
   EvMessage 1 1 (Some (message_for "connectDevice" "toString" []))].

Definition upload_hello : Event :=
  EvMessage 600 1 (Some (message_for "uploadCode" "arduino-uno" (units "print('hello')"))).

Definition disconnect_arduino (t : Q) : Event :=
  EvMessage t 1 (Some (message_for "disconnectDevice" "arduino-uno" [])).

Definition send_to_arduino (t : Q) : Event :=
  EvMessage t 1 (Some (message_for "sendData" "arduino-uno" [])).

(** One client asks for the Arduino at time 1 and its socket closes at time
    100, before the request completes. *)
Definition closed_while_connecting : list Event :=
  [EvConnection 0 "127.0.0.1";
   EvMessage 1 1 (Some (message_for "connectDevice" "arduino-uno" []));
   EvClose 100 1].

(** The connection an event is about: the new one, the one of the socket,
    or the one the fired callback works on. *)
Definition event_connection (e : Event) (s : State) : nat :=
  match e with
  | EvConnection _ _ => S (connectionId s)
  | EvMessage _ c _ | EvClose _ c | EvError _ c => c
  | EvTimer i =>
      match find_timer i s with
      | Some tm => target (callback tm)
      | None => 0
      end
  end.

(** The timers [handleDeviceSpecificActions] makes, as a list. *)
Definition welcome_timers (clientId connection : nat) (deviceId : string)
    (handle : nat) (t : Q) : list Timer :=
  if String.eqb deviceId "raspberry-pico"
  then [mkTimer handle (t + 1000) None (PicoInject clientId connection deviceId)]
  else if String.eqb deviceId "arduino-uno"
  then [mkTimer handle (t + 1000) None (ArduinoBlink clientId connection deviceId)]
  else if String.eqb deviceId "microbit-v2"
  then [mkTimer handle (t + 1000) None (MicrobitPattern clientId connection deviceId)]
  else [].

(** Two clients; the first attaches the Arduino, the second the Pico. *)
Definition two_clients : list Event :=
  [EvConnection 0 "10.0.0.1";
   EvConnection 5 "10.0.0.2";
   EvMessage 10 1 (Some (message_for "connectDevice" "arduino-uno" []));
   EvMessage 20 2 (Some (message_for "connectDevice" "raspberry-pico" []));
   EvTimer 0;
   EvTimer 1].

Definition connect_pico : Event :=
  EvMessage 1 1 (Some (message_for "connectDevice" "raspberry-pico" [])).

(** One client asks for the Pico at time 1; the request is pending. *)
Definition pico_requested : list Event :=
  [EvConnection 0 "127.0.0.1"; connect_pico].

(** The ranges of the simulated readings. *)
Definition within_ranges (sd : SensorData) : Prop :=
  match sd with
  | ArduinoData a0 a1 a2 d2 d3 d13 =>
      (0 <= a0 < 1024 /\ 0 <= a1 < 1024 /\ 0 <= a2 < 1024
       /\ 0 <= d2 <= 1 /\ 0 <= d3 <= 1 /\ 0 <= d13 <= 1)%Z
  | MicrobitData x y z temperature buttonA buttonB =>
      (-1000 <= x /\ x <= 1000 /\ -1000 <= y /\ y <= 1000 /\ -1000 <= z /\ z <= 1000)%Q
      /\ (15 <= temperature <= 45 /\ 0 <= buttonA <= 1 /\ 0 <= buttonB <= 1)%Z
  | PicoData gp26 gp27 gp28 gp0 gp1 gp2 gp25 =>
      (0 <= gp26 < 4096 /\ 0 <= gp27 < 4096 /\ 0 <= gp28 < 4096
       /\ 0 <= gp0 <= 1 /\ 0 <= gp1 <= 1 /\ 0 <= gp2 <= 1 /\ gp25 = 1)%Z
  | NoData => True
  end.

(** A text without the code unit 10, on which [split] cuts. *)
Definition single_line (l : jsstring) : bool :=
  forallb (fun c => negb (c =? 10)%N) l.

(** A text that the dot of a regular expression matches throughout. *)
Definition dot_run (l : jsstring) : bool :=
  forallb (fun c => negb (is_line_terminator c)) l.

(** The scanned lines on which the plain print expression, or the f-string
    expression, finds a match. *)
Definition print_lines (code : jsstring) : list jsstring :=
  List.filter (fun line => scanned line
                 && match printMatch (trim line) with Some _ => true | None => false end)
              (split code).

Definition fstring_lines (code : jsstring) : list jsstring :=
  List.filter (fun line => scanned line
                 && match fStringMatch (trim line) with Some _ => true | None => false end)
              (split code).

(** One client asks for the Pico on a port and with a baud rate of its
    own. *)
Definition connect_pico_on_port : Message :=
  mkMessage "connectDevice" "raspberry-pico" (Some "COM7"%string) (Some 115200%Z) "" [].

Definition pico_requested_on_port : list Event :=
  [EvConnection 0 "127.0.0.1"; EvMessage 1 1 (Some connect_pico_on_port)].

Definition send_led_to_arduino : Message :=
  mkMessage "sendData" "arduino-uno" None None "led=1" [].

(** A source of random values that goes through 0, 1/8, ..., 7/8. *)
Definition tape_eighths : nat -> Q := fun i => Z.of_nat (i mod 8) # 8.

(** One client attaches the micro:bit; the welcome pattern has been sent and
    the first telemetry tick is the next timer due. *)
Definition microbit_attached : list Event :=
  [EvConnection 0 "127.0.0.1";
   EvMessage 1 1 (Some (message_for "connectDevice" "microbit-v2" []));
   EvTimer 0;
   EvTimer 2].

(** * Properties of the simulated execution *)

Section TextFacts.

Variable rnd : nat -> Q.

Lemma scanLine_accumulates k output line :
  scanLine rnd (k, output) line =
  (fst (scanLine rnd (k, []) line), output ++ snd (scanLine rnd (k, []) line)).
Proof.
  unfold scanLine.
  destruct (trim line) as [|c rest]; cbn [fst snd].
  - by rewrite app_nil_r.
  - destruct (startsWith (c :: rest) (units "#")); cbn [fst snd].
    + by rewrite app_nil_r.
    + destruct (printMatch (c :: rest)), (fStringMatch (c :: rest));
        cbn [fst snd app]; rewrite ?app_nil_r, <- ?app_assoc; reflexivity.
Qed.

Lemma fold_scanLine_accumulates lines k output :
  fold_left (scanLine rnd) lines (k, output) =
  (fst (fold_left (scanLine rnd) lines (k, [])),
   output ++ snd (fold_left (scanLine rnd) lines (k, []))).
Proof.
  revert k output.
  induction lines as [|line lines IH]; intros k output; cbn [fold_left fst snd].
  - by rewrite app_nil_r.
  - rewrite (scanLine_accumulates k output line).
    rewrite IH.
    destruct (scanLine rnd (k, []) line) as [k1 out1] eqn:E1; cbn [fst snd].
    rewrite (IH k1 out1); cbn [fst snd].
    by rewrite app_assoc.
Qed.

Lemma scanLine_skips k output line :
  scanned line = false -> scanLine rnd (k, output) line = (k, output).
Proof.
  unfold scanned, scanLine.
  destruct (trim line) as [|c rest]; [done|].
  destruct (startsWith (c :: rest) (units "#")); [done|discriminate].
Qed.

Lemma scanLine_no_match k output line :
  printMatch (trim line) = None -> fStringMatch (trim line) = None ->
  scanLine rnd (k, output) line = (k, output).
Proof.
  intros Hp Hf. unfold scanLine.
  destruct (trim line) as [|c rest]; [done|].
  destruct (startsWith (c :: rest) (units "#")); [done|].
  by rewrite Hp, Hf.
Qed.

Lemma fold_scanLine_filter lines st :
  fold_left (scanLine rnd) lines st =
  fold_left (scanLine rnd) (List.filter scanned lines) st.
Proof.
  revert st. induction lines as [|line lines IH]; intros [k output]; [done|].
  cbn [fold_left List.filter]. destruct (scanned line) eqn:E; cbn [fold_left].
  - apply IH.
  - rewrite (scanLine_skips k output line E). apply IH.
Qed.

Lemma fold_scanLine_no_match lines k output :
  (forall line, In line lines ->
     printMatch (trim line) = None /\ fStringMatch (trim line) = None) ->
  fold_left (scanLine rnd) lines (k, output) = (k, output).
Proof.
  induction lines as [|line lines IH]; intros H; [done|].
  cbn [fold_left]. destruct (H line (or_introl eq_refl)) as [Hp Hf].
  rewrite (scanLine_no_match k output line Hp Hf).
  apply IH. intros l Hl. apply H. by right.
Qed.

Lemma fold_scanLine_keeps lines k output x :
  In x output -> In x (snd (fold_left (scanLine rnd) lines (k, output))).
Proof.
  intros Hx. rewrite fold_scanLine_accumulates. cbn [snd].
  apply in_or_app. by left.
Qed.

Lemma scanLine_print_hello k output line :
  trim line = units "print('hello')" ->
  scanLine rnd (k, output) line = (k, output ++ [units "hello"]).
Proof.
  intros H. unfold scanLine. rewrite H. reflexivity.
Qed.

Lemma fold_scanLine_print_hello lines k output line :
  In line lines -> trim line = units "print('hello')" ->
  In (units "hello") (snd (fold_left (scanLine rnd) lines (k, output))).
Proof.
  revert k output.
  induction lines as [|l lines IH]; intros k output Hin Ht; [done|].
  cbn [fold_left]. destruct Hin as [->|Hin].
  - rewrite (scanLine_print_hello k output line Ht).
    apply fold_scanLine_keeps, in_or_app. right. by left.
  - destruct (scanLine rnd (k, output) l) as [k1 out1]. by apply IH.
Qed.

Lemma simulateOutput_unfold k code :
  simulateOutput rnd k code =
  (fst (fold_left (scanLine rnd) (split code) (k, [])),
   snd (fold_left (scanLine rnd) (split code) (k, [])) ++ idiomLines code).
Proof.
  unfold simulateOutput.
  by destruct (fold_left (scanLine rnd) (split code) (k, [])).
Qed.

Lemma led_on_marker code :
  includes code (units "led.on()") = true -> In LED_ENCENDIDO (idiomLines code).
Proof.
  intros H. unfold idiomLines. rewrite H. simpl. by left.
Qed.

End TextFacts.

(** C10, as the code has it: a line whose trimmed text is empty or starts
    with [#] is skipped by the line scan, whatever print pattern it holds, and
    makes no random draw; the scan of a text is the scan of its other lines.
    The idiom lines are found in the whole text, comment lines included. *)
Theorem comment_lines_not_scanned (rnd : nat -> Q) (line : jsstring) :
  trim line = [] \/ startsWith (trim line) (units "#") = true ->
  (forall k output, scanLine rnd (k, output) line = (k, output))
  /\ (forall k code,
        simulateOutput rnd k code =
        (fst (fold_left (scanLine rnd) (List.filter scanned (split code)) (k, [])),
         snd (fold_left (scanLine rnd) (List.filter scanned (split code)) (k, []))
           ++ idiomLines code)).
Proof.
  intros H. split.
  - intros k output. apply scanLine_skips. unfold scanned.
    destruct H as [->|H]; [done|].
    destruct (trim line); [done|]. by rewrite H.
  - intros k code. rewrite simulateOutput_unfold.
    by rewrite fold_scanLine_filter.
Qed.

Lemma comment_lines_not_scanned_witness :
  scanLine tape_zero (0%nat, []) (units "  # print('x')") = (0%nat, []).
Proof.
  apply (comment_lines_not_scanned tape_zero (units "  # print('x')")).
  right. reflexivity.
Defined.

(** C10 fails as stated: a comment line that holds an idiom adds the idiom's
    line to the output. *)
Lemma comment_line_adds_idiom_line :
  startsWith (trim (units "# led.on()")) (units "#") = true
  /\ snd (simulateOutput tape_zero 0 (units "x = 1
# led.on()")) = [LED_ENCENDIDO]
  /\ snd (simulateOutput tape_zero 0 (units "x = 1")) = [].
Proof. repeat split. Qed.

(** * Properties of the protocol engine *)

Section EngineFacts.

Variable rnd : nat -> Q.

Lemma get_connection_Some s clientId connection :
  get_connection s clientId = Some connection ->
  connection = clientId /\ clientId ∈ activeConnections s.
Proof.
  unfold get_connection. case_bool_decide; [|done].
  intros [= <-]. done.
Qed.

Lemma sent_on_send s c f :
  is_Some (heap s !! c) ->
  sent_on (send c f s) c = sent_on s c ++ [(now s, f)].
Proof.
  intros [conn H]. unfold sent_on, send. cbn [heap with_heap].
  rewrite lookup_alter_eq, H. reflexivity.
Qed.

Lemma sent_on_send_ne s c c' f :
  c <> c' -> sent_on (send c f s) c' = sent_on s c'.
Proof.
  intros H. unfold sent_on, send. cbn [heap with_heap].
  by rewrite lookup_alter_ne.
Qed.

Lemma devices_of_send s c c' f :
  devices_of (send c f s) c' = devices_of s c'.
Proof.
  unfold devices_of, send. cbn [heap with_heap].
  destruct (decide (c = c')) as [->|Hne].
  - rewrite lookup_alter_eq. by destruct (heap s !! c').
  - by rewrite lookup_alter_ne.
Qed.

Lemma is_Some_lookup_alter (f : Connection -> Connection)
    (h : gmap nat Connection) (c c' : nat) :
  is_Some (alter f c h !! c') <-> is_Some (h !! c').
Proof.
  destruct (decide (c = c')) as [->|Hne].
  - rewrite lookup_alter_eq. apply fmap_is_Some.
  - by rewrite lookup_alter_ne.
Qed.

Lemma devices_of_devices_set s c d session c' :
  devices_of (devices_set c d session s) c' =
  if decide (c = c' /\ is_Some (heap s !! c))
  then <[d := session]> (devices_of s c') else devices_of s c'.
Proof.
  unfold devices_of, devices_set. cbn [heap with_heap].
  destruct (decide (c = c')) as [->|Hne].
  - rewrite lookup_alter_eq. destruct (heap s !! c') eqn:E; cbn.
    + rewrite decide_True; [done|]. split; [done|]. by eexists.
    + rewrite decide_False; [done|]. intros [_ [? ?]]. congruence.
  - rewrite lookup_alter_ne by done. rewrite decide_False; [done|]. by intros [? _].
Qed.

Lemma devices_of_devices_delete s c d c' :
  devices_of (devices_delete c d s) c' =
  if decide (c = c') then delete d (devices_of s c') else devices_of s c'.
Proof.
  unfold devices_of, devices_delete. cbn [heap with_heap].
  destruct (decide (c = c')) as [->|Hne].
  - rewrite lookup_alter_eq. destruct (heap s !! c') eqn:E; cbn; [done|].
    by rewrite delete_empty.
  - by rewrite lookup_alter_ne.
Qed.

Lemma sent_on_devices_set s c d session c' :
  sent_on (devices_set c d session s) c' = sent_on s c'.
Proof.
  unfold sent_on, devices_set. cbn [heap with_heap].
  destruct (decide (c = c')) as [->|Hne].
  - rewrite lookup_alter_eq. by destruct (heap s !! c').
  - by rewrite lookup_alter_ne.
Qed.

Lemma sent_on_devices_delete s c d c' :
  sent_on (devices_delete c d s) c' = sent_on s c'.
Proof.
  unfold sent_on, devices_delete. cbn [heap with_heap].
  destruct (decide (c = c')) as [->|Hne].
  - rewrite lookup_alter_eq. by destruct (heap s !! c').
  - by rewrite lookup_alter_ne.
Qed.

(** *** The primitive operations keep the invariant *)

Lemma wf_send s c f : wf s -> wf (send c f s).
Proof.
  intros [H1 H2 H3 H4 H5 H6 H7 H8]. split; cbn [send with_heap timers nextTimer
    heap connectionId activeConnections]; try done.
  - intros c' Hc'. apply H3. by apply is_Some_lookup_alter in Hc'.
  - intros c' Hc'. apply is_Some_lookup_alter. by apply H4.
  - intros c' d. rewrite devices_of_send. apply H6.
  - intros tm c' Htm Hc'. apply is_Some_lookup_alter. by eapply H8.
Qed.

Lemma wf_devices_set s c d session :
  wf s -> is_Some (Catalog.get_property d) -> wf (devices_set c d session s).
Proof.
  intros [H1 H2 H3 H4 H5 H6 H7 H8] Hd. split; cbn [devices_set with_heap timers
    nextTimer heap connectionId activeConnections]; try done.
  - intros c' Hc'. apply H3. by apply is_Some_lookup_alter in Hc'.
  - intros c' Hc'. apply is_Some_lookup_alter. by apply H4.
  - intros c' d'. rewrite devices_of_devices_set. case_decide; [|apply H6].
    destruct (decide (d = d')) as [<-|Hne]; [done|].
    rewrite lookup_insert_ne by done. apply H6.
  - intros tm c' Htm Hc'. apply is_Some_lookup_alter. by eapply H8.
Qed.

Lemma wf_devices_delete s c d : wf s -> wf (devices_delete c d s).
Proof.
  intros [H1 H2 H3 H4 H5 H6 H7 H8]. split; cbn [devices_delete with_heap timers
    nextTimer heap connectionId activeConnections]; try done.
  - intros c' Hc'. apply H3. by apply is_Some_lookup_alter in Hc'.
  - intros c' Hc'. apply is_Some_lookup_alter. by apply H4.
  - intros c' d'. rewrite devices_of_devices_delete. case_decide; [|apply H6].
    intros Hs. apply (H6 c' d').
    destruct (decide (d = d')) as [<-|Hne].
    + rewrite lookup_delete_eq in Hs. by destruct Hs.
    + by rewrite lookup_delete_ne in Hs.
  - intros tm c' Htm Hc'. apply is_Some_lookup_alter. by eapply H8.
Qed.

Lemma wf_clock_draws s t k :
  wf s ->
  wf (mkState (activeConnections s) (heap s) (connectionId s) (timers s)
              (nextTimer s) t k).
Proof. intros [H1 H2 H3 H4 H5 H6 H7 H8]. by split. Qed.

Lemma wf_at_time s t : wf s -> wf (at_time t s).
Proof. apply wf_clock_draws. Qed.

Lemma wf_schedule s cb delay per :
  wf s ->
  (is_telemetry cb = true <-> is_Some per) ->
  (forall c, c ∈ captured cb -> is_Some (heap s !! c)) ->
  (forall clientId c d device p b,
     cb = ConnectDone clientId c d device p b -> Catalog.get_property d = Some device) ->
  wf (mkState (activeConnections s) (heap s) (connectionId s)
        (timers s ++ [mkTimer (nextTimer s) (now s + delay) per cb])
        (S (nextTimer s)) (now s) (draws s)).
Proof.
  intros [H1 H2 H3 H4 H5 H6 H7 H8] Ht Hc Hk.
  split; cbn [timers nextTimer heap connectionId activeConnections]; try done.
  - intros tm [Htm| ->%list_elem_of_singleton]%elem_of_app; cbn [tid]; [|lia].
    apply H1 in Htm. lia.
  - rewrite fmap_app. apply NoDup_app. split; [done|]. split.
    + intros x Hx ->%list_elem_of_singleton.
      apply list_elem_of_fmap in Hx as (tm & Hx & Htm).
      apply H1 in Htm. cbn [tid] in Hx. lia.
    + apply NoDup_singleton.
  - intros tm [Htm| ->%list_elem_of_singleton]%elem_of_app; [by apply H5|done].
  - intros tm clientId c d device p b
      [Htm| ->%list_elem_of_singleton]%elem_of_app; [by eapply H7|apply Hk].
  - intros tm c [Htm| ->%list_elem_of_singleton]%elem_of_app; [by eapply H8|apply Hc].
Qed.

Lemma wf_setTimeout s cb delay :
  wf s -> is_telemetry cb = false ->
  (forall c, c ∈ captured cb -> is_Some (heap s !! c)) ->
  (forall clientId c d device p b,
     cb = ConnectDone clientId c d device p b -> Catalog.get_property d = Some device) ->
  wf (setTimeout cb delay s).
Proof.
  intros Hwf Ht Hc Hk. apply wf_schedule; try done.
  rewrite Ht. split; [done|]. by intros [? ?].
Qed.

Lemma wf_setInterval s c d delay :
  wf s -> is_Some (heap s !! c) -> wf (setInterval (TelemetryTick c d) delay s).
Proof.
  intros Hwf Hc. apply wf_schedule; try done.
  intros c' ->%list_elem_of_singleton. done.
Qed.

Lemma wf_clearInterval s t : wf s -> wf (clearInterval t s).
Proof.
  intros [H1 H2 H3 H4 H5 H6 H7 H8].
  split; cbn [clearInterval with_timers timers nextTimer heap connectionId
              activeConnections]; try done.
  - intros tm [_ Htm]%list_elem_of_filter. by apply H1.
  - revert H2. generalize (timers s). intros l. induction l as [|x l IH]; [done|].
    rewrite fmap_cons, NoDup_cons. intros [Hx Hl].
    rewrite filter_cons. case_decide; [|by apply IH].
    rewrite fmap_cons, NoDup_cons. split; [|by apply IH].
    intros (y & Hy & [_ Hin]%list_elem_of_filter)%list_elem_of_fmap.
    apply Hx. apply list_elem_of_fmap. by exists y.
  - intros tm [_ Htm]%list_elem_of_filter. by apply H5.
  - intros tm clientId c d device p b [_ Htm]%list_elem_of_filter. by eapply H7.
  - intros tm c [_ Htm]%list_elem_of_filter. by eapply H8.
Qed.

Lemma rearm_fmap_tid s t p :
  tid <$> timers (rearm t p s) = tid <$> timers s.
Proof.
  cbn [rearm with_timers timers]. rewrite <- list_fmap_compose.
  apply list_fmap_ext. intros i tm _. cbn. by destruct (tid tm =? t)%nat.
Qed.

Lemma elem_of_rearm s t p tm :
  tm ∈ timers (rearm t p s) ->
  exists tm0, tm0 ∈ timers s /\ tid tm = tid tm0 /\ period tm = period tm0
              /\ callback tm = callback tm0
              /\ (tm = tm0 \/ (tid tm0 = t /\ due tm = (now s + p)%Q)).
Proof.
  cbn [rearm with_timers timers].
  intros (tm0 & -> & Hin)%list_elem_of_fmap. exists tm0.
  destruct (tid tm0 =? t)%nat eqn:E; cbn; repeat split; auto.
  right. split; [|done]. by apply Nat.eqb_eq.
Qed.

Lemma wf_rearm s t p : wf s -> wf (rearm t p s).
Proof.
  intros [H1 H2 H3 H4 H5 H6 H7 H8].
  split; try done.
  - intros tm (tm0 & Hin & Ht & _)%elem_of_rearm. rewrite Ht. by apply H1.
  - by rewrite rearm_fmap_tid.
  - intros tm (tm0 & Hin & _ & Hp & Hc & _)%elem_of_rearm. rewrite Hp, Hc. by apply H5.
  - intros tm clientId c d device p' b (tm0 & Hin & _ & _ & Hc & _)%elem_of_rearm.
    rewrite Hc. by eapply H7.
  - intros tm c (tm0 & Hin & _ & _ & Hc & _)%elem_of_rearm. rewrite Hc. by eapply H8.
Qed.

Lemma wf_onClose s clientId : wf s -> wf (onClose clientId s).
Proof.
  intros [H1 H2 H3 H4 H5 H6 H7 H8]. split; try done.
  cbn [onClose activeConnections heap]. intros c [Hc _]%elem_of_difference.
  by apply H4.
Qed.

Lemma wf_onConnection s clientIP : wf s -> wf (onConnection clientIP s).
Proof.
  intros [H1 H2 H3 H4 H5 H6 H7 H8]. unfold onConnection. apply wf_send.
  split; cbn [timers nextTimer heap connectionId activeConnections]; try done.
  - intros c. destruct (decide (c = S (connectionId s))) as [->|Hne]; [lia|].
    rewrite lookup_insert_ne by done. intros Hc%H3. lia.
  - intros c. destruct (decide (c = S (connectionId s))) as [->|Hne].
    + by rewrite lookup_insert_eq.
    + rewrite lookup_insert_ne by done.
      intros [Hc%elem_of_singleton|Hc]%elem_of_union; [done|]. by apply H4.
  - intros c d. unfold devices_of. cbn [heap].
    destruct (decide (c = S (connectionId s))) as [->|Hne].
    + rewrite lookup_insert_eq. cbn [devices]. rewrite lookup_empty. by intros [? ?].
    + rewrite lookup_insert_ne by done. apply H6.
  - intros tm c Htm Hc.
    destruct (decide (c = S (connectionId s))) as [->|Hne].
    + by rewrite lookup_insert_eq.
    + rewrite lookup_insert_ne by done. by eapply H8.
Qed.

(** *** The handlers keep the invariant *)

Lemma registered_in_heap s clientId connection :
  wf s -> get_connection s clientId = Some connection ->
  is_Some (heap s !! connection).
Proof.
  intros Hwf [-> Hin]%get_connection_Some. by apply (wf_registered s Hwf).
Qed.

Lemma in_captured_singleton (c c' : nat) : c' ∈ [c] -> c' = c.
Proof. by intros ->%list_elem_of_singleton. Qed.

Ltac captured_in_heap Hwf Hc :=
  let c := fresh "c" in let H := fresh "H" in
  intros c H; apply in_captured_singleton in H; subst c;
  cbn [heap]; exact (registered_in_heap _ _ _ Hwf Hc).

Lemma wf_handleGetDeviceList s clientId : wf s -> wf (handleGetDeviceList clientId s).
Proof.
  intros Hwf. unfold handleGetDeviceList.
  destruct (get_connection s clientId); [by apply wf_send|done].
Qed.

Lemma wf_handleConnectDevice s clientId message :
  wf s -> wf (handleConnectDevice rnd clientId message s).
Proof.
  intros Hwf. unfold handleConnectDevice.
  destruct (get_connection s clientId) as [c|] eqn:Hc; [|done].
  destruct (Catalog.get_property (msg_deviceId message)) as [device|] eqn:Hp;
    [|by apply wf_send].
  unfold random. cbv beta iota zeta.
  apply wf_setTimeout; [by apply wf_clock_draws|done| |].
  - captured_in_heap Hwf Hc.
  - by intros ? ? ? ? ? ? [= _ _ <- <- _ _].
Qed.

Lemma wf_handleDisconnectDevice s clientId message :
  wf s -> wf (handleDisconnectDevice clientId message s).
Proof.
  intros Hwf. unfold handleDisconnectDevice.
  destruct (get_connection s clientId); [|done].
  destruct (negb _); apply wf_send; [done|]. by apply wf_devices_delete.
Qed.

Lemma wf_handleSendData s clientId message :
  wf s -> wf (handleSendData rnd clientId message s).
Proof.
  intros Hwf. unfold handleSendData.
  destruct (get_connection s clientId) as [c|] eqn:Hc; [|done].
  destruct (negb _); [by apply wf_send|].
  unfold random. cbv beta iota zeta.
  apply wf_setTimeout; [by apply wf_clock_draws|done| |done].
  captured_in_heap Hwf Hc.
Qed.

Lemma wf_handleGetDeviceStatus s clientId message :
  wf s -> wf (handleGetDeviceStatus clientId message s).
Proof.
  intros Hwf. unfold handleGetDeviceStatus.
  destruct (get_connection s clientId); [|done].
  destruct (devices_get _ _ _); by apply wf_send.
Qed.

Lemma wf_handlePing s clientId : wf s -> wf (handlePing clientId s).
Proof.
  intros Hwf. unfold handlePing.
  destruct (get_connection s clientId); [by apply wf_send|done].
Qed.

Lemma wf_handleUploadCode s clientId deviceId code :
  wf s -> wf (handleUploadCode rnd clientId deviceId code s).
Proof.
  intros Hwf. unfold handleUploadCode.
  destruct (get_connection s clientId) as [c|] eqn:Hc; [|done].
  destruct (negb _); [by apply wf_send|].
  unfold random. cbv beta iota zeta.
  apply wf_setTimeout; [by apply wf_clock_draws|done| |done].
  captured_in_heap Hwf Hc.
Qed.

Lemma wf_handleExecuteCode s clientId deviceId code :
  wf s -> wf (handleExecuteCode rnd clientId deviceId code s).
Proof.
  intros Hwf. unfold handleExecuteCode.
  destruct (get_connection s clientId) as [c|] eqn:Hc; [|done].
  destruct (negb _); [by apply wf_send|].
  destruct (simulateOutput rnd (draws s) code) as [k output].
  unfold random. cbv beta iota zeta. cbn [activeConnections heap connectionId timers
    nextTimer now draws].
  apply (wf_setTimeout
           (mkState (activeConnections s) (heap s) (connectionId s) (timers s)
                    (nextTimer s) (now s) (S k)));
    [by apply wf_clock_draws|done| |done].
  captured_in_heap Hwf Hc.
Qed.

Lemma wf_handleMessage s clientId message :
  wf s -> wf (handleMessage rnd clientId message s).
Proof.
  intros Hwf. unfold handleMessage.
  destruct (get_connection s clientId); [|done]. cbv zeta.
  repeat (match goal with |- context [if ?b then _ else _] => destruct b end);
    auto using wf_handleGetDeviceList, wf_handleConnectDevice,
      wf_handleDisconnectDevice, wf_handleSendData, wf_handleGetDeviceStatus,
      wf_handlePing, wf_handleUploadCode, wf_handleExecuteCode, wf_send.
Qed.

Lemma wf_handleDeviceSpecificActions s clientId deviceId :
  wf s -> wf (handleDeviceSpecificActions clientId deviceId s).
Proof.
  intros Hwf. unfold handleDeviceSpecificActions.
  destruct (get_connection s clientId) as [c|] eqn:Hc; [|done].
  repeat (match goal with |- context [if ?b then _ else _] => destruct b end);
    try done; (apply wf_setTimeout; [done|done| |done]); captured_in_heap Hwf Hc.
Qed.

Lemma wf_startDeviceDataSimulation s clientId deviceId :
  wf s -> wf (startDeviceDataSimulation rnd clientId deviceId s).
Proof.
  intros Hwf. unfold startDeviceDataSimulation.
  destruct (get_connection s clientId) as [c|] eqn:Hc; [|done].
  destruct (devices_get s c deviceId); [|done].
  unfold random. cbv beta iota zeta.
  apply wf_setInterval; [by apply wf_clock_draws|].
  cbn [heap]. by eapply registered_in_heap.
Qed.

Lemma wf_connectDone s clientId connection deviceId device peripheralId baudrate :
  wf s -> Catalog.get_property deviceId = Some device ->
  wf (connectDone rnd clientId connection deviceId device peripheralId baudrate s).
Proof.
  intros Hwf Hp. unfold connectDone.
  destruct (devices_has s connection deviceId); [by apply wf_send|].
  cbv zeta. apply wf_handleDeviceSpecificActions, wf_startDeviceDataSimulation,
    wf_send, wf_devices_set; [done|]. by rewrite Hp.
Qed.

Lemma wf_telemetryTick s interval connection deviceId :
  wf s -> wf (telemetryTick rnd interval connection deviceId s).
Proof.
  intros Hwf. unfold telemetryTick.
  destruct (negb _); [by apply wf_clearInterval|].
  destruct (sampleSensorData rnd deviceId (draws s)) as [sensorData k].
  cbv zeta. by apply wf_send, wf_clock_draws.
Qed.

Lemma wf_runCallback s t cb :
  wf s ->
  (forall c, c ∈ captured cb -> is_Some (heap s !! c)) ->
  (forall clientId c d device p b,
     cb = ConnectDone clientId c d device p b -> Catalog.get_property d = Some device) ->
  wf (runCallback rnd t cb s).
Proof.
  intros Hwf Hc Hk. destruct cb; cbn [runCallback];
    auto using wf_send, wf_handleExecuteCode, wf_telemetryTick.
  - apply wf_connectDone; [done|]. by eapply Hk.
  - apply wf_setTimeout; [by apply wf_send|done| |done].
    intros c Hin. by apply elem_of_nil in Hin.
  - apply wf_setTimeout; [by apply wf_send|done| |done].
    intros c Hin. cbn [send with_heap heap]. apply is_Some_lookup_alter. by apply Hc.
Qed.

Lemma find_timer_elem s t tm :
  find_timer t s = Some tm -> tm ∈ timers s /\ tid tm = t.
Proof.
  unfold find_timer. intros [Hin Ht]%find_some. split.
  - by apply list_elem_of_In.
  - by apply Nat.eqb_eq.
Qed.

Lemma wf_fire s tm : wf s -> tm ∈ timers s -> wf (fire rnd tm s).
Proof.
  intros Hwf Hin. unfold fire.
  assert (forall c, c ∈ captured (callback tm) -> is_Some (heap s !! c)) as Hc
    by (intros c; by apply (wf_captured s Hwf)).
  assert (forall clientId c d device p b,
            callback tm = ConnectDone clientId c d device p b ->
            Catalog.get_property d = Some device) as Hk
    by (intros; by eapply (wf_connect s Hwf)).
  destruct (period tm).
  - apply wf_rearm. by apply wf_runCallback.
  - apply wf_runCallback; [by apply wf_clearInterval|done|done].
Qed.

Lemma wf_step e s s' : wf s -> step rnd e s = Some s' -> wf s'.
Proof.
  intros Hwf Hs. destruct e as [t clientIP|t clientId raw|t clientId|t clientId|t];
    cbn [step] in Hs.
  - destruct (quiet_until t s); [|done]. injection Hs as <-.
    by apply wf_onConnection, wf_at_time.
  - destruct (heap s !! clientId); [|done].
    destruct (quiet_until t s); [|done]. injection Hs as <-.
    destruct raw; cbn [onMessage].
    + by apply wf_handleMessage, wf_at_time.
    + by apply wf_send, wf_at_time.
  - destruct (heap s !! clientId); [|done].
    destruct (quiet_until t s); [|done]. injection Hs as <-.
    by apply wf_onClose, wf_at_time.
  - destruct (heap s !! clientId); [|done].
    destruct (quiet_until t s); [|done]. injection Hs as <-.
    by apply wf_onClose, wf_at_time.
  - destruct (find_timer t s) as [tm|] eqn:Hf; [|done].
    destruct (quiet_until (due tm) s); [|done]. injection Hs as <-.
    apply wf_fire; [by apply wf_at_time|].
    by apply find_timer_elem in Hf as [Hin _].
Qed.

Lemma wf_initial : wf initial.
Proof.
  split; cbn [initial timers heap activeConnections].
  - intros tm Htm. by apply elem_of_nil in Htm.
  - apply NoDup_nil_2.
  - intros c. rewrite lookup_empty. by intros [? ?].
  - intros c Hc. by apply not_elem_of_empty in Hc.
  - intros tm Htm. by apply elem_of_nil in Htm.
  - intros c d. unfold devices_of. cbn [initial heap]. rewrite lookup_empty.
    rewrite lookup_empty. by intros [? ?].
  - intros tm ? ? ? ? ? ? Htm. by apply elem_of_nil in Htm.
  - intros tm c Htm. by apply elem_of_nil in Htm.
Qed.

Lemma reachable_wf s : reachable rnd s -> wf s.
Proof.
  induction 1 as [|e s s' _ IH Hs]; [apply wf_initial|by eapply wf_step].
Qed.

Lemma run_reachable evs s s' :
  reachable rnd s -> run rnd evs s = Some s' -> reachable rnd s'.
Proof.
  revert s. induction evs as [|e evs IH]; intros s Hr; cbn [run].
  - by intros [= <-].
  - destruct (step rnd e s) as [s1|] eqn:Hs; [|done].
    apply IH. by eapply reachable_step.
Qed.

End EngineFacts.

(** C8: a message whose type is none of the eight kinds is answered by one
    error frame that names the type, and nothing else changes: the registry,
    every device map, the timers and the frames of the other connections are
    as before. *)
Theorem unsupported_type_only_answers (rnd : nat -> Q) (s s' : State) (t : Q)
    (clientId connection : nat) (message : Message) :
  get_connection s clientId = Some connection ->
  existsb (String.eqb (msg_type message)) message_kinds = false ->
  step rnd (EvMessage t clientId (Some message)) s = Some s' ->
  sent_on s' clientId =
    sent_on s clientId
      ++ [(t, ErrorFrame ("Tipo de mensaje no soportado: " ++ msg_type message)%string)]
  /\ activeConnections s' = activeConnections s
  /\ (forall c, devices_of s' c = devices_of s c)
  /\ (forall c, c <> clientId -> sent_on s' c = sent_on s c)
  /\ timers s' = timers s
  /\ connectionId s' = connectionId s
  /\ nextTimer s' = nextTimer s
  /\ draws s' = draws s.
Proof.
  intros Hc Hk Hs.
  destruct (get_connection_Some _ _ _ Hc) as [-> Hin].
  cbn [step] in Hs.
  destruct (heap s !! clientId) as [conn|] eqn:Hh; [|done].
  destruct (quiet_until t s); [|done].
  injection Hs as <-.
  cbn [onMessage]. unfold handleMessage.
  replace (get_connection (at_time t s) clientId) with (Some clientId)
    by (symmetry; exact Hc).
  cbn [existsb message_kinds] in Hk.
  repeat (apply orb_false_elim in Hk as [? Hk]).
  cbn zeta.
  repeat match goal with H : String.eqb _ _ = false |- _ => rewrite H; clear H end.
  repeat split.
  - rewrite sent_on_send; [done|]. cbn [heap at_time]. by rewrite Hh.
  - intros c. by rewrite devices_of_send.
  - intros c Hne. rewrite sent_on_send_ne; done.
Qed.

Lemma unsupported_type_only_answers_witness :
  sent_on (state_after tape_zero
             (arduino_attached ++ [EvMessage 600 1 (Some (message_for "reboot" "" []))])) 1
  = sent_on (state_after tape_zero arduino_attached) 1
      ++ [(600%Q, ErrorFrame "Tipo de mensaje no soportado: reboot")].
Proof.
  refine (proj1 (unsupported_type_only_answers tape_zero
           (state_after tape_zero arduino_attached) _ 600 1 1
           (message_for "reboot" "" []) _ _ _)); vm_compute; reflexivity.
Defined.

(** C2, as the code has it: a [connectDevice] for a device the connection
    already holds only schedules its delayed check, and the map is looked at
    when that check runs, not when the request arrives. Provided the session
    is still in the map at that moment, the check sends the error frame and
    leaves the device map, hence the session and its [connectedAt], as they
    were. *)
Theorem duplicate_connect_rejected (rnd : nat -> Q) (s s1 : State) (t : Q)
    (clientId connection : nat) (d : string) (session : DeviceSession) (m : Message) :
  reachable rnd s ->
  get_connection s clientId = Some connection ->
  devices_get s connection d = Some session ->
  msg_type m = "connectDevice"%string ->
  msg_deviceId m = d ->
  step rnd (EvMessage t clientId (Some m)) s = Some s1 ->
  exists device,
    let cb := ConnectDone clientId connection d device (msg_peripheralId m)
                          (default 9600%Z (msg_baudrate m)) in
    Catalog.get_property d = Some device
    /\ timers s1 =
      timers s ++ [mkTimer (nextTimer s) (t + (rnd (draws s) * 1000 + 500)) None cb]
    /\ sent_on s1 connection = sent_on s connection
    /\ devices_of s1 connection = devices_of s connection
    /\ forall s2 s3 tm session2,
         reachable rnd s2 ->
         find_timer (tid tm) s2 = Some tm ->
         callback tm = cb ->
         devices_get s2 connection d = Some session2 ->
         step rnd (EvTimer (tid tm)) s2 = Some s3 ->
         sent_on s3 connection =
           sent_on s2 connection
             ++ [(due tm, ErrorFrame ("Dispositivo " ++ d ++ " ya está conectado")%string)]
         /\ devices_of s3 connection = devices_of s2 connection
         /\ devices_get s3 connection d = Some session2.
Proof.
  intros Hr Hc Hd Hty Hdev Hs.
  pose proof (reachable_wf rnd s Hr) as Hwf.
  destruct (wf_known s Hwf connection d) as [device Hp].
  { unfold devices_get in Hd. by rewrite Hd. }
  exists device. cbv zeta. split; [exact Hp|].
  cbn [step] in Hs.
  destruct (heap s !! clientId) as [conn|] eqn:Hh; [|done].
  destruct (quiet_until t s); [|done]. injection Hs as <-.
  cbn [onMessage]. unfold handleMessage.
  replace (get_connection (at_time t s) clientId) with (Some connection)
    by (symmetry; exact Hc).
  cbv zeta. rewrite Hty. cbn [String.eqb Ascii.eqb Bool.eqb].
  unfold handleConnectDevice.
  replace (get_connection (at_time t s) clientId) with (Some connection)
    by (symmetry; exact Hc).
  cbv zeta. rewrite Hdev, Hp. unfold random. cbv beta iota zeta.
  split; [reflexivity|]. split; [reflexivity|]. split; [reflexivity|].
  intros s2 s3 tm session2 Hr2 Hf Hcb Hd2 Hs3.
  pose proof (reachable_wf rnd s2 Hr2) as Hwf2.
  cbn [step] in Hs3. rewrite Hf in Hs3.
  destruct (quiet_until (due tm) s2); [|done]. injection Hs3 as <-.
  apply find_timer_elem in Hf as [Hin _].
  assert (period tm = None) as Hper.
  { destruct (period tm) eqn:E; [|done].
    destruct (wf_interval s2 Hwf2 tm Hin) as [_ H]. rewrite Hcb in H.
    discriminate H. by rewrite E. }
  unfold fire. rewrite Hper, Hcb. cbn [runCallback]. unfold connectDone.
  assert (devices_has (remove_timer (tid tm) (at_time (due tm) s2)) connection d = true)
    as ->.
  { unfold devices_has, devices_get, devices_of in *.
    cbn [remove_timer clearInterval with_timers at_time heap]. by rewrite Hd2. }
  assert (is_Some (heap s2 !! connection)) as Hh2.
  { unfold devices_get, devices_of in Hd2.
    destruct (heap s2 !! connection); [done|]. by rewrite lookup_empty in Hd2. }
  split; [|split].
  - rewrite sent_on_send; [done|]. done.
  - by rewrite devices_of_send.
  - unfold devices_get. rewrite devices_of_send. exact Hd2.
Qed.

Lemma duplicate_connect_rejected_witness :
  sent_on (state_after tape_zero (arduino_attached ++ [connect_again; EvTimer 3])) 1
  = sent_on (state_after tape_zero (arduino_attached ++ [connect_again])) 1
      ++ [(600 + (0 * 1000 + 500),
           ErrorFrame "Dispositivo arduino-uno ya está conectado")]%Q.
Proof.
  destruct (duplicate_connect_rejected tape_zero
              (state_after tape_zero arduino_attached)
              (state_after tape_zero (arduino_attached ++ [connect_again]))
              600 1 1 "arduino-uno"
              (mkSession (Some Catalog.arduino_uno) (Some "COM3"%string) 9600
                         (1 + (0 * 1000 + 500)) "connected")
              (message_for "connectDevice" "arduino-uno" []))
    as (device & Hp & _ & _ & _ & Hfire).
  - apply (run_reachable tape_zero arduino_attached initial);
      [apply reachable_initial|vm_compute; reflexivity].
  - vm_compute; reflexivity.
  - vm_compute; reflexivity.
  - reflexivity.
  - reflexivity.
  - vm_compute; reflexivity.
  - vm_compute in Hp. injection Hp as <-.
    refine (proj1 (Hfire (state_after tape_zero (arduino_attached ++ [connect_again])) _
             (mkTimer 3 (600 + (0 * 1000 + 500)) None _) _ _ _ _ _ _)).
    + apply (run_reachable tape_zero (arduino_attached ++ [connect_again]) initial);
        [apply reachable_initial|vm_compute; reflexivity].
    + vm_compute; reflexivity.
    + reflexivity.
    + vm_compute; reflexivity.
    + vm_compute; reflexivity.
Defined.

(** C2 fails as stated: the Arduino is attached at 501 and asked for again
    at 600; the device is disconnected at 700, before the delay of the second
    request ends. At 1100 the delayed check finds no session: no error frame
    is sent, the device is attached again, and the session now carries the
    connect time 1100. *)
Lemma duplicate_connect_passes_after_disconnect :
  let s_twice := state_after tape_zero (arduino_attached ++ [connect_again]) in
  let s := state_after tape_zero
             (arduino_attached ++ [connect_again; disconnect_arduino 700; EvTimer 3]) in
  option_map connectedAt (devices_get s_twice 1 "arduino-uno") = Some 501%Q
  /\ sent_on s 1
     = [(0%Q, Welcome 1);
        (501%Q, DeviceConnected "arduino-uno" (Some "COM3"%string) 9600
                  (Some (Catalog.capabilities Catalog.arduino_uno))
                  (Some (Catalog.pins Catalog.arduino_uno)));
        (700%Q, DeviceDisconnected "arduino-uno");
        (1100%Q, DeviceConnected "arduino-uno" (Some "COM3"%string) 9600
                   (Some (Catalog.capabilities Catalog.arduino_uno))
                   (Some (Catalog.pins Catalog.arduino_uno)))]
  /\ option_map connectedAt (devices_get s 1 "arduino-uno") = Some 1100%Q.
Proof. vm_compute. repeat split. Qed.

(** C1 at the request [connectDevice] for [toString]: the name is not a
    catalog entry, yet no error frame is sent; the request is scheduled, and
    when it completes a session is recorded under that name and
    [deviceConnected] is sent. A later [disconnectDevice] for the same name
    then removes a session instead of answering with an error. *)
Theorem inherited_name_is_connected :
  Catalog.own_property Catalog.SIMULATED_DEVICES "toString" = None
  /\ sent_on (state_after tape_zero toString_requested) 1 = [(0%Q, Welcome 1)]
  /\ length (timers (state_after tape_zero toString_requested)) = 1%nat
  /\ (let s := state_after tape_zero (toString_requested ++ [EvTimer 0]) in
      is_Some (devices_get s 1 "toString")
      /\ map snd (sent_on s 1)
         = [Welcome 1; DeviceConnected "toString" None 9600 None None])
  /\ (let s := state_after tape_zero
                 (toString_requested
                    ++ [EvTimer 0;
                        EvMessage 600 1
                          (Some (message_for "disconnectDevice" "toString" []))]) in
      devices_get s 1 "toString" = None
      /\ map snd (sent_on s 1)
         = [Welcome 1; DeviceConnected "toString" None 9600 None None;
            DeviceDisconnected "toString"]).
Proof. vm_compute. repeat split; by eexists. Qed.

(** What the catalog check does reject: for a device name whose lookup in
    [SIMULATED_DEVICES] is undefined, each of the five requests is answered by
    one error frame, and the device maps and the timers stay as they were. *)
Lemma undefined_device_rejected (rnd : nat -> Q) (s s' : State) (t : Q)
    (clientId c : nat) (d : string) (m : Message) :
  reachable rnd s ->
  get_connection s clientId = Some c ->
  Catalog.get_property d = None ->
  msg_deviceId m = d ->
  In (msg_type m) device_requests ->
  step rnd (EvMessage t clientId (Some m)) s = Some s' ->
  (exists text, sent_on s' c = sent_on s c ++ [(t, ErrorFrame text)])
  /\ (forall c', devices_of s' c' = devices_of s c')
  /\ timers s' = timers s.
Proof.
  intros Hr Hc Hp Hdev Hty Hs.
  pose proof (reachable_wf rnd s Hr) as Hwf.
  pose proof (registered_in_heap s clientId c Hwf Hc) as Hheap.
  assert (devices_get s c d = None) as Hnone.
  { destruct (devices_get s c d) eqn:E; [|done].
    destruct (wf_known s Hwf c d) as [x Hx]; [|congruence].
    unfold devices_get in E. by rewrite E. }
  assert (devices_has s c d = false) as Hd by (unfold devices_has; by rewrite Hnone).
  cbn [step] in Hs.
  destruct (heap s !! clientId); [|done].
  destruct (quiet_until t s); [|done]. injection Hs as <-.
  cbn [onMessage]. unfold handleMessage.
  replace (get_connection (at_time t s) clientId) with (Some c) by (symmetry; exact Hc).
  cbv zeta.
  assert (forall text,
            (exists text', sent_on (send c (ErrorFrame text) (at_time t s)) c
               = sent_on s c ++ [(t, ErrorFrame text')])
            /\ (forall c', devices_of (send c (ErrorFrame text) (at_time t s)) c'
                  = devices_of s c')
            /\ timers (send c (ErrorFrame text) (at_time t s)) = timers s) as Herr.
  { intros text. split; [|split; [|done]].
    - exists text. by rewrite sent_on_send.
    - intros c'. by rewrite devices_of_send. }
  cbn [device_requests In] in Hty.
  destruct Hty as [<-|[<-|[<-|[<-|[<-|[]]]]]]; cbn [String.eqb Ascii.eqb Bool.eqb].
  - unfold handleConnectDevice.
    replace (get_connection (at_time t s) clientId) with (Some c) by (symmetry; exact Hc).
    cbv zeta. rewrite Hdev, Hp. apply Herr.
  - unfold handleDisconnectDevice.
    replace (get_connection (at_time t s) clientId) with (Some c) by (symmetry; exact Hc).
    cbv zeta. rewrite Hdev.
    replace (devices_has (at_time t s) c d) with false by (symmetry; exact Hd).
    apply Herr.
  - unfold handleGetDeviceStatus.
    replace (get_connection (at_time t s) clientId) with (Some c) by (symmetry; exact Hc).
    cbv zeta. rewrite Hdev.
    replace (devices_get (at_time t s) c d) with (@None DeviceSession)
      by (symmetry; exact Hnone).
    apply Herr.
  - unfold handleUploadCode.
    replace (get_connection (at_time t s) clientId) with (Some c) by (symmetry; exact Hc).
    rewrite Hdev.
    replace (devices_has (at_time t s) c d) with false by (symmetry; exact Hd).
    apply Herr.
  - unfold handleExecuteCode.
    replace (get_connection (at_time t s) clientId) with (Some c) by (symmetry; exact Hc).
    rewrite Hdev.
    replace (devices_has (at_time t s) c d) with false by (symmetry; exact Hd).
    apply Herr.
Qed.

(** C7, as the code has it: an [executeCode] request on an attached device
    schedules one completion that sends [codeExecuted] with the joined
    output. A line [print('hello')] adds the entry [hello]; the text
    [led.on()] anywhere adds the LED line; a line that matches neither print
    pattern adds no entry at all (not an empty one), so that a text whose
    lines all match neither pattern gives only the idiom lines. *)
Theorem execute_output_patterns (rnd : nat -> Q) (s s' : State) (t : Q)
    (clientId connection : nat) (d : string) (code : jsstring) (m : Message) :
  get_connection s clientId = Some connection ->
  devices_has s connection d = true ->
  msg_type m = "executeCode"%string ->
  msg_deviceId m = d ->
  msg_code m = code ->
  step rnd (EvMessage t clientId (Some m)) s = Some s' ->
  exists k output,
    simulateOutput rnd (draws s) code = (k, output)
    /\ timers s' =
         timers s ++ [mkTimer (nextTimer s) (t + (rnd k * 1000 + 500)) None
                              (ExecuteDone connection d output)]
    /\ sent_on s' connection = sent_on s connection
    /\ (forall s1 tm,
          runCallback rnd tm (ExecuteDone connection d output) s1
          = send connection (CodeExecuted d (join output) (now s1)) s1)
    /\ (forall line, In line (split code) -> trim line = units "print('hello')" ->
          In (units "hello") output)
    /\ (includes code (units "led.on()") = true -> In LED_ENCENDIDO output)
    /\ (forall line k0 output0,
          printMatch (trim line) = None -> fStringMatch (trim line) = None ->
          scanLine rnd (k0, output0) line = (k0, output0))
    /\ ((forall line, In line (split code) ->
           printMatch (trim line) = None /\ fStringMatch (trim line) = None) ->
        output = idiomLines code).
Proof.
  intros Hc Hd Hty Hdev Hcode Hs.
  destruct (simulateOutput rnd (draws s) code) as [k output] eqn:Hout.
  exists k, output. split; [done|].
  cbn [step] in Hs.
  destruct (heap s !! clientId) as [conn|] eqn:Hh; [|done].
  destruct (quiet_until t s); [|done]. injection Hs as <-.
  cbn [onMessage]. unfold handleMessage.
  replace (get_connection (at_time t s) clientId) with (Some connection)
    by (symmetry; exact Hc).
  cbv zeta. rewrite Hty. cbn [String.eqb Ascii.eqb Bool.eqb].
  unfold handleExecuteCode.
  replace (get_connection (at_time t s) clientId) with (Some connection)
    by (symmetry; exact Hc).
  rewrite Hdev, Hcode.
  replace (devices_has (at_time t s) connection d) with true
    by (symmetry; exact Hd).
  cbn [negb at_time draws]. rewrite Hout. unfold random. cbv beta iota zeta.
  rewrite simulateOutput_unfold in Hout. injection Hout as Hk Ho.
  split; [reflexivity|]. split; [reflexivity|]. split; [reflexivity|].
  split; [|split; [|split]].
  - intros line Hin Ht. subst output. apply in_or_app. left.
    by eapply fold_scanLine_print_hello.
  - intros Hi. subst output. apply in_or_app. right. by apply led_on_marker.
  - intros line k0 output0. apply scanLine_no_match.
  - intros Hall. subst output.
    by rewrite (fold_scanLine_no_match rnd (split code) (draws s) [] Hall).
Qed.

Lemma execute_output_patterns_witness :
  exists k output,
    simulateOutput tape_zero 2 (units "print('hello')") = (k, output)
    /\ In (units "hello") output.
Proof.
  destruct (execute_output_patterns tape_zero
              (state_after tape_zero arduino_attached)
              (state_after tape_zero
                 (arduino_attached
                    ++ [EvMessage 600 1
                          (Some (message_for "executeCode" "arduino-uno"
                                   (units "print('hello')")))]))
              600 1 1 "arduino-uno" (units "print('hello')")
              (message_for "executeCode" "arduino-uno" (units "print('hello')")))
    as (k & output & Hout & _ & _ & _ & Hhello & _).
  - vm_compute; reflexivity.
  - vm_compute; reflexivity.
  - reflexivity.
  - reflexivity.
  - reflexivity.
  - vm_compute; reflexivity.
  - exists k, output. split; [exact Hout|].
    apply (Hhello (units "print('hello')")); [by left|reflexivity].
Defined.

(** C7 fails as stated: the statement [x = 1] matches neither pattern, and
    the output has no line for it, empty or not. *)
Lemma unmatched_statement_adds_no_line :
  let code := units "x = 1
print('hello')" in
  split code = [units "x = 1"; units "print('hello')"]
  /\ printMatch (trim (units "x = 1")) = None
  /\ fStringMatch (trim (units "x = 1")) = None
  /\ snd (simulateOutput tape_zero 0 code) = [units "hello"]
  /\ split (join (snd (simulateOutput tape_zero 0 code))) = [units "hello"].
Proof. vm_compute. repeat split. Qed.

(** * Where timers and frames come from *)

Section Provenance.

Variable rnd : nat -> Q.
Variable s0 : State.
Variable fired : option Timer.

Lemma effect_refl s : effect rnd s0 fired s s.
Proof.
  intros Hn. split; [done|]. split; [by left|].
  intros c. exists []. by rewrite app_nil_r.
Qed.

Lemma effect_trans s s1 s2 :
  effect rnd s0 fired s s1 -> effect rnd s0 fired s1 s2 -> effect rnd s0 fired s s2.
Proof.
  intros H1 H2 Hn. destruct (H1 Hn) as (Hn1 & Ht1 & Hf1).
  destruct (H2 Hn1) as (Hn2 & Ht2 & Hf2).
  split; [done|]. split.
  - intros tm [Htm|Htm]%Ht2; [by apply Ht1|by right].
  - intros c. destruct (Hf1 c) as (new1 & E1 & F1).
    destruct (Hf2 c) as (new2 & E2 & F2).
    exists (new1 ++ new2). split.
    + by rewrite E2, E1, app_assoc.
    + by apply Forall_app.
Qed.

Lemma effect_same s s' :
  now s' = now s -> timers s' = timers s ->
  (forall c, sent_on s' c = sent_on s c) ->
  effect rnd s0 fired s s'.
Proof.
  intros Hn Ht Hf Hn0. split; [congruence|]. split.
  - intros tm. rewrite Ht. by left.
  - intros c. exists []. by rewrite app_nil_r, Hf.
Qed.

Lemma effect_send s c f :
  emitted s0 fired c f -> effect rnd s0 fired s (send c f s).
Proof.
  intros He Hn. split; [done|]. split; [by left|].
  intros c'. destruct (decide (c = c')) as [<-|Hne].
  - destruct (heap s !! c) as [conn|] eqn:Hh.
    + exists [(now s, f)]. split; [by apply sent_on_send|].
      apply Forall_singleton. by split.
    + exists []. rewrite app_nil_r. split; [|done].
      unfold sent_on, send. cbn [heap with_heap].
      by rewrite lookup_alter_eq, Hh.
  - exists []. rewrite app_nil_r. split; [|done]. by apply sent_on_send_ne.
Qed.

Lemma effect_devices_set s c d session :
  effect rnd s0 fired s (devices_set c d session s).
Proof.
  apply effect_same; [done|done|]. intros c'. apply sent_on_devices_set.
Qed.

Lemma effect_devices_delete s c d :
  effect rnd s0 fired s (devices_delete c d s).
Proof.
  apply effect_same; [done|done|]. intros c'. apply sent_on_devices_delete.
Qed.

Lemma effect_draws s k :
  effect rnd s0 fired s
    (mkState (activeConnections s) (heap s) (connectionId s) (timers s)
             (nextTimer s) (now s) k).
Proof. by apply effect_same. Qed.

Lemma effect_schedule s tm :
  spawned rnd s0 tm ->
  effect rnd s0 fired s
    (mkState (activeConnections s) (heap s) (connectionId s) (timers s ++ [tm])
             (S (nextTimer s)) (now s) (draws s)).
Proof.
  intros Hsp Hn. split; [done|]. split.
  - cbn [timers]. intros tm' [H|H%list_elem_of_singleton]%elem_of_app; [by left|].
    right. by subst tm'.
  - intros c. exists []. by rewrite app_nil_r.
Qed.

Lemma effect_setTimeout s cb delay :
  now s = now s0 -> is_sendData cb = false -> is_telemetry cb = false ->
  effect rnd s0 fired s (setTimeout cb delay s).
Proof.
  intros Hn H1 H2. apply effect_schedule. right. right. done.
Qed.

Lemma effect_clearInterval s t : effect rnd s0 fired s (clearInterval t s).
Proof.
  intros Hn. split; [done|]. split.
  - cbn [clearInterval with_timers timers].
    intros tm [_ Htm]%list_elem_of_filter. by left.
  - intros c. exists []. by rewrite app_nil_r.
Qed.

Lemma emitted_other c f :
  (forall d payload, f <> DeviceData d payload) -> emitted s0 fired c f.
Proof. intros H d payload E. by destruct (H d payload). Qed.

Ltac reply := apply effect_send, emitted_other; intros ? ?; discriminate.

Ltac delayed Hn :=
  eapply effect_trans; [apply effect_draws|];
  apply effect_setTimeout; [exact Hn|reflexivity|reflexivity].

Lemma effect_handleGetDeviceList s clientId :
  effect rnd s0 fired s (handleGetDeviceList clientId s).
Proof.
  unfold handleGetDeviceList.
  destruct (get_connection s clientId); [reply|apply effect_refl].
Qed.

Lemma effect_handleConnectDevice s clientId message :
  now s = now s0 ->
  effect rnd s0 fired s (handleConnectDevice rnd clientId message s).
Proof.
  intros Hn. unfold handleConnectDevice.
  destruct (get_connection s clientId); [|apply effect_refl].
  destruct (Catalog.get_property _); [|reply].
  unfold random. cbv beta iota zeta. delayed Hn.
Qed.

Lemma effect_handleDisconnectDevice s clientId message :
  effect rnd s0 fired s (handleDisconnectDevice clientId message s).
Proof.
  unfold handleDisconnectDevice.
  destruct (get_connection s clientId); [|apply effect_refl].
  destruct (negb _); [reply|].
  eapply effect_trans; [apply effect_devices_delete|reply].
Qed.

Lemma effect_handleSendData clientId message :
  effect rnd s0 fired s0 (handleSendData rnd clientId message s0).
Proof.
  unfold handleSendData.
  destruct (get_connection s0 clientId) as [c|]; [|apply effect_refl].
  destruct (devices_has s0 c (msg_deviceId message)) eqn:Hd; cbn [negb]; [|reply].
  unfold random. cbv beta iota zeta.
  eapply effect_trans; [apply effect_draws|].
  apply effect_schedule. right. left.
  exists (draws s0), c, (msg_deviceId message), (msg_data message). done.
Qed.

Lemma effect_handleGetDeviceStatus s clientId message :
  effect rnd s0 fired s (handleGetDeviceStatus clientId message s).
Proof.
  unfold handleGetDeviceStatus.
  destruct (get_connection s clientId); [|apply effect_refl].
  destruct (devices_get _ _ _); reply.
Qed.

Lemma effect_handlePing s clientId :
  effect rnd s0 fired s (handlePing clientId s).
Proof.
  unfold handlePing.
  destruct (get_connection s clientId); [reply|apply effect_refl].
Qed.

Lemma effect_handleUploadCode s clientId deviceId code :
  now s = now s0 ->
  effect rnd s0 fired s (handleUploadCode rnd clientId deviceId code s).
Proof.
  intros Hn. unfold handleUploadCode.
  destruct (get_connection s clientId); [|apply effect_refl].
  destruct (negb _); [reply|].
  unfold random. cbv beta iota zeta. delayed Hn.
Qed.

Lemma effect_handleExecuteCode s clientId deviceId code :
  now s = now s0 ->
  effect rnd s0 fired s (handleExecuteCode rnd clientId deviceId code s).
Proof.
  intros Hn. unfold handleExecuteCode.
  destruct (get_connection s clientId); [|apply effect_refl].
  destruct (negb _); [reply|].
  destruct (simulateOutput rnd (draws s) code) as [k output].
  unfold random. cbv beta iota zeta.
  cbn [activeConnections heap connectionId timers nextTimer now draws].
  eapply effect_trans; [apply (effect_draws s (S k))|].
  apply effect_setTimeout; [exact Hn|reflexivity|reflexivity].
Qed.

Lemma effect_handleMessage clientId message :
  effect rnd s0 fired s0 (handleMessage rnd clientId message s0).
Proof.
  unfold handleMessage.
  destruct (get_connection s0 clientId); [|apply effect_refl]. cbv zeta.
  repeat (match goal with |- context [if ?b then _ else _] => destruct b end);
    auto using effect_handleGetDeviceList, effect_handleConnectDevice,
      effect_handleDisconnectDevice, effect_handleSendData,
      effect_handleGetDeviceStatus, effect_handlePing, effect_handleUploadCode,
      effect_handleExecuteCode.
  reply.
Qed.

Lemma effect_handleDeviceSpecificActions s clientId deviceId :
  now s = now s0 ->
  effect rnd s0 fired s (handleDeviceSpecificActions clientId deviceId s).
Proof.
  intros Hn. unfold handleDeviceSpecificActions.
  destruct (get_connection s clientId); [|apply effect_refl].
  repeat (match goal with |- context [if ?b then _ else _] => destruct b end);
    try apply effect_refl; by apply effect_setTimeout.
Qed.

Lemma effect_startDeviceDataSimulation s clientId deviceId :
  now s = now s0 ->
  effect rnd s0 fired s (startDeviceDataSimulation rnd clientId deviceId s).
Proof.
  intros Hn. unfold startDeviceDataSimulation.
  destruct (get_connection s clientId) as [c|]; [|apply effect_refl].
  destruct (devices_get s c deviceId); [|apply effect_refl].
  unfold random. cbv beta iota zeta.
  eapply effect_trans; [apply effect_draws|].
  apply effect_schedule. left. exists (draws s), c, deviceId.
  cbn [period due callback now]. by rewrite Hn.
Qed.

Lemma effect_connectDone s clientId connection deviceId device peripheralId baudrate :
  now s = now s0 ->
  effect rnd s0 fired s
    (connectDone rnd clientId connection deviceId device peripheralId baudrate s).
Proof.
  intros Hn. unfold connectDone.
  destruct (devices_has s connection deviceId); [reply|]. cbv zeta.
  eapply effect_trans; [|apply effect_handleDeviceSpecificActions].
  - eapply effect_trans; [|apply effect_startDeviceDataSimulation].
    + eapply effect_trans; [apply effect_devices_set|reply].
    + done.
  - unfold startDeviceDataSimulation.
    destruct (get_connection _ clientId) as [c|]; [|done].
    destruct (devices_get _ c deviceId); done.
Qed.

Lemma devices_has_heap s s' c d :
  heap s = heap s' -> devices_has s c d = devices_has s' c d.
Proof. intros H. unfold devices_has, devices_get, devices_of. by rewrite H. Qed.

Lemma effect_telemetryTick s interval c d tm :
  fired = Some tm -> callback tm = TelemetryTick c d -> heap s = heap s0 ->
  effect rnd s0 fired s (telemetryTick rnd interval c d s).
Proof.
  intros Hf Hcb Hh. unfold telemetryTick.
  destruct (devices_has s c d) eqn:Hd; cbn [negb]; [|apply effect_clearInterval].
  destruct (sampleSensorData rnd d (draws s)) as [sensorData k]. cbv zeta.
  eapply effect_trans; [apply (effect_draws s k)|].
  apply effect_send. intros d' payload [= <- _].
  exists tm. split; [done|]. right. split; [done|].
  by rewrite <- (devices_has_heap s s0 c d Hh).
Qed.

Lemma effect_runCallback s t tm :
  fired = Some tm -> heap s = heap s0 -> now s = now s0 ->
  effect rnd s0 fired s (runCallback rnd t (callback tm) s).
Proof.
  intros Hf Hh Hn. destruct (callback tm) eqn:Hcb; cbn [runCallback].
  - by apply effect_connectDone.
  - apply effect_send. intros d' payload [= <- _].
    exists tm. split; [done|]. left. by eexists.
  - eapply effect_trans; [|by apply effect_setTimeout]. reply.
  - by apply effect_handleExecuteCode.
  - reply.
  - eapply effect_trans; [|by apply effect_setTimeout]. reply.
  - reply.
  - reply.
  - reply.
  - by eapply effect_telemetryTick.
Qed.

End Provenance.

Section StepFacts.

Variable rnd : nat -> Q.

Lemma tid_unique s tm1 tm2 :
  wf s -> tm1 ∈ timers s -> tm2 ∈ timers s -> tid tm1 = tid tm2 -> tm1 = tm2.
Proof.
  intros Hwf. pose proof (wf_tid_unique s Hwf) as Hnd. revert Hnd.
  generalize (timers s). intros l. induction l as [|x l IH]; intros Hnd H1 H2 Ht.
  - by apply elem_of_nil in H1.
  - rewrite fmap_cons, NoDup_cons in Hnd. destruct Hnd as [Hx Hl].
    apply elem_of_cons in H1 as [->|H1]; apply elem_of_cons in H2 as [->|H2];
      try done.
    + destruct Hx. rewrite Ht. apply list_elem_of_fmap. by exists tm2.
    + destruct Hx. rewrite <- Ht. apply list_elem_of_fmap. by exists tm1.
    + by apply IH.
Qed.

Lemma quiet_until_clock t s : quiet_until t s = true -> (now s <= t)%Q.
Proof.
  unfold quiet_until. intros [H _]%andb_true_iff. by apply Qle_bool_iff.
Qed.

Lemma quiet_until_due t s tm :
  quiet_until t s = true -> tm ∈ timers s -> (t <= due tm)%Q.
Proof.
  unfold quiet_until. intros [_ H]%andb_true_iff Hin.
  rewrite forallb_forall in H. apply Qle_bool_iff, H. by apply list_elem_of_In.
Qed.

Lemma is_telemetry_inv cb :
  is_telemetry cb = true -> exists c d, cb = TelemetryTick c d.
Proof. destruct cb; try discriminate. by eexists _, _. Qed.

Lemma effect_at_time t s fired s' :
  (now s <= t)%Q ->
  effect rnd (at_time t s) fired (at_time t s) s' ->
  (now s <= now s')%Q
  /\ now s' = t
  /\ (forall tm, tm ∈ timers s' ->
        tm ∈ timers s \/ spawned rnd (at_time (now s') s) tm)
  /\ (forall c, exists new,
        sent_on s' c = sent_on s c ++ new
        /\ Forall (fun tf => fst tf = now s'
                             /\ emitted (at_time (now s') s) fired c (snd tf)) new).
Proof.
  intros Hle He. destruct (He eq_refl) as (Hn & Ht & Hf).
  cbn [at_time now] in Hn. rewrite Hn. auto.
Qed.

Lemma telemetryTick_timers s interval c d tm :
  tm ∈ timers (telemetryTick rnd interval c d s) -> tm ∈ timers s.
Proof.
  unfold telemetryTick. destruct (negb _).
  - cbn [clearInterval with_timers timers]. by intros [_ H]%list_elem_of_filter.
  - by destruct (sampleSensorData rnd d (draws s)).
Qed.

(** What one turn of the event loop can add: time does not go back, a timer
    fires at the time it is due, every timer not there before was made by
    the handler or is the fired interval armed again with its own period,
    and every frame is stamped with the time of the turn. *)
Lemma step_provenance e s s' :
  wf s -> step rnd e s = Some s' ->
  (now s <= now s')%Q
  /\ (forall tm, fired_timer e s = Some tm -> now s' = due tm)
  /\ (forall tm, tm ∈ timers s' ->
        tm ∈ timers s
        \/ spawned rnd (at_time (now s') s) tm
        \/ exists tm0 p, fired_timer e s = Some tm0 /\ period tm0 = Some p
             /\ tm = mkTimer (tid tm0) (due tm0 + p) (Some p) (callback tm0))
  /\ (forall c, exists new,
        sent_on s' c = sent_on s c ++ new
        /\ Forall (fun tf => fst tf = now s'
                     /\ emitted (at_time (now s') s) (fired_timer e s) c (snd tf)) new).
Proof.
  intros Hwf Hs.
  assert (forall t fired s1,
            (now s <= t)%Q ->
            effect rnd (at_time t s) fired (at_time t s) s1 ->
            fired_timer e s = fired ->
            (forall tm, fired = Some tm -> t = due tm) ->
            (now s <= now s1)%Q
            /\ (forall tm, fired_timer e s = Some tm -> now s1 = due tm)
            /\ (forall tm, tm ∈ timers s1 ->
                  tm ∈ timers s
                  \/ spawned rnd (at_time (now s1) s) tm
                  \/ exists tm0 p, fired_timer e s = Some tm0 /\ period tm0 = Some p
                       /\ tm = mkTimer (tid tm0) (due tm0 + p) (Some p) (callback tm0))
            /\ (forall c, exists new,
                  sent_on s1 c = sent_on s c ++ new
                  /\ Forall (fun tf => fst tf = now s1
                       /\ emitted (at_time (now s1) s) (fired_timer e s) c (snd tf)) new))
    as Hgen.
  { intros t fired s1 Hle He Hfd Hdue.
    destruct (effect_at_time t s fired s1 Hle He) as (H1 & H2 & H3 & H4).
    split; [done|]. split; [|split].
    - intros tm Htm. rewrite H2. apply Hdue. by rewrite <- Hfd.
    - intros tm [Htm|Htm]%H3; auto.
    - rewrite Hfd. exact H4. }
  destruct e as [t clientIP|t clientId raw|t clientId|t clientId|t]; cbn [step] in Hs.
  - destruct (quiet_until t s) eqn:Hq; [|done]. injection Hs as <-.
    apply quiet_until_clock in Hq.
    cbn [fired_timer]. split; [done|]. split; [done|]. split; [by left|].
    intros c. unfold onConnection.
    destruct (decide (c = S (connectionId s))) as [->|Hne].
    + exists [(t, Welcome (S (connectionId s)))]. split.
      * rewrite sent_on_send by (cbn [heap at_time]; by rewrite lookup_insert_eq).
        unfold sent_on at 1. cbn [heap at_time]. rewrite lookup_insert_eq.
        unfold sent_on. destruct (heap s !! S (connectionId s)) eqn:E; [|done].
        assert (S (connectionId s) <= connectionId s)%nat; [|lia].
        apply (wf_heap_bound s Hwf). by rewrite E.
      * apply Forall_singleton. split; [done|]. apply emitted_other. done.
    + exists []. rewrite app_nil_r. split; [|done].
      rewrite sent_on_send_ne by done. unfold sent_on. cbn [heap at_time].
      by rewrite lookup_insert_ne.
  - destruct (heap s !! clientId); [|done].
    destruct (quiet_until t s) eqn:Hq; [|done]. injection Hs as <-.
    apply quiet_until_clock in Hq.
    apply (Hgen t None); [done| |done|done].
    destruct raw; cbn [onMessage]; [apply effect_handleMessage|].
    apply effect_send, emitted_other. done.
  - destruct (heap s !! clientId); [|done].
    destruct (quiet_until t s) eqn:Hq; [|done]. injection Hs as <-.
    apply quiet_until_clock in Hq.
    apply (Hgen t None); [done| |done|done]. by apply effect_same.
  - destruct (heap s !! clientId); [|done].
    destruct (quiet_until t s) eqn:Hq; [|done]. injection Hs as <-.
    apply quiet_until_clock in Hq.
    apply (Hgen t None); [done| |done|done]. by apply effect_same.
  - destruct (find_timer t s) as [tm|] eqn:Hf; [|done].
    destruct (quiet_until (due tm) s) eqn:Hq; [|done]. injection Hs as <-.
    apply quiet_until_clock in Hq.
    destruct (find_timer_elem s t tm Hf) as [Hin Htid].
    unfold fire. destruct (period tm) as [p|] eqn:Hper.
    + destruct (is_telemetry_inv (callback tm)) as (c & d & Hcb).
      { apply (wf_interval s Hwf tm Hin). by rewrite Hper. }
      set (s1 := runCallback rnd (tid tm) (callback tm) (at_time (due tm) s)).
      destruct (Hgen (due tm) (Some tm) s1 Hq) as (H1 & H2 & H3 & H4).
      { by apply effect_runCallback. }
      { exact Hf. }
      { by intros ? [= <-]. }
      split; [exact H1|]. split; [exact H2|]. split; [|exact H4].
      intros tm' (tm0 & Hin0 & Ht0 & Hp0 & Hc0 & Hd0)%elem_of_rearm.
      destruct Hd0 as [->|[Ht Hdue]]; [by apply H3|].
      right. right. exists tm, p. split; [exact Hf|]. split; [exact Hper|].
      assert (tm0 = tm) as ->.
      { apply (tid_unique s); [done| |done|done].
        subst s1. rewrite Hcb in Hin0. by apply telemetryTick_timers in Hin0. }
      destruct tm' as [a b c' d']. cbn [tid due period callback] in *.
      subst a c' d'. rewrite Hdue, Hper.
      replace (now s1) with (due tm); [done|].
      symmetry. by apply H2.
    + apply (Hgen (due tm) (Some tm)); [done| |done|by intros ? [= <-]].
      eapply effect_trans; [apply effect_clearInterval|].
      by apply effect_runCallback.
Qed.

End StepFacts.

(** * Bounds on the delays *)

Section Timing.

Variable rnd : nat -> Q.

(** [Math.random] returns a value in the range from 0 to 1, 1 excluded. *)
Hypothesis rnd_range : forall i, (0 <= rnd i /\ rnd i < 1)%Q.

Lemma fired_timer_elem e s tm : fired_timer e s = Some tm -> tm ∈ timers s.
Proof.
  destruct e; try discriminate. cbn [fired_timer].
  by intros [H _]%find_timer_elem.
Qed.

Lemma timed_step e s s' :
  wf s -> timed s -> step rnd e s = Some s' -> timed s'.
Proof.
  intros Hwf [Hp Hd] Hs.
  destruct (step_provenance rnd e s s' Hwf Hs) as (Hle & Hdue & Ht & _).
  split.
  - intros tm p Hin Hper. destruct (Ht tm Hin) as [H|[H|H]].
    + by eapply Hp.
    + destruct H as [(k & c & d & Hk & _)|[(k & c & d & data & Hk & _)|(Hk & _)]];
        try congruence.
      rewrite Hper in Hk. injection Hk as ->.
      destruct (rnd_range k). split; lra.
    + destruct H as (tm0 & p0 & Hf & Hp0 & ->). cbn [period] in Hper.
      injection Hper as <-. eapply Hp; [|exact Hp0]. by eapply fired_timer_elem.
  - intros tm c d data Hin Hcb. destruct (Ht tm Hin) as [H|[H|H]].
    + pose proof (Hd tm c d data H Hcb). lra.
    + destruct H as [(k & c' & d' & _ & _ & Hk)|[(k & c' & d' & data' & _ & Hk & _)
                                                |(_ & Hk & _)]].
      * congruence.
      * rewrite Hk. cbn [at_time now]. destruct (rnd_range k). lra.
      * rewrite Hcb in Hk. discriminate.
    + destruct H as (tm0 & p0 & Hf & Hp0 & ->). cbn [callback] in Hcb.
      apply fired_timer_elem in Hf.
      destruct (wf_interval s Hwf tm0 Hf) as [_ H]. rewrite Hcb in H.
      discriminate H. by rewrite Hp0.
Qed.

Lemma timed_initial : timed initial.
Proof.
  split; cbn [initial timers].
  - intros tm p Hin. by apply elem_of_nil in Hin.
  - intros tm c d data Hin. by apply elem_of_nil in Hin.
Qed.

Lemma reachable_timed s : reachable rnd s -> timed s.
Proof.
  induction 1 as [|e s s' Hr IH Hs]; [apply timed_initial|].
  eapply timed_step; [|exact IH|exact Hs]. by apply reachable_wf in Hr.
Qed.

End Timing.

(** * Firing a timer *)

Section Firing.

Variable rnd : nat -> Q.

Lemma devices_has_heap_of s c d :
  devices_has s c d = true -> is_Some (heap s !! c).
Proof.
  unfold devices_has, devices_get, devices_of.
  destruct (heap s !! c); [done|]. by rewrite lookup_empty.
Qed.

Lemma find_rearmed t q (l : list Timer) tm :
  find (fun tm' => (tid tm' =? t)%nat) l = Some tm ->
  find (fun tm' => (tid tm' =? t)%nat)
       ((fun tm' => if (tid tm' =? t)%nat
                    then mkTimer (tid tm') q (period tm') (callback tm')
                    else tm') <$> l)
  = Some (mkTimer (tid tm) q (period tm) (callback tm)).
Proof.
  induction l as [|x l IH]; [done|]. cbn [find fmap list_fmap].
  destruct (tid x =? t)%nat eqn:E.
  - intros [= <-]. cbn [tid]. by rewrite E.
  - rewrite E. exact IH.
Qed.

Lemma find_cleared t (l : list Timer) :
  find (fun tm' => (tid tm' =? t)%nat)
       (filter (fun tm' => negb (tid tm' =? t)%nat) l) = None.
Proof.
  induction l as [|x l IH]; [done|]. rewrite filter_cons.
  destruct (tid x =? t)%nat eqn:E; cbn [negb].
  - rewrite decide_False by (by intros ?). exact IH.
  - rewrite decide_True by done. cbn [find]. by rewrite E.
Qed.

Lemma find_rearmed_None t q (l : list Timer) :
  find (fun tm' => (tid tm' =? t)%nat) l = None ->
  find (fun tm' => (tid tm' =? t)%nat)
       ((fun tm' => if (tid tm' =? t)%nat
                    then mkTimer (tid tm') q (period tm') (callback tm')
                    else tm') <$> l) = None.
Proof.
  induction l as [|x l IH]; [done|]. cbn [find fmap list_fmap].
  destruct (tid x =? t)%nat eqn:E; [done|]. by rewrite E.
Qed.

(** A telemetry tick that finds its device in the captured map: one
    [deviceData] frame on that connection and on no other, and the interval
    armed again one period later. The registry is not consulted. *)
Lemma telemetry_fires s s' tm c d p :
  find_timer (tid tm) s = Some tm ->
  callback tm = TelemetryTick c d ->
  period tm = Some p ->
  devices_has s c d = true ->
  step rnd (EvTimer (tid tm)) s = Some s' ->
  now s' = due tm
  /\ (exists sensorData,
        sent_on s' c
        = sent_on s c ++ [(due tm, DeviceData d (Telemetry sensorData (due tm)))])
  /\ (forall c', c' <> c -> sent_on s' c' = sent_on s c')
  /\ find_timer (tid tm) s' = Some (mkTimer (tid tm) (due tm + p) (Some p) (TelemetryTick c d))
  /\ (forall c', devices_of s' c' = devices_of s c')
  /\ activeConnections s' = activeConnections s.
Proof.
  intros Hf Hcb Hper Hd Hs. cbn [step] in Hs. rewrite Hf in Hs.
  destruct (quiet_until (due tm) s); [|done]. injection Hs as <-.
  unfold fire. rewrite Hper, Hcb. cbn [runCallback]. unfold telemetryTick.
  replace (devices_has (at_time (due tm) s) c d) with true by (symmetry; exact Hd).
  cbn [negb].
  destruct (sampleSensorData rnd d (draws (at_time (due tm) s))) as [sensorData k].
  cbv zeta. split; [reflexivity|]. split; [|split; [|split; [|split]]].
  - exists sensorData.
    change (sent_on (rearm ?t ?q ?x) c) with (sent_on x c).
    rewrite sent_on_send; [reflexivity|]. by apply devices_has_heap_of in Hd.
  - intros c' Hne. change (sent_on (rearm ?t ?q ?x) c') with (sent_on x c').
    by rewrite sent_on_send_ne.
  - unfold find_timer, rearm. cbn [with_timers timers send with_heap at_time now].
    rewrite (find_rearmed (tid tm) (due tm + p) (timers s) tm Hf).
    by rewrite Hper, Hcb.
  - intros c'. change (devices_of (rearm ?t ?q ?x) c') with (devices_of x c').
    by rewrite devices_of_send.
  - reflexivity.
Qed.

(** A telemetry tick that does not find its device: the interval is
    cleared and nothing else changes. *)
Lemma telemetry_cancels s s' tm c d :
  find_timer (tid tm) s = Some tm ->
  callback tm = TelemetryTick c d ->
  devices_has s c d = false ->
  step rnd (EvTimer (tid tm)) s = Some s' ->
  find_timer (tid tm) s' = None
  /\ heap s' = heap s
  /\ activeConnections s' = activeConnections s.
Proof.
  intros Hf Hcb Hd Hs. cbn [step] in Hs. rewrite Hf in Hs.
  destruct (quiet_until (due tm) s); [|done]. injection Hs as <-.
  unfold fire. rewrite Hcb. destruct (period tm) as [p|]; cbn [runCallback];
    unfold telemetryTick.
  - replace (devices_has (at_time (due tm) s) c d) with false by (symmetry; exact Hd).
    cbn [negb]. split; [|done].
    unfold find_timer, rearm, clearInterval. cbn [with_timers timers at_time].
    apply find_rearmed_None, find_cleared.
  - replace (devices_has (remove_timer (tid tm) (at_time (due tm) s)) c d) with false
      by (symmetry; exact Hd).
    cbn [negb]. split; [|done].
    unfold find_timer, remove_timer, clearInterval. cbn [with_timers timers at_time].
    assert (forall l : list Timer,
              filter (fun tm' => negb (tid tm' =? tid tm)%nat)
                     (filter (fun tm' => negb (tid tm' =? tid tm)%nat) l)
              = filter (fun tm' => negb (tid tm' =? tid tm)%nat) l) as ->.
    { intros l. induction l as [|x l IH]; [done|]. rewrite filter_cons.
      case_decide; [|done]. rewrite filter_cons, decide_True by done. by rewrite IH. }
    apply find_cleared.
Qed.

End Firing.




(** C3, as the code has it: closing a connection only removes it from the
    registry. Its connection object, device map and timers stay as they
    are; a telemetry tick that fires later still finds the device in the
    captured map, makes one more [send] call on the closed socket and is
    armed again. No frame goes to any other connection. *)
Theorem close_keeps_timers_running (rnd : nat -> Q) (s s1 : State) (t : Q) (c : nat) :
  step rnd (EvClose t c) s = Some s1 ->
  activeConnections s1 = activeConnections s ∖ {[c]}
  /\ heap s1 = heap s
  /\ timers s1 = timers s
  /\ forall s2 s3 tm d p,
       get_connection s2 c = None ->
       find_timer (tid tm) s2 = Some tm ->
       callback tm = TelemetryTick c d ->
       period tm = Some p ->
       devices_has s2 c d = true ->
       step rnd (EvTimer (tid tm)) s2 = Some s3 ->
       (exists sensorData,
          sent_on s3 c
          = sent_on s2 c ++ [(due tm, DeviceData d (Telemetry sensorData (due tm)))])
       /\ (forall c', c' <> c -> sent_on s3 c' = sent_on s2 c')
       /\ find_timer (tid tm) s3
          = Some (mkTimer (tid tm) (due tm + p) (Some p) (TelemetryTick c d))
       /\ devices_has s3 c d = true
       /\ get_connection s3 c = None.
Proof.
  intros Hs. cbn [step] in Hs.
  destruct (heap s !! c); [|done].
  destruct (quiet_until t s); [|done]. injection Hs as <-.
  split; [reflexivity|]. split; [reflexivity|]. split; [reflexivity|].
  intros s2 s3 tm d p Hc Hf Hcb Hper Hd Hs3.
  destruct (telemetry_fires rnd s2 s3 tm c d p Hf Hcb Hper Hd Hs3)
    as (_ & Hsent & Hother & Hfind & Hdev & Hact).
  split; [exact Hsent|]. split; [exact Hother|]. split; [exact Hfind|]. split.
  - unfold devices_has, devices_get in *. by rewrite Hdev.
  - unfold get_connection in *. by rewrite Hact.
Qed.

Lemma close_keeps_timers_running_witness :
  exists sensorData,
    sent_on (state_after tape_zero (arduino_attached ++ [EvClose 600 1; EvTimer 1])) 1
    = sent_on (state_after tape_zero (arduino_attached ++ [EvClose 600 1])) 1
        ++ [(1 + (0 * 1000 + 500) + (1000 + 0 * 2000),
             DeviceData "arduino-uno"
               (Telemetry sensorData (1 + (0 * 1000 + 500) + (1000 + 0 * 2000))))]%Q.
Proof.
  destruct (close_keeps_timers_running tape_zero
              (state_after tape_zero arduino_attached)
              (state_after tape_zero (arduino_attached ++ [EvClose 600 1]))
              600 1) as (_ & _ & _ & Hfire).
  - vm_compute; reflexivity.
  - refine (proj1 (Hfire (state_after tape_zero (arduino_attached ++ [EvClose 600 1])) _
             (mkTimer 1 (1 + (0 * 1000 + 500) + (1000 + 0 * 2000))
                      (Some (1000 + 0 * 2000)%Q) (TelemetryTick 1 "arduino-uno"))
             "arduino-uno" (1000 + 0 * 2000)%Q _ _ _ _ _ _));
      vm_compute; reflexivity.
Defined.

(** C3 fails as stated: the connection is closed at time 600 with the
    Arduino attached; the telemetry timer is still pending after the close,
    fires at 1501 and 2501, each time with a [send] call for a [deviceData]
    frame, and is pending again. *)
Lemma telemetry_survives_close :
  let s := state_after tape_zero
             (arduino_attached ++ [EvClose 600 1; EvTimer 1; EvTimer 2; EvTimer 1]) in
  get_connection s 1 = None
  /\ map fst (sent_on s 1) = [0; 501; 1501; 1501; 2501]%Q
  /\ last (map snd (sent_on s 1))
     = Some (DeviceData "arduino-uno" (Telemetry (ArduinoData 0 0 0 0 0 0) 2501))
  /\ option_map due (find_timer 1 s) = Some 3501%Q.
Proof. vm_compute. repeat split. Qed.

(** * Runs in which a device stays detached *)

Section Detached.

Variable rnd : nat -> Q.
Variable c : nat.
Variable d : string.

(** While the device is out of the map, the only [deviceData] frames for it
    are the answers to [sendData] requests accepted before, each sent when
    its timer is due. *)
Lemma detached_run evs s s1 (B : Q) :
  wf s ->
  (forall tm data, tm ∈ timers s -> callback tm = SendDataDone c d data ->
     (due tm < B)%Q) ->
  run rnd evs s = Some s1 ->
  detached_along rnd c d evs s = true ->
  exists new,
    sent_on s1 c = sent_on s c ++ new
    /\ Forall (fun tf => forall payload, snd tf = DeviceData d payload ->
                 (fst tf < B)%Q) new.
Proof.
  revert s. induction evs as [|e evs IH]; intros s Hwf HK Hrun Hdet.
  - injection Hrun as <-. exists []. by rewrite app_nil_r.
  - cbn [run] in Hrun. cbn [detached_along] in Hdet.
    destruct (step rnd e s) as [s'|] eqn:Hs; [|done].
    apply andb_true_iff in Hdet as [Hd Hdet]. apply negb_true_iff in Hd.
    destruct (step_provenance rnd e s s' Hwf Hs) as (Hle & Hdue & Ht & Hf).
    destruct (IH s') as (new2 & E2 & F2); [by eapply wf_step| |done|done|].
    { intros tm data Hin Hcb. destruct (Ht tm Hin) as [H|[H|H]].
      - by eapply HK.
      - destruct H as [(k & c' & d' & _ & _ & Hk)|[(k & c' & d' & data' & _ & _ & Hk & Hh)
                                                  |(_ & Hk & _)]].
        + congruence.
        + rewrite Hcb in Hk. injection Hk as <- <- <-.
          rewrite (devices_has_heap _ s c d) in Hh by done. congruence.
        + rewrite Hcb in Hk. discriminate.
      - destruct H as (tm0 & p0 & Hfd & Hp0 & ->). cbn [callback] in Hcb.
        apply fired_timer_elem in Hfd.
        destruct (wf_interval s Hwf tm0 Hfd) as [_ H]. rewrite Hcb in H.
        discriminate H. by rewrite Hp0. }
    destruct (Hf c) as (new1 & E1 & F1).
    exists (new1 ++ new2). split; [by rewrite E2, E1, app_assoc|].
    apply Forall_app. split; [|done].
    eapply Forall_impl; [exact F1|].
    intros [t f] [Hn He] payload Hp. cbn [fst snd] in *.
    destruct (He d payload Hp) as (tm & Hfd & [[data Hcb]|[Hcb Hh]]).
    + rewrite Hn, (Hdue tm Hfd). eapply HK; [|exact Hcb].
      by eapply fired_timer_elem.
    + rewrite (devices_has_heap _ s c d) in Hh by done. congruence.
Qed.

End Detached.

(** C5, as the code has it: [disconnectDevice] removes the session and
    answers [deviceDisconnected]. A tick looks the device name up in the
    captured map, not the session it was started for: a tick that does not
    find the name clears its interval and sends nothing. In a run in which
    the name stays out of the map, every [deviceData] frame for it on this
    connection is sent at most 300 ms after the disconnect, which is less than
    any telemetry interval. *)
Theorem telemetry_stops_after_disconnect (rnd : nat -> Q) (s s0 : State) (t0 : Q)
    (clientId c : nat) (d : string) (m : Message) :
  (forall i, (0 <= rnd i /\ rnd i < 1)%Q) ->
  reachable rnd s ->
  get_connection s clientId = Some c ->
  devices_has s c d = true ->
  msg_type m = "disconnectDevice"%string ->
  msg_deviceId m = d ->
  step rnd (EvMessage t0 clientId (Some m)) s = Some s0 ->
  (sent_on s0 c = sent_on s c ++ [(t0, DeviceDisconnected d)]
   /\ devices_has s0 c d = false
   /\ timers s0 = timers s)
  /\ (forall s1 s2 tm,
        find_timer (tid tm) s1 = Some tm ->
        callback tm = TelemetryTick c d ->
        devices_has s1 c d = false ->
        step rnd (EvTimer (tid tm)) s1 = Some s2 ->
        find_timer (tid tm) s2 = None /\ heap s2 = heap s1)
  /\ (forall evs s1,
        run rnd evs s0 = Some s1 ->
        detached_along rnd c d evs s0 = true ->
        exists new,
          sent_on s1 c = sent_on s0 c ++ new
          /\ Forall (fun tf => forall payload, snd tf = DeviceData d payload ->
                       (fst tf <= t0 + 300)%Q) new)
  /\ (forall tm p, tm ∈ timers s0 -> period tm = Some p -> (t0 + 300 < t0 + p)%Q).
Proof.
  intros Hrange Hr Hc Hd Hty Hdev Hs.
  pose proof (reachable_wf rnd s Hr) as Hwf.
  pose proof (reachable_timed rnd Hrange s Hr) as Htimed.
  assert (reachable rnd s0) as Hr0 by (by eapply reachable_step).
  pose proof (reachable_wf rnd s0 Hr0) as Hwf0.
  pose proof (reachable_timed rnd Hrange s0 Hr0) as Htimed0.
  pose proof (devices_has_heap_of s c d Hd) as Hheap.
  cbn [step] in Hs.
  destruct (heap s !! clientId) as [conn|] eqn:Hh; [|done].
  destruct (quiet_until t0 s) eqn:Hq; [|done]. injection Hs as Hs0.
  apply quiet_until_clock in Hq.
  cbn [onMessage] in Hs0. unfold handleMessage in Hs0.
  replace (get_connection (at_time t0 s) clientId) with (Some c) in Hs0
    by (symmetry; exact Hc).
  cbv zeta in Hs0. rewrite Hty in Hs0. cbn [String.eqb Ascii.eqb Bool.eqb] in Hs0.
  unfold handleDisconnectDevice in Hs0.
  replace (get_connection (at_time t0 s) clientId) with (Some c) in Hs0
    by (symmetry; exact Hc).
  cbv zeta in Hs0. rewrite Hdev in Hs0.
  replace (devices_has (at_time t0 s) c d) with true in Hs0 by (symmetry; exact Hd).
  cbn [negb] in Hs0.
  assert (sent_on s0 c = sent_on s c ++ [(t0, DeviceDisconnected d)]
          /\ devices_has s0 c d = false /\ timers s0 = timers s /\ now s0 = t0)
    as (Hsent & Hgone & Htimers & Hnow).
  { subst s0. split; [|split; [|done]].
    - rewrite sent_on_send.
      + by rewrite sent_on_devices_delete.
      + cbn [devices_delete with_heap heap at_time]. by apply is_Some_lookup_alter.
    - unfold devices_has, devices_get. rewrite devices_of_send.
      rewrite devices_of_devices_delete, decide_True by done.
      by rewrite lookup_delete_eq. }
  split; [done|]. split; [|split].
  - intros s1 s2 tm Hf Hcb Hd1 Hs2.
    destruct (telemetry_cancels rnd s1 s2 tm c d Hf Hcb Hd1 Hs2) as (H1 & H2 & _).
    done.
  - intros evs s1 Hrun Hdet.
    destruct (detached_run rnd c d evs s0 s1 (t0 + 300)) as (new & Hnew & Hall);
      try done.
    + intros tm data Hin Hcb.
      pose proof (timed_sendData s0 Htimed0 tm c d data Hin Hcb) as H.
      rewrite Hnow in H. exact H.
    + exists new. split; [exact Hnew|].
      eapply Forall_impl; [exact Hall|].
      intros tf H payload Hp. apply Qlt_le_weak, (H payload Hp).
  - intros tm p Hin Hper.
    destruct (timed_period s0 Htimed0 tm p Hin Hper). lra.
Qed.

Lemma telemetry_stops_after_disconnect_witness :
  exists new,
    sent_on (state_after tape_zero
               (arduino_attached
                  ++ [send_to_arduino 550; disconnect_arduino 600;
                      EvTimer 3; EvTimer 1; EvTimer 2])) 1
    = sent_on (state_after tape_zero
                 (arduino_attached ++ [send_to_arduino 550; disconnect_arduino 600])) 1
        ++ new
    /\ Forall (fun tf => forall payload,
                 snd tf = DeviceData "arduino-uno" payload -> (fst tf <= 600 + 300)%Q) new.
Proof.
  assert (forall i, (0 <= tape_zero i /\ tape_zero i < 1)%Q) as Hrange
    by (intros i; unfold tape_zero; lra).
  destruct (telemetry_stops_after_disconnect tape_zero
              (state_after tape_zero (arduino_attached ++ [send_to_arduino 550]))
              (state_after tape_zero
                 (arduino_attached ++ [send_to_arduino 550; disconnect_arduino 600]))
              600 1 1 "arduino-uno"
              (message_for "disconnectDevice" "arduino-uno" []) Hrange)
    as (_ & _ & Hrun & _).
  - apply (run_reachable tape_zero (arduino_attached ++ [send_to_arduino 550]) initial);
      [apply reachable_initial|vm_compute; reflexivity].
  - vm_compute; reflexivity.
  - vm_compute; reflexivity.
  - vm_compute; reflexivity.
  - vm_compute; reflexivity.
  - vm_compute; reflexivity.
  - apply (Hrun [EvTimer 3; EvTimer 1; EvTimer 2]); vm_compute; reflexivity.
Defined.

(** C5 fails as stated: the Arduino is attached at 501 and asked for again
    at 600, then disconnected at 700; the second request completes at 1100 and
    attaches it anew. The interval of the first session finds the name in the
    map at 1501 and at 2501, sends a [deviceData] frame each time, long after
    the disconnect and one period of 1000 ms, and stays armed next to the
    interval of the second session. *)
Lemma old_interval_outlives_its_session :
  let s := state_after tape_zero
             (arduino_attached
                ++ [connect_again; disconnect_arduino 700; EvTimer 3;
                    EvTimer 1; EvTimer 2; EvTimer 4; EvTimer 5; EvTimer 1]) in
  map fst (sent_on s 1) = [0; 501; 700; 1100; 1501; 1501; 2100; 2100; 2501]%Q
  /\ nth_error (map snd (sent_on s 1)) 2 = Some (DeviceDisconnected "arduino-uno")
  /\ nth_error (map snd (sent_on s 1)) 4
     = Some (DeviceData "arduino-uno" (Telemetry (ArduinoData 0 0 0 0 0 0) 1501))
  /\ last (map snd (sent_on s 1))
     = Some (DeviceData "arduino-uno" (Telemetry (ArduinoData 0 0 0 0 0 0) 2501))
  /\ map (fun tm => (tid tm, due tm, period tm, callback tm)) (timers s)
     = [(1%nat, 3501%Q, Some 1000%Q, TelemetryTick 1 "arduino-uno");
        (4%nat, 3100%Q, Some 1000%Q, TelemetryTick 1 "arduino-uno")].
Proof. vm_compute. repeat split. Qed.

(** The check of a tick is by device name. When the device is attached
    again before the old interval fires (here: disconnect at 600, connect at
    610, completed at 1110), the old tick finds the new session at 1501 and
    stays armed next to the interval of the new session. *)
Example old_interval_survives_reconnect :
  let s := state_after tape_zero
             (arduino_attached
                ++ [disconnect_arduino 600;
                    EvMessage 610 1 (Some (message_for "connectDevice" "arduino-uno" []));
                    EvTimer 3; EvTimer 1]) in
  map (fun tm => (tid tm, callback tm))
      (List.filter (fun tm => is_telemetry (callback tm)) (timers s))
  = [(1%nat, TelemetryTick 1 "arduino-uno"); (4%nat, TelemetryTick 1 "arduino-uno")].
Proof. vm_compute. reflexivity. Qed.

(** * Firing a delayed completion *)

Section Completions.

Variable rnd : nat -> Q.

Lemma timeout_fires s s' tm :
  wf s ->
  find_timer (tid tm) s = Some tm ->
  is_telemetry (callback tm) = false ->
  step rnd (EvTimer (tid tm)) s = Some s' ->
  s' = runCallback rnd (tid tm) (callback tm)
         (remove_timer (tid tm) (at_time (due tm) s))
  /\ forall c, c ∈ captured (callback tm) -> is_Some (heap s !! c).
Proof.
  intros Hwf Hf Htel Hs. cbn [step] in Hs. rewrite Hf in Hs.
  destruct (quiet_until (due tm) s); [|done]. injection Hs as <-.
  apply find_timer_elem in Hf as [Hin _].
  split; [|intros c; by apply (wf_captured s Hwf)].
  unfold fire. destruct (period tm) eqn:Hper; [|done].
  destruct (wf_interval s Hwf tm Hin) as [_ H]. rewrite Htel in H.
  discriminate H. by rewrite Hper.
Qed.

(** The completion of [uploadCode] checks nothing: it sends
    [codeUploaded] and schedules the automatic execution. *)
Lemma uploadDone_fires s s' tm clientId c d code :
  wf s ->
  find_timer (tid tm) s = Some tm ->
  callback tm = UploadDone clientId c d code ->
  step rnd (EvTimer (tid tm)) s = Some s' ->
  sent_on s' c = sent_on s c ++ [(due tm, CodeUploaded d (length code) (due tm))]
  /\ timers s'
     = timers (clearInterval (tid tm) s)
         ++ [mkTimer (nextTimer s) (due tm + 1000) None (AutoExecute clientId d code)]
  /\ (forall c', devices_of s' c' = devices_of s c').
Proof.
  intros Hwf Hf Hcb Hs.
  destruct (timeout_fires s s' tm Hwf Hf) as [-> Hcap]; [by rewrite Hcb|done|].
  rewrite Hcb in *. cbn [runCallback]. split; [|split; [done|]].
  - change (sent_on (setTimeout ?cb ?q ?x) c) with (sent_on x c).
    rewrite sent_on_send; [done|]. apply Hcap, list_elem_of_singleton. done.
  - intros c'. change (devices_of (setTimeout ?cb ?q ?x) c') with (devices_of x c').
    by rewrite devices_of_send.
Qed.

(** The automatic execution goes through [handleExecuteCode], which looks
    the connection up again and checks the device. *)
Lemma autoExecute_fires s s' tm clientId d code :
  wf s ->
  find_timer (tid tm) s = Some tm ->
  callback tm = AutoExecute clientId d code ->
  step rnd (EvTimer (tid tm)) s = Some s' ->
  match get_connection s clientId with
  | None => heap s' = heap s /\ timers s' = timers (clearInterval (tid tm) s)
  | Some c =>
      if devices_has s c d
      then sent_on s' c = sent_on s c
           /\ timers s'
              = timers (clearInterval (tid tm) s)
                  ++ [mkTimer (nextTimer s)
                        (due tm + (rnd (fst (simulateOutput rnd (draws s) code)) * 1000 + 500))
                        None
                        (ExecuteDone c d (snd (simulateOutput rnd (draws s) code)))]
      else sent_on s' c = sent_on s c ++ [(due tm, not_connected d)]
           /\ timers s' = timers (clearInterval (tid tm) s)
  end.
Proof.
  intros Hwf Hf Hcb Hs.
  destruct (timeout_fires s s' tm Hwf Hf) as [-> _]; [by rewrite Hcb|done|].
  rewrite Hcb. cbn [runCallback]. unfold handleExecuteCode.
  change (get_connection (remove_timer ?t (at_time ?q s)) clientId)
    with (get_connection s clientId).
  destruct (get_connection s clientId) as [c|] eqn:Hc; [|done].
  change (devices_has (remove_timer ?t (at_time ?q s)) c d) with (devices_has s c d).
  destruct (devices_has s c d) eqn:Hd; cbn [negb].
  - change (draws (remove_timer ?t (at_time ?q s))) with (draws s).
    destruct (simulateOutput rnd (draws s) code) as [k output]. done.
  - split; [|done]. rewrite sent_on_send; [done|].
    by apply (registered_in_heap s clientId).
Qed.

(** The completion of an execution checks nothing and sends
    [codeExecuted]. *)
Lemma executeDone_fires s s' tm c d output :
  wf s ->
  find_timer (tid tm) s = Some tm ->
  callback tm = ExecuteDone c d output ->
  step rnd (EvTimer (tid tm)) s = Some s' ->
  sent_on s' c = sent_on s c ++ [(due tm, CodeExecuted d (join output) (due tm))]
  /\ timers s' = timers (clearInterval (tid tm) s)
  /\ (forall c', devices_of s' c' = devices_of s c').
Proof.
  intros Hwf Hf Hcb Hs.
  destruct (timeout_fires s s' tm Hwf Hf) as [-> Hcap]; [by rewrite Hcb|done|].
  rewrite Hcb in *. cbn [runCallback]. split; [|split; [done|]].
  - rewrite sent_on_send; [done|]. apply Hcap, list_elem_of_singleton. done.
  - intros c'. by rewrite devices_of_send.
Qed.

(** The completion of [connectDevice] works on the connection object it
    captured. When the connection has left the registry and the device is not
    in the captured map, it still records the session and sends
    [deviceConnected]; only the telemetry and the welcome action, which look
    the registry up, are not started. *)
Lemma connectDone_fires_closed s s' tm clientId c d device peripheralId baudrate :
  wf s ->
  find_timer (tid tm) s = Some tm ->
  callback tm = ConnectDone clientId c d device peripheralId baudrate ->
  get_connection s clientId = None ->
  devices_has s c d = false ->
  step rnd (EvTimer (tid tm)) s = Some s' ->
  devices_get s' c d
  = Some (mkSession (Catalog.spread device) (or_port peripheralId device) baudrate
                    (due tm) "connected")
  /\ sent_on s' c
     = sent_on s c
         ++ [(due tm, DeviceConnected d (or_port peripheralId device) baudrate
                        (Catalog.capabilities <$> Catalog.spread device)
                        (Catalog.pins <$> Catalog.spread device))]
  /\ timers s' = timers (clearInterval (tid tm) s).
Proof.
  intros Hwf Hf Hcb Hc Hd Hs.
  destruct (timeout_fires s s' tm Hwf Hf) as [-> Hcap]; [by rewrite Hcb|done|].
  rewrite Hcb in *. cbn [runCallback]. unfold connectDone.
  assert (is_Some (heap s !! c)) as Hheap
    by (apply Hcap, list_elem_of_singleton; done).
  change (devices_has (remove_timer ?t (at_time ?q s)) c d) with (devices_has s c d).
  rewrite Hd. cbv zeta.
  unfold handleDeviceSpecificActions, startDeviceDataSimulation.
  change (get_connection (send ?a ?f (devices_set ?b ?e ?g
            (remove_timer ?t (at_time ?q s)))) clientId)
    with (get_connection s clientId).
  rewrite Hc.
  change (get_connection (send ?a ?f (devices_set ?b ?e ?g
            (remove_timer ?t (at_time ?q s)))) clientId)
    with (get_connection s clientId).
  rewrite Hc.
  split; [|split; [|done]].
  - unfold devices_get. rewrite devices_of_send, devices_of_devices_set.
    rewrite decide_True by done. by rewrite lookup_insert_eq.
  - rewrite sent_on_send.
    + by rewrite sent_on_devices_set.
    + cbn [devices_set with_heap heap]. by apply is_Some_lookup_alter.
Qed.

End Completions.

(** C6, as the code has it: [uploadCode] on an attached device schedules one
    completion; that completion sends [codeUploaded] with the length of the
    code and schedules the automatic execution; the automatic execution, if
    the connection is still registered and the device still attached,
    schedules one completion that sends [codeExecuted] for the same code. If
    the device has been detached meanwhile it answers with an error frame,
    and if the connection has left the registry it does nothing. Each timer
    is gone once it has fired. *)
Theorem upload_chain (rnd : nat -> Q) (s s0 : State) (t : Q) (clientId c : nat)
    (d : string) (code : jsstring) (m : Message) :
  get_connection s clientId = Some c ->
  devices_has s c d = true ->
  msg_type m = "uploadCode"%string ->
  msg_deviceId m = d ->
  msg_code m = code ->
  step rnd (EvMessage t clientId (Some m)) s = Some s0 ->
  (sent_on s0 c = sent_on s c
   /\ timers s0
      = timers s ++ [mkTimer (nextTimer s) (t + (rnd (draws s) * 2000 + 1000)) None
                             (UploadDone clientId c d code)])
  /\ (forall s1 s2 tm,
        reachable rnd s1 ->
        find_timer (tid tm) s1 = Some tm ->
        callback tm = UploadDone clientId c d code ->
        step rnd (EvTimer (tid tm)) s1 = Some s2 ->
        sent_on s2 c = sent_on s1 c ++ [(due tm, CodeUploaded d (length code) (due tm))]
        /\ timers s2
           = timers (clearInterval (tid tm) s1)
               ++ [mkTimer (nextTimer s1) (due tm + 1000) None
                           (AutoExecute clientId d code)])
  /\ (forall s3 s4 tm,
        reachable rnd s3 ->
        find_timer (tid tm) s3 = Some tm ->
        callback tm = AutoExecute clientId d code ->
        step rnd (EvTimer (tid tm)) s3 = Some s4 ->
        (get_connection s3 clientId = Some c -> devices_has s3 c d = true ->
         sent_on s4 c = sent_on s3 c
         /\ timers s4
            = timers (clearInterval (tid tm) s3)
                ++ [mkTimer (nextTimer s3)
                      (due tm + (rnd (fst (simulateOutput rnd (draws s3) code)) * 1000 + 500))
                      None
                      (ExecuteDone c d (snd (simulateOutput rnd (draws s3) code)))])
        /\ (get_connection s3 clientId = Some c -> devices_has s3 c d = false ->
            sent_on s4 c = sent_on s3 c ++ [(due tm, not_connected d)]
            /\ timers s4 = timers (clearInterval (tid tm) s3))
        /\ (get_connection s3 clientId = None ->
            heap s4 = heap s3 /\ timers s4 = timers (clearInterval (tid tm) s3)))
  /\ (forall s5 s6 tm output,
        reachable rnd s5 ->
        find_timer (tid tm) s5 = Some tm ->
        callback tm = ExecuteDone c d output ->
        step rnd (EvTimer (tid tm)) s5 = Some s6 ->
        sent_on s6 c = sent_on s5 c ++ [(due tm, CodeExecuted d (join output) (due tm))]
        /\ timers s6 = timers (clearInterval (tid tm) s5)).
Proof.
  intros Hc Hd Hty Hdev Hcode Hs. split; [|split; [|split]].
  - cbn [step] in Hs.
    destruct (heap s !! clientId); [|done].
    destruct (quiet_until t s); [|done]. injection Hs as <-.
    cbn [onMessage]. unfold handleMessage.
    replace (get_connection (at_time t s) clientId) with (Some c)
      by (symmetry; exact Hc).
    cbv zeta. rewrite Hty. cbn [String.eqb Ascii.eqb Bool.eqb].
    unfold handleUploadCode.
    replace (get_connection (at_time t s) clientId) with (Some c)
      by (symmetry; exact Hc).
    rewrite Hdev, Hcode.
    replace (devices_has (at_time t s) c d) with true by (symmetry; exact Hd).
    done.
  - intros s1 s2 tm Hr Hf Hcb Hs2.
    destruct (uploadDone_fires rnd s1 s2 tm clientId c d code) as (H1 & H2 & _);
      [by apply (reachable_wf rnd)|done|done|done|done].
  - intros s3 s4 tm Hr Hf Hcb Hs4.
    pose proof (autoExecute_fires rnd s3 s4 tm clientId d code
                  (reachable_wf rnd s3 Hr) Hf Hcb Hs4) as H.
    split; [|split].
    + intros Hc3 Hd3. by rewrite Hc3, Hd3 in H.
    + intros Hc3 Hd3. by rewrite Hc3, Hd3 in H.
    + intros Hc3. by rewrite Hc3 in H.
  - intros s5 s6 tm output Hr Hf Hcb Hs6.
    destruct (executeDone_fires rnd s5 s6 tm c d output) as (H1 & H2 & _);
      [by apply (reachable_wf rnd)|done|done|done|done].
Qed.

Lemma upload_chain_witness :
  timers (state_after tape_zero (arduino_attached ++ [upload_hello]))
  = timers (state_after tape_zero arduino_attached)
      ++ [mkTimer 3 (600 + (0 * 2000 + 1000)) None
                  (UploadDone 1 1 "arduino-uno" (units "print('hello')"))].
Proof.
  refine (proj2 (proj1
            (upload_chain tape_zero
               (state_after tape_zero arduino_attached)
               (state_after tape_zero (arduino_attached ++ [upload_hello]))
               600 1 1 "arduino-uno" (units "print('hello')")
               (message_for "uploadCode" "arduino-uno" (units "print('hello')"))
               _ _ _ _ _ _)));
    vm_compute; reflexivity.
Defined.

(** C6 fails as stated: the device is detached at time 1700, after
    [codeUploaded] (time 1600) and before the automatic execution (time
    2600). The automatic execution answers with an error frame, no
    [codeExecuted] is ever sent, and no timer is left. *)
Lemma upload_then_disconnect_never_executes :
  let s := state_after tape_zero
             (arduino_attached
                ++ [upload_hello; EvTimer 1; EvTimer 2; EvTimer 3;
                    disconnect_arduino 1700; EvTimer 1; EvTimer 4]) in
  map snd (skipn 4 (sent_on s 1))
  = [CodeUploaded "arduino-uno" 14 1600;
     DeviceDisconnected "arduino-uno";
     ErrorFrame "Dispositivo arduino-uno no está conectado"]
  /\ length (sent_on s 1) = 7%nat
  /\ timers s = [].
Proof. vm_compute. repeat split. Qed.

(** C9, as the code has it: a delayed completion works on the connection
    object captured when it was scheduled and does not look the registry up.
    The completion of [connectDevice], run after the connection has left the
    registry, still records the session in the captured map and sends
    [deviceConnected]; only telemetry and the welcome action are skipped. The
    completions of [uploadCode] and of an execution send their frame
    whatever the registry and the device map hold. Only the automatic
    execution looks again: it does nothing when the connection has left the
    registry, and answers with an error frame when the device is detached. *)
Theorem delayed_completions_use_captured_connection (rnd : nat -> Q) (s1 s2 : State)
    (tm : Timer) :
  reachable rnd s1 ->
  find_timer (tid tm) s1 = Some tm ->
  step rnd (EvTimer (tid tm)) s1 = Some s2 ->
  (forall clientId c d device peripheralId baudrate,
     callback tm = ConnectDone clientId c d device peripheralId baudrate ->
     get_connection s1 clientId = None ->
     devices_has s1 c d = false ->
     devices_get s2 c d
     = Some (mkSession (Catalog.spread device) (or_port peripheralId device) baudrate
                       (due tm) "connected")
     /\ sent_on s2 c
        = sent_on s1 c
            ++ [(due tm, DeviceConnected d (or_port peripheralId device) baudrate
                           (Catalog.capabilities <$> Catalog.spread device)
                           (Catalog.pins <$> Catalog.spread device))]
     /\ timers s2 = timers (clearInterval (tid tm) s1))
  /\ (forall clientId c d code,
        callback tm = UploadDone clientId c d code ->
        sent_on s2 c = sent_on s1 c ++ [(due tm, CodeUploaded d (length code) (due tm))]
        /\ (forall c', devices_of s2 c' = devices_of s1 c'))
  /\ (forall c d output,
        callback tm = ExecuteDone c d output ->
        sent_on s2 c = sent_on s1 c ++ [(due tm, CodeExecuted d (join output) (due tm))]
        /\ (forall c', devices_of s2 c' = devices_of s1 c'))
  /\ (forall clientId d code,
        callback tm = AutoExecute clientId d code ->
        get_connection s1 clientId = None ->
        heap s2 = heap s1 /\ timers s2 = timers (clearInterval (tid tm) s1))
  /\ (forall clientId c d code,
        callback tm = AutoExecute clientId d code ->
        get_connection s1 clientId = Some c ->
        devices_has s1 c d = false ->
        sent_on s2 c = sent_on s1 c ++ [(due tm, not_connected d)]
        /\ timers s2 = timers (clearInterval (tid tm) s1)).
Proof.
  intros Hr Hf Hs. pose proof (reachable_wf rnd s1 Hr) as Hwf.
  split; [|split; [|split; [|split]]].
  - intros clientId c d device peripheralId baudrate Hcb Hc Hd.
    by apply (connectDone_fires_closed rnd s1 s2 tm clientId).
  - intros clientId c d code Hcb.
    destruct (uploadDone_fires rnd s1 s2 tm clientId c d code) as (H1 & _ & H3); done.
  - intros c d output Hcb.
    destruct (executeDone_fires rnd s1 s2 tm c d output) as (H1 & _ & H3); done.
  - intros clientId d code Hcb Hc.
    pose proof (autoExecute_fires rnd s1 s2 tm clientId d code Hwf Hf Hcb Hs) as H.
    by rewrite Hc in H.
  - intros clientId c d code Hcb Hc Hd.
    pose proof (autoExecute_fires rnd s1 s2 tm clientId d code Hwf Hf Hcb Hs) as H.
    by rewrite Hc, Hd in H.
Qed.

Lemma delayed_completions_use_captured_connection_witness :
  devices_get (state_after tape_zero (closed_while_connecting ++ [EvTimer 0]))
              1 "arduino-uno"
  = Some (mkSession (Some Catalog.arduino_uno) (Some "COM3"%string) 9600
                    (1 + (0 * 1000 + 500)) "connected").
Proof.
  refine (proj1 (proj1
            (delayed_completions_use_captured_connection tape_zero
               (state_after tape_zero closed_while_connecting)
               (state_after tape_zero (closed_while_connecting ++ [EvTimer 0]))
               (mkTimer 0 (1 + (0 * 1000 + 500)) None
                  (ConnectDone 1 1 "arduino-uno" (Catalog.OwnDevice Catalog.arduino_uno)
                               None 9600))
               _ _ _)
            1 1 "arduino-uno" (Catalog.OwnDevice Catalog.arduino_uno) None 9600%Z
            _ _ _)).
  - apply (run_reachable tape_zero closed_while_connecting initial);
      [apply reachable_initial|vm_compute; reflexivity].
  - vm_compute; reflexivity.
  - vm_compute; reflexivity.
  - reflexivity.
  - vm_compute; reflexivity.
  - vm_compute; reflexivity.
Defined.

(** C9 fails as stated: the socket closes at time 100 while the connect
    request of time 1 is pending. When the delay ends at time 501, the
    callback records the session in the map of the closed connection and
    makes a [send] call for [deviceConnected] on its socket. *)
Lemma connect_completes_after_close :
  let s_closed := state_after tape_zero closed_while_connecting in
  let s := state_after tape_zero (closed_while_connecting ++ [EvTimer 0]) in
  get_connection s_closed 1 = None
  /\ devices_get s_closed 1 "arduino-uno" = None
  /\ sent_on s_closed 1 = [(0%Q, Welcome 1)]
  /\ get_connection s 1 = None
  /\ is_Some (devices_get s 1 "arduino-uno")
  /\ sent_on s 1
     = [(0%Q, Welcome 1);
        (501%Q, DeviceConnected "arduino-uno" (Some "COM3"%string) 9600
                  (Some (Catalog.capabilities Catalog.arduino_uno))
                  (Some (Catalog.pins Catalog.arduino_uno)))].
Proof. vm_compute. repeat split; by eexists. Qed.

(** * What an event changes in the connection objects *)

Section Touch.

Variable rnd : nat -> Q.
Variable t : Q.

Lemma touch_refl c s : touch t c s s.
Proof. repeat split; auto. Qed.

Lemma touch_trans c s s1 s2 : touch t c s s1 -> touch t c s1 s2 -> touch t c s s2.
Proof.
  intros (A1 & B1 & C1 & D1 & E1) (A2 & B2 & C2 & D2 & E2).
  split; [congruence|]. split; [congruence|]. split; [|split].
  - intros c' Hne. rewrite C2, C1; done.
  - by rewrite D2.
  - intros d session [H|H]%E2; [by apply E1|by right].
Qed.

Lemma touch_heap_same c s s' :
  heap s' = heap s -> activeConnections s' = activeConnections s ->
  connectionId s' = connectionId s -> touch t c s s'.
Proof.
  intros Hh Ha Hc. split; [done|]. split; [done|]. split; [|split].
  - intros. by rewrite Hh.
  - by rewrite Hh.
  - intros d session H. left. unfold devices_of in *. by rewrite Hh in H.
Qed.

Lemma touch_send c f s : touch t c s (send c f s).
Proof.
  split; [done|]. split; [done|]. split; [|split].
  - intros c' Hne. cbn [send with_heap heap]. by rewrite lookup_alter_ne.
  - cbn [send with_heap heap]. apply is_Some_lookup_alter.
  - intros d session. rewrite devices_of_send. by left.
Qed.

Lemma touch_devices_delete c d s : touch t c s (devices_delete c d s).
Proof.
  split; [done|]. split; [done|]. split; [|split].
  - intros c' Hne. cbn [devices_delete with_heap heap]. by rewrite lookup_alter_ne.
  - cbn [devices_delete with_heap heap]. apply is_Some_lookup_alter.
  - intros d' session. rewrite devices_of_devices_delete, decide_True by done.
    intros H. left. destruct (decide (d = d')) as [<-|Hne].
    + by rewrite lookup_delete_eq in H.
    + by rewrite lookup_delete_ne in H.
Qed.

Lemma touch_devices_set c d session s :
  fresh_session t d session -> touch t c s (devices_set c d session s).
Proof.
  intros Hf. split; [done|]. split; [done|]. split; [|split].
  - intros c' Hne. cbn [devices_set with_heap heap]. by rewrite lookup_alter_ne.
  - cbn [devices_set with_heap heap]. apply is_Some_lookup_alter.
  - intros d' session'. rewrite devices_of_devices_set. case_decide; [|by left].
    destruct (decide (d = d')) as [<-|Hne].
    + rewrite lookup_insert_eq. intros [= <-]. by right.
    + rewrite lookup_insert_ne by done. by left.
Qed.

Ltac same_heap := apply touch_heap_same; reflexivity.

Ltac on_connection Hc :=
  apply get_connection_Some in Hc as [-> _].

Lemma touch_handleGetDeviceList s clientId :
  touch t clientId s (handleGetDeviceList clientId s).
Proof.
  unfold handleGetDeviceList.
  destruct (get_connection s clientId) as [c|] eqn:Hc; [|apply touch_refl].
  on_connection Hc. apply touch_send.
Qed.

Lemma touch_handleConnectDevice s clientId message :
  touch t clientId s (handleConnectDevice rnd clientId message s).
Proof.
  unfold handleConnectDevice.
  destruct (get_connection s clientId) as [c|] eqn:Hc; [|apply touch_refl].
  on_connection Hc. destruct (Catalog.get_property _); [same_heap|apply touch_send].
Qed.

Lemma touch_handleDisconnectDevice s clientId message :
  touch t clientId s (handleDisconnectDevice clientId message s).
Proof.
  unfold handleDisconnectDevice.
  destruct (get_connection s clientId) as [c|] eqn:Hc; [|apply touch_refl].
  on_connection Hc. destruct (negb _); [apply touch_send|].
  eapply touch_trans; [apply touch_devices_delete|apply touch_send].
Qed.

Lemma touch_handleSendData s clientId message :
  touch t clientId s (handleSendData rnd clientId message s).
Proof.
  unfold handleSendData.
  destruct (get_connection s clientId) as [c|] eqn:Hc; [|apply touch_refl].
  on_connection Hc. destruct (negb _); [apply touch_send|same_heap].
Qed.

Lemma touch_handleGetDeviceStatus s clientId message :
  touch t clientId s (handleGetDeviceStatus clientId message s).
Proof.
  unfold handleGetDeviceStatus.
  destruct (get_connection s clientId) as [c|] eqn:Hc; [|apply touch_refl].
  on_connection Hc. destruct (devices_get _ _ _); apply touch_send.
Qed.

Lemma touch_handlePing s clientId : touch t clientId s (handlePing clientId s).
Proof.
  unfold handlePing.
  destruct (get_connection s clientId) as [c|] eqn:Hc; [|apply touch_refl].
  on_connection Hc. apply touch_send.
Qed.

Lemma touch_handleUploadCode s clientId deviceId code :
  touch t clientId s (handleUploadCode rnd clientId deviceId code s).
Proof.
  unfold handleUploadCode.
  destruct (get_connection s clientId) as [c|] eqn:Hc; [|apply touch_refl].
  on_connection Hc. destruct (negb _); [apply touch_send|same_heap].
Qed.

Lemma touch_handleExecuteCode s clientId deviceId code :
  touch t clientId s (handleExecuteCode rnd clientId deviceId code s).
Proof.
  unfold handleExecuteCode.
  destruct (get_connection s clientId) as [c|] eqn:Hc; [|apply touch_refl].
  on_connection Hc. destruct (negb _); [apply touch_send|].
  destruct (simulateOutput rnd (draws s) code). same_heap.
Qed.

Lemma touch_handleMessage s clientId message :
  touch t clientId s (handleMessage rnd clientId message s).
Proof.
  unfold handleMessage.
  destruct (get_connection s clientId) as [c|] eqn:Hc; [|apply touch_refl].
  on_connection Hc. cbv zeta.
  repeat (match goal with |- context [if ?b then _ else _] => destruct b end);
    auto using touch_handleGetDeviceList, touch_handleConnectDevice,
      touch_handleDisconnectDevice, touch_handleSendData,
      touch_handleGetDeviceStatus, touch_handlePing, touch_handleUploadCode,
      touch_handleExecuteCode, touch_send.
Qed.

Lemma touch_handleDeviceSpecificActions c s clientId deviceId :
  touch t c s (handleDeviceSpecificActions clientId deviceId s).
Proof.
  unfold handleDeviceSpecificActions.
  destruct (get_connection s clientId); [|apply touch_refl].
  repeat (match goal with |- context [if ?b then _ else _] => destruct b end);
    try apply touch_refl; same_heap.
Qed.

Lemma touch_startDeviceDataSimulation c s clientId deviceId :
  touch t c s (startDeviceDataSimulation rnd clientId deviceId s).
Proof.
  unfold startDeviceDataSimulation.
  destruct (get_connection s clientId) as [c'|]; [|apply touch_refl].
  destruct (devices_get s c' deviceId); [same_heap|apply touch_refl].
Qed.

Lemma touch_connectDone s clientId c deviceId device peripheralId baudrate :
  now s = t -> Catalog.get_property deviceId = Some device ->
  touch t c s (connectDone rnd clientId c deviceId device peripheralId baudrate s).
Proof.
  intros Hn Hp. unfold connectDone.
  destruct (devices_has s c deviceId); [apply touch_send|]. cbv zeta.
  eapply touch_trans; [|apply touch_handleDeviceSpecificActions].
  eapply touch_trans; [|apply touch_startDeviceDataSimulation].
  eapply touch_trans; [|apply touch_send].
  apply touch_devices_set. split; [done|]. split; [done|]. by exists device.
Qed.

Lemma touch_telemetryTick s interval c d :
  touch t c s (telemetryTick rnd interval c d s).
Proof.
  unfold telemetryTick. destruct (negb _); [same_heap|].
  destruct (sampleSensorData rnd d (draws s)) as [sensorData k]. cbv zeta.
  eapply touch_trans; [|apply touch_send]. same_heap.
Qed.

Lemma touch_runCallback s i cb :
  now s = t ->
  (forall clientId c d device p b,
     cb = ConnectDone clientId c d device p b -> Catalog.get_property d = Some device) ->
  touch t (target cb) s (runCallback rnd i cb s).
Proof.
  intros Hn Hk. destruct cb; cbn [runCallback target];
    auto using touch_send, touch_handleExecuteCode, touch_telemetryTick.
  - apply touch_connectDone; [done|]. by eapply Hk.
  - eapply touch_trans; [apply touch_send|]. same_heap.
  - eapply touch_trans; [apply touch_send|]. same_heap.
Qed.

End Touch.

Section StepTouch.

Variable rnd : nat -> Q.

(** What each kind of event does to the registry and the connection
    objects. *)
Lemma step_touch e s s' :
  wf s -> step rnd e s = Some s' ->
  match e with
  | EvConnection t clientIP =>
      activeConnections s' = {[S (connectionId s)]} ∪ activeConnections s
      /\ connectionId s' = S (connectionId s)
      /\ heap s !! S (connectionId s) = None
      /\ heap s'
         = <[S (connectionId s) :=
               mkConnection clientIP true ∅ [(t, Welcome (S (connectionId s)))]]> (heap s)
  | EvMessage t c _ => touch t c s s'
  | EvClose t c | EvError t c =>
      heap s' = heap s
      /\ activeConnections s' = activeConnections s ∖ {[c]}
      /\ connectionId s' = connectionId s
  | EvTimer i =>
      exists tm, find_timer i s = Some tm
        /\ touch (due tm) (target (callback tm)) s s'
  end.
Proof.
  intros Hwf Hs.
  destruct e as [t clientIP|t clientId raw|t clientId|t clientId|i]; cbn [step] in Hs.
  - destruct (quiet_until t s); [|done]. injection Hs as <-.
    split; [done|]. split; [done|].
    assert (heap s !! S (connectionId s) = None) as Hnone.
    { destruct (heap s !! S (connectionId s)) eqn:E; [|done].
      assert (S (connectionId s) <= connectionId s)%nat; [|lia].
      apply (wf_heap_bound s Hwf). by rewrite E. }
    split; [done|].
    unfold onConnection, send. cbn [with_heap heap at_time now].
    by rewrite alter_insert_eq.
  - destruct (heap s !! clientId); [|done].
    destruct (quiet_until t s); [|done]. injection Hs as <-.
    eapply touch_trans; [apply (touch_heap_same t clientId s (at_time t s)); done|].
    destruct raw; cbn [onMessage]; [apply touch_handleMessage|apply touch_send].
  - destruct (heap s !! clientId); [|done].
    destruct (quiet_until t s); [|done]. by injection Hs as <-.
  - destruct (heap s !! clientId); [|done].
    destruct (quiet_until t s); [|done]. by injection Hs as <-.
  - destruct (find_timer i s) as [tm|] eqn:Hf; [|done].
    destruct (quiet_until (due tm) s); [|done]. injection Hs as <-.
    exists tm. split; [done|].
    apply find_timer_elem in Hf as [Hin _].
    assert (forall clientId c d device p b,
              callback tm = ConnectDone clientId c d device p b ->
              Catalog.get_property d = Some device) as Hk
      by (intros; by eapply (wf_connect s Hwf)).
    unfold fire. destruct (period tm).
    + eapply touch_trans; [|apply touch_heap_same; reflexivity].
      eapply touch_trans; [|by apply touch_runCallback].
      by apply touch_heap_same.
    + eapply touch_trans; [|by apply touch_runCallback].
      by apply touch_heap_same.
Qed.

Lemma step_clock e s s' : step rnd e s = Some s' -> wf s -> (now s <= now s')%Q.
Proof.
  intros Hs Hwf. by destruct (step_provenance rnd e s s' Hwf Hs) as [H _].
Qed.

Lemma message_clock t c raw s s' :
  step rnd (EvMessage t c raw) s = Some s' -> now s' = t.
Proof.
  intros Hs. cbn [step] in Hs.
  destruct (heap s !! c); [|done].
  destruct (quiet_until t s) eqn:Hq; [|done]. injection Hs as <-.
  destruct (effect_at_time rnd t s None (onMessage rnd c raw (at_time t s))
              (quiet_until_clock t s Hq)) as (_ & Hn & _); [|done].
  destruct raw; cbn [onMessage]; [apply effect_handleMessage|].
  apply effect_send, emitted_other. done.
Qed.

Lemma in_time_order_le limit limit' l :
  (limit <= limit')%Q -> in_time_order limit l -> in_time_order limit' l.
Proof.
  destruct l as [|[t f] l]; [done|]. cbn [in_time_order].
  intros Hle [H1 H2]. split; [|done]. by apply (Qle_trans _ limit).
Qed.

Lemma in_time_order_extend limit limit' l new :
  (limit <= limit')%Q ->
  in_time_order limit (rev l) ->
  Forall (fun tf : Q * Frame => fst tf = limit') new ->
  in_time_order limit' (rev (l ++ new)).
Proof.
  intros Hle Hl. revert l limit Hle Hl.
  induction new as [|[t f] new IH]; intros l limit Hle Hl Hall.
  - rewrite app_nil_r. by apply (in_time_order_le limit).
  - apply Forall_cons in Hall as [Ht Hall]. cbn [fst] in Ht. subst t.
    replace (l ++ (limit', f) :: new) with ((l ++ [(limit', f)]) ++ new)
      by (by rewrite <- app_assoc).
    apply (IH (l ++ [(limit', f)]) limit'); [apply Qle_refl| |done].
    rewrite rev_app_distr. cbn [rev app in_time_order]. split; [apply Qle_refl|].
    by apply (in_time_order_le limit).
Qed.

Lemma sessions_ok_step e s s' :
  wf s -> sessions_ok s -> step rnd e s = Some s' -> sessions_ok s'.
Proof.
  intros Hwf Hok Hs. pose proof (step_clock e s s' Hs Hwf) as Hle.
  pose proof (step_touch e s s' Hwf Hs) as Ht.
  destruct (step_provenance rnd e s s' Hwf Hs) as (_ & Hdue & _ & Hsent).
  assert (forall c d session, devices_of s c !! d = Some session ->
            exists t0, (t0 <= now s')%Q /\ fresh_session t0 d session) as Hold.
  { intros c d session H. destruct (Hok c d session H) as (t0 & H0 & Hf).
    exists t0. split; [|done]. by apply (Qle_trans _ (now s)). }
  assert (forall t c, touch t c s s' -> t = now s' -> sessions_ok s') as Htouch.
  { intros t c (_ & _ & Hother & _ & Hdev) -> c' d session H.
    destruct (decide (c' = c)) as [->|Hne].
    - destruct (Hdev d session H) as [H0|H0]; [by eapply Hold|].
      exists (now s'). split; [apply Qle_refl|done].
    - unfold devices_of in H. rewrite Hother in H by done. by eapply Hold. }
  destruct e as [t clientIP|t clientId raw|t clientId|t clientId|i].
  - destruct Ht as (_ & _ & Hnone & Hheap). intros c d session H.
    unfold devices_of in H. rewrite Hheap in H.
    destruct (decide (c = S (connectionId s))) as [->|Hne].
    + rewrite lookup_insert_eq in H. cbn [devices] in H. by rewrite lookup_empty in H.
    + rewrite lookup_insert_ne in H by done. by eapply Hold.
  - apply (Htouch t clientId Ht). symmetry. by eapply message_clock.
  - destruct Ht as (Hheap & _). intros c d session H.
    unfold devices_of in H. rewrite Hheap in H. by eapply Hold.
  - destruct Ht as (Hheap & _). intros c d session H.
    unfold devices_of in H. rewrite Hheap in H. by eapply Hold.
  - destruct Ht as (tm & Hf & Ht). apply (Htouch _ _ Ht). symmetry. by apply Hdue.
Qed.

Lemma reachable_sessions_ok s : reachable rnd s -> sessions_ok s.
Proof.
  induction 1 as [|e s s' Hr IH Hs].
  - intros c d session H. unfold devices_of in H. cbn [initial heap] in H.
    by rewrite lookup_empty, lookup_empty in H.
  - eapply sessions_ok_step; [|exact IH|exact Hs]. by apply reachable_wf in Hr.
Qed.

End StepTouch.

Section Logs.

Variable rnd : nat -> Q.

Lemma touch_heap_dom t c0 s s' c :
  touch t c0 s s' -> is_Some (heap s' !! c) -> is_Some (heap s !! c).
Proof.
  intros (_ & _ & Hother & Hsame & _) H.
  destruct (decide (c = c0)) as [->|Hne]; [by apply Hsame|].
  by rewrite <- Hother.
Qed.

Lemma log_ok_step e s s' :
  wf s -> log_ok s -> step rnd e s = Some s' -> log_ok s'.
Proof.
  intros Hwf Hok Hs. pose proof (step_clock rnd e s s' Hs Hwf) as Hle.
  pose proof (step_touch rnd e s s' Hwf Hs) as Ht.
  destruct (step_provenance rnd e s s' Hwf Hs) as (_ & _ & _ & Hsent).
  assert (forall c conn', heap s' !! c = Some conn' -> is_Some (heap s !! c) ->
            (exists t rest, sent conn' = (t, Welcome c) :: rest)
            /\ in_time_order (now s') (rev (sent conn'))) as Hold.
  { intros c conn' H' [conn H]. destruct (Hok c conn H) as [(t & rest & Hw) Hord].
    destruct (Hsent c) as (new & E & Hnew). unfold sent_on in E.
    rewrite H', H in E. rewrite E. split.
    - exists t, (rest ++ new). by rewrite Hw.
    - apply (in_time_order_extend (now s)); [done|done|].
      eapply Forall_impl; [exact Hnew|]. by intros tf [? _]. }
  destruct e as [t clientIP|t clientId raw|t clientId|t clientId|i].
  - destruct Ht as (_ & _ & Hnone & Hheap). intros c conn' H'.
    destruct (decide (c = S (connectionId s))) as [->|Hne].
    + rewrite Hheap, lookup_insert_eq in H'. injection H' as <-. cbn [sent].
      split; [by eexists _, _|]. cbn [rev app in_time_order]. split; [|done].
      cbn [step] in Hs. destruct (quiet_until t s); [|done]. injection Hs as <-.
      apply Qle_refl.
    + apply Hold; [done|]. rewrite Hheap, lookup_insert_ne in H' by done.
      by rewrite H'.
  - intros c conn' H'. apply Hold; [done|].
    apply (touch_heap_dom t clientId s s'); [done|by rewrite H'].
  - destruct Ht as (Hheap & _). intros c conn' H'. apply Hold; [done|].
    by rewrite <- Hheap, H'.
  - destruct Ht as (Hheap & _). intros c conn' H'. apply Hold; [done|].
    by rewrite <- Hheap, H'.
  - destruct Ht as (tm & _ & Ht). intros c conn' H'. apply Hold; [done|].
    apply (touch_heap_dom _ _ s s' c Ht). by rewrite H'.
Qed.

Lemma reachable_log_ok s : reachable rnd s -> log_ok s.
Proof.
  induction 1 as [|e s s' Hr IH Hs].
  - intros c conn H. cbn [initial heap] in H. by rewrite lookup_empty in H.
  - eapply log_ok_step; [|exact IH|exact Hs]. by apply reachable_wf in Hr.
Qed.

End Logs.

(** * Further properties of the engine *)

(** X1: on every connection the first frame is the welcome frame, and it
    carries the client number of that connection, which is at least 1 and at
    most the counter [connectionId]. *)
Theorem first_frame_is_welcome (rnd : nat -> Q) (s : State) (c : nat)
    (conn : Connection) :
  reachable rnd s ->
  heap s !! c = Some conn ->
  (exists t rest, sent conn = (t, Welcome c) :: rest)
  /\ (1 <= c <= connectionId s)%nat.
Proof.
  intros Hr Hc. split; [by apply (reachable_log_ok rnd s Hr c conn)|].
  split; [|apply (wf_heap_bound s (reachable_wf rnd s Hr)); by rewrite Hc].
  assert (forall c, is_Some (heap s !! c) -> (1 <= c)%nat) as H;
    [|apply H; by rewrite Hc].
  clear c conn Hc.
  induction Hr as [|e s s' Hr IH Hs]; intros c Hc.
  - cbn [initial heap] in Hc. rewrite lookup_empty in Hc. by destruct Hc.
  - pose proof (step_touch rnd e s s' (reachable_wf rnd s Hr) Hs) as Ht.
    destruct e as [t clientIP|t clientId raw|t clientId|t clientId|i].
    + destruct Ht as (_ & _ & _ & Hheap). rewrite Hheap in Hc.
      destruct (decide (c = S (connectionId s))) as [->|Hne]; [lia|].
      rewrite lookup_insert_ne in Hc by done. by apply IH.
    + by apply IH, (touch_heap_dom t clientId s s').
    + destruct Ht as (Hheap & _). apply IH. by rewrite <- Hheap.
    + destruct Ht as (Hheap & _). apply IH. by rewrite <- Hheap.
    + destruct Ht as (tm & _ & Ht). by apply IH, (touch_heap_dom _ _ s s' c Ht).
Qed.

Lemma first_frame_is_welcome_witness :
  exists t rest,
    sent_on (state_after tape_zero two_clients) 2 = (t, Welcome 2) :: rest.
Proof.
  destruct (first_frame_is_welcome tape_zero (state_after tape_zero two_clients) 2
              (mkConnection "10.0.0.2" true
                 (devices_of (state_after tape_zero two_clients) 2)
                 (sent_on (state_after tape_zero two_clients) 2)))
    as [H _].
  - apply (run_reachable tape_zero two_clients initial);
      [apply reachable_initial|vm_compute; reflexivity].
  - vm_compute; reflexivity.
  - exact H.
Defined.

(** X3: an event changes at most one connection: the new one for a
    connection event, the socket's own for a message, a close or an error,
    and for a timer the one its callback works on. Every other connection
    object (device map and frames sent) and its registration stay as they
    were. *)
Theorem event_touches_one_connection (rnd : nat -> Q) (e : Event) (s s' : State)
    (c : nat) :
  reachable rnd s ->
  step rnd e s = Some s' ->
  c <> event_connection e s ->
  heap s' !! c = heap s !! c
  /\ (c ∈ activeConnections s' <-> c ∈ activeConnections s).
Proof.
  intros Hr Hs Hne. pose proof (reachable_wf rnd s Hr) as Hwf.
  pose proof (step_touch rnd e s s' Hwf Hs) as Ht.
  destruct e as [t clientIP|t clientId raw|t clientId|t clientId|i];
    cbn [event_connection] in Hne.
  - destruct Ht as (Ha & _ & _ & Hheap). split.
    + rewrite Hheap. by rewrite lookup_insert_ne.
    + rewrite Ha, elem_of_union, elem_of_singleton. tauto.
  - destruct Ht as (Ha & _ & Hother & _). split; [by apply Hother|by rewrite Ha].
  - destruct Ht as (Hheap & Ha & _). split; [by rewrite Hheap|].
    rewrite Ha, elem_of_difference, elem_of_singleton. tauto.
  - destruct Ht as (Hheap & Ha & _). split; [by rewrite Hheap|].
    rewrite Ha, elem_of_difference, elem_of_singleton. tauto.
  - destruct Ht as (tm & Hf & Ha & _ & Hother & _). rewrite Hf in Hne.
    split; [by apply Hother|by rewrite Ha].
Qed.

Lemma event_touches_one_connection_witness :
  heap (state_after tape_zero (two_clients ++ [EvClose 600 1])) !! 2
  = heap (state_after tape_zero two_clients) !! 2.
Proof.
  refine (proj1 (event_touches_one_connection tape_zero (EvClose 600 1)
            (state_after tape_zero two_clients)
            (state_after tape_zero (two_clients ++ [EvClose 600 1])) 2 _ _ _)).
  - apply (run_reachable tape_zero two_clients initial);
      [apply reachable_initial|vm_compute; reflexivity].
  - vm_compute; reflexivity.
  - cbn [event_connection]. lia.
Defined.

(** X4: every session in a device map was written by a completed
    [connectDevice]: its status is [connected], its connect time is not later
    than the clock, the name it is stored under passes the catalog lookup, and
    its descriptor fields are the copy of what that lookup gives. *)
Theorem session_is_catalog_snapshot (rnd : nat -> Q) (s : State) (c : nat)
    (d : string) (session : DeviceSession) :
  reachable rnd s ->
  devices_get s c d = Some session ->
  status session = "connected"%string
  /\ (connectedAt session <= now s)%Q
  /\ exists device, Catalog.get_property d = Some device
       /\ descriptor session = Catalog.spread device.
Proof.
  intros Hr Hd.
  destruct (reachable_sessions_ok rnd s Hr c d session Hd)
    as (t & Hle & Hst & Ht & Hdev).
  subst t. done.
Qed.

Lemma session_is_catalog_snapshot_witness :
  exists device,
    Catalog.get_property "raspberry-pico" = Some device
    /\ Some Catalog.raspberry_pico = Catalog.spread device.
Proof.
  refine (proj2 (proj2 (session_is_catalog_snapshot tape_zero
            (state_after tape_zero two_clients) 2 "raspberry-pico"
            (mkSession (Some Catalog.raspberry_pico) (Some "COM5"%string) 9600
                       (20 + (0 * 1000 + 500)) "connected") _ _))).
  - apply (run_reachable tape_zero two_clients initial);
      [apply reachable_initial|vm_compute; reflexivity].
  - vm_compute; reflexivity.
Defined.

(** X5: [getDeviceStatus] for an attached device answers with the status
    [connected], the connect time of the session and the time elapsed since,
    which is never negative; for a device that is not attached it answers
    with an error. Either way the device maps and the timers stay as they
    were. *)
Theorem status_reports_uptime (rnd : nat -> Q) (s s' : State) (t : Q)
    (clientId c : nat) (d : string) (m : Message) :
  reachable rnd s ->
  get_connection s clientId = Some c ->
  msg_type m = "getDeviceStatus"%string ->
  msg_deviceId m = d ->
  step rnd (EvMessage t clientId (Some m)) s = Some s' ->
  match devices_get s c d with
  | Some session =>
      sent_on s' c
      = sent_on s c
          ++ [(t, DeviceStatus d "connected" (connectedAt session)
                               (t - connectedAt session))]
      /\ (0 <= t - connectedAt session)%Q
  | None => sent_on s' c = sent_on s c ++ [(t, not_connected d)]
  end
  /\ (forall c', devices_of s' c' = devices_of s c')
  /\ timers s' = timers s.
Proof.
  intros Hr Hc Hty Hdev Hs.
  pose proof (reachable_wf rnd s Hr) as Hwf.
  pose proof (registered_in_heap s clientId c Hwf Hc) as Hheap.
  cbn [step] in Hs.
  destruct (heap s !! clientId); [|done].
  destruct (quiet_until t s) eqn:Hq; [|done]. injection Hs as <-.
  apply quiet_until_clock in Hq.
  cbn [onMessage]. unfold handleMessage.
  replace (get_connection (at_time t s) clientId) with (Some c) by (symmetry; exact Hc).
  cbv zeta. rewrite Hty. cbn [String.eqb Ascii.eqb Bool.eqb].
  unfold handleGetDeviceStatus.
  replace (get_connection (at_time t s) clientId) with (Some c) by (symmetry; exact Hc).
  cbv zeta. rewrite Hdev.
  change (devices_get (at_time t s) c d) with (devices_get s c d).
  destruct (devices_get s c d) as [session|] eqn:Hd.
  - destruct (session_is_catalog_snapshot rnd s c d session Hr Hd) as (Hst & Hle & _).
    split; [split|split].
    + rewrite sent_on_send by done. by rewrite Hst.
    + lra.
    + intros c'. by rewrite devices_of_send.
    + done.
  - split; [|split].
    + by rewrite sent_on_send.
    + intros c'. by rewrite devices_of_send.
    + done.
Qed.

Lemma status_reports_uptime_witness :
  sent_on (state_after tape_zero
             (arduino_attached
                ++ [EvMessage 600 1 (Some (message_for "getDeviceStatus" "arduino-uno" []))])) 1
  = sent_on (state_after tape_zero arduino_attached) 1
      ++ [(600, DeviceStatus "arduino-uno" "connected" (1 + (0 * 1000 + 500))
                             (600 - (1 + (0 * 1000 + 500))))]%Q.
Proof.
  pose proof (status_reports_uptime tape_zero
                (state_after tape_zero arduino_attached)
                (state_after tape_zero
                   (arduino_attached
                      ++ [EvMessage 600 1
                            (Some (message_for "getDeviceStatus" "arduino-uno" []))]))
                600 1 1 "arduino-uno"
                (message_for "getDeviceStatus" "arduino-uno" [])) as H.
  assert (devices_get (state_after tape_zero arduino_attached) 1 "arduino-uno"
          = Some (mkSession (Some Catalog.arduino_uno) (Some "COM3"%string) 9600
                            (1 + (0 * 1000 + 500)) "connected")) as Hd
    by (vm_compute; reflexivity).
  rewrite Hd in H. cbn [connectedAt] in H.
  refine (proj1 (proj1 (H _ _ _ _ _))).
  - apply (run_reachable tape_zero arduino_attached initial);
      [apply reachable_initial|vm_compute; reflexivity].
  - vm_compute; reflexivity.
  - reflexivity.
  - reflexivity.
  - vm_compute; reflexivity.
Defined.

(** X6: [getDeviceList] answers with the three catalog devices, in the
    order of the catalog, each with a flag that tells whether the asking
    connection holds a session for it. Sessions of other connections, and
    sessions under names that are not catalog entries, do not show. Nothing
    else changes. *)
Theorem device_list_is_the_catalog (rnd : nat -> Q) (s s' : State) (t : Q)
    (clientId c : nat) (m : Message) :
  get_connection s clientId = Some c ->
  msg_type m = "getDeviceList"%string ->
  step rnd (EvMessage t clientId (Some m)) s = Some s' ->
  sent_on s' c
  = sent_on s c
      ++ [(t, DeviceList
                [(Catalog.arduino_uno, devices_has s c "arduino-uno");
                 (Catalog.microbit_v2, devices_has s c "microbit-v2");
                 (Catalog.raspberry_pico, devices_has s c "raspberry-pico")])]
  /\ (forall c', devices_of s' c' = devices_of s c')
  /\ timers s' = timers s
  /\ draws s' = draws s.
Proof.
  intros Hc Hty Hs. cbn [step] in Hs.
  destruct (heap s !! clientId) eqn:Hh; [|done].
  assert (is_Some (heap s !! c)) as Hheap.
  { apply get_connection_Some in Hc as [-> _]. by rewrite Hh. }
  destruct (quiet_until t s); [|done]. injection Hs as <-.
  cbn [onMessage]. unfold handleMessage.
  replace (get_connection (at_time t s) clientId) with (Some c) by (symmetry; exact Hc).
  cbv zeta. rewrite Hty. cbn [String.eqb Ascii.eqb Bool.eqb].
  unfold handleGetDeviceList.
  replace (get_connection (at_time t s) clientId) with (Some c) by (symmetry; exact Hc).
  cbv zeta. split; [|split; [|done]].
  - by rewrite sent_on_send.
  - intros c'. by rewrite devices_of_send.
Qed.

Lemma device_list_is_the_catalog_witness :
  sent_on (state_after tape_zero
             (two_clients ++ [EvMessage 600 2 (Some (message_for "getDeviceList" "" []))])) 2
  = sent_on (state_after tape_zero two_clients) 2
      ++ [(600%Q, DeviceList [(Catalog.arduino_uno, false);
                              (Catalog.microbit_v2, false);
                              (Catalog.raspberry_pico, true)])].
Proof.
  pose proof (device_list_is_the_catalog tape_zero
                (state_after tape_zero two_clients)
                (state_after tape_zero
                   (two_clients
                      ++ [EvMessage 600 2 (Some (message_for "getDeviceList" "" []))]))
                600 2 2 (message_for "getDeviceList" "" [])) as H.
  assert (devices_has (state_after tape_zero two_clients) 2 "arduino-uno" = false) as H1
    by (vm_compute; reflexivity).
  assert (devices_has (state_after tape_zero two_clients) 2 "microbit-v2" = false) as H2
    by (vm_compute; reflexivity).
  assert (devices_has (state_after tape_zero two_clients) 2 "raspberry-pico" = true) as H3
    by (vm_compute; reflexivity).
  rewrite H1, H2, H3 in H.
  refine (proj1 (H _ _ _)).
  - vm_compute; reflexivity.
  - reflexivity.
  - vm_compute; reflexivity.
Defined.

(** X7: once a connection has left the registry, a message of its socket
    that parses is ignored whatever its type: no frame, no timer, no change
    but the clock. A message that does not parse is still answered with the
    invalid-format error on that socket, registered or not, and changes
    nothing else. *)
Theorem messages_after_close (rnd : nat -> Q) (s s' : State) (t : Q) (c : nat)
    (raw : option Message) :
  step rnd (EvMessage t c raw) s = Some s' ->
  match raw with
  | Some m => get_connection s c = None -> s' = at_time t s
  | None =>
      sent_on s' c = sent_on s c ++ [(t, InvalidFormat)]
      /\ (forall c', devices_of s' c' = devices_of s c')
      /\ (forall c', c' <> c -> sent_on s' c' = sent_on s c')
      /\ activeConnections s' = activeConnections s
      /\ timers s' = timers s
  end.
Proof.
  intros Hs. cbn [step] in Hs.
  destruct (heap s !! c) as [conn|] eqn:Hh; [|done].
  destruct (quiet_until t s); [|done]. injection Hs as <-.
  destruct raw as [m|]; cbn [onMessage].
  - intros Hc. unfold handleMessage.
    by replace (get_connection (at_time t s) c) with (@None nat) by (symmetry; exact Hc).
  - split; [|split; [|split; [|done]]].
    + rewrite sent_on_send; [done|]. cbn [at_time heap]. by rewrite Hh.
    + intros c'. by rewrite devices_of_send.
    + intros c' Hne. by rewrite sent_on_send_ne.
Qed.

Lemma messages_after_close_witness :
  state_after tape_zero
    (arduino_attached
       ++ [EvClose 600 1; EvMessage 700 1 (Some (message_for "ping" "" []))])
  = at_time 700 (state_after tape_zero (arduino_attached ++ [EvClose 600 1])).
Proof.
  refine (messages_after_close tape_zero
            (state_after tape_zero (arduino_attached ++ [EvClose 600 1]))
            (state_after tape_zero
               (arduino_attached
                  ++ [EvClose 600 1; EvMessage 700 1 (Some (message_for "ping" "" []))]))
            700 1 (Some (message_for "ping" "" [])) _ _);
    vm_compute; reflexivity.
Defined.

(** X8: an error event followed by the close event of the same socket (or
    any two of them) unregisters the connection once: the second only moves
    the clock. *)
Theorem close_twice_is_close_once (rnd : nat -> Q) (s s1 s2 : State) (t1 t2 : Q)
    (c : nat) (e1 e2 : Event) :
  e1 = EvClose t1 c \/ e1 = EvError t1 c ->
  e2 = EvClose t2 c \/ e2 = EvError t2 c ->
  step rnd e1 s = Some s1 ->
  step rnd e2 s1 = Some s2 ->
  get_connection s1 c = None /\ s2 = at_time t2 s1.
Proof.
  intros H1 H2 Hs1 Hs2.
  assert (s1 = onClose c (at_time t1 s)) as ->.
  { destruct H1 as [-> | ->]; cbn [step] in Hs1;
      destruct (heap s !! c); try done;
      destruct (quiet_until t1 s); try done; by injection Hs1 as <-. }
  assert (s2 = onClose c (at_time t2 (onClose c (at_time t1 s)))) as ->.
  { destruct H2 as [-> | ->]; cbn [step] in Hs2;
      destruct (heap (onClose c (at_time t1 s)) !! c); try done;
      destruct (quiet_until t2 (onClose c (at_time t1 s))); try done;
      by injection Hs2 as <-. }
  split.
  - unfold get_connection, onClose. cbn [activeConnections at_time].
    rewrite bool_decide_eq_false_2; [done|].
    rewrite elem_of_difference, elem_of_singleton. tauto.
  - unfold onClose, at_time. cbn [activeConnections heap connectionId timers
      nextTimer now draws]. f_equal.
    apply set_eq. intros x. rewrite !elem_of_difference, elem_of_singleton. tauto.
Qed.

Lemma close_twice_is_close_once_witness :
  get_connection (state_after tape_zero (arduino_attached ++ [EvError 600 1])) 1 = None.
Proof.
  refine (proj1 (close_twice_is_close_once tape_zero
            (state_after tape_zero arduino_attached)
            (state_after tape_zero (arduino_attached ++ [EvError 600 1]))
            (state_after tape_zero (arduino_attached ++ [EvError 600 1; EvClose 601 1]))
            600 601 1 (EvError 600 1) (EvClose 601 1) _ _ _ _)).
  - by right.
  - by left.
  - vm_compute; reflexivity.
  - vm_compute; reflexivity.
Defined.

Section MoreCompletions.

Variable rnd : nat -> Q.

Lemma devices_of_heap s s' c : heap s' = heap s -> devices_of s' c = devices_of s c.
Proof. intros H. unfold devices_of. by rewrite H. Qed.

Lemma sent_on_heap s s' c : heap s' = heap s -> sent_on s' c = sent_on s c.
Proof. intros H. unfold sent_on. by rewrite H. Qed.

(** [disconnectDevice] for an attached device. *)
Lemma disconnect_removes s s' t clientId c d m :
  get_connection s clientId = Some c ->
  devices_has s c d = true ->
  msg_type m = "disconnectDevice"%string ->
  msg_deviceId m = d ->
  step rnd (EvMessage t clientId (Some m)) s = Some s' ->
  devices_of s' c = delete d (devices_of s c)
  /\ sent_on s' c = sent_on s c ++ [(t, DeviceDisconnected d)]
  /\ timers s' = timers s.
Proof.
  intros Hc Hd Hty Hdev Hs.
  pose proof (devices_has_heap_of s c d Hd) as Hheap.
  cbn [step] in Hs.
  destruct (heap s !! clientId); [|done].
  destruct (quiet_until t s); [|done]. injection Hs as <-.
  cbn [onMessage]. unfold handleMessage.
  replace (get_connection (at_time t s) clientId) with (Some c) by (symmetry; exact Hc).
  cbv zeta. rewrite Hty. cbn [String.eqb Ascii.eqb Bool.eqb].
  unfold handleDisconnectDevice.
  replace (get_connection (at_time t s) clientId) with (Some c) by (symmetry; exact Hc).
  cbv zeta. rewrite Hdev.
  replace (devices_has (at_time t s) c d) with true by (symmetry; exact Hd).
  cbn [negb]. split; [|split; [|done]].
  - rewrite devices_of_send, devices_of_devices_delete, decide_True by done. done.
  - rewrite sent_on_send.
    + by rewrite sent_on_devices_delete.
    + cbn [devices_delete with_heap heap at_time]. by apply is_Some_lookup_alter.
Qed.

(** [connectDone] on a registered connection that does not hold the
    device. *)
Lemma connectDone_absent s clientId c d device peripheralId baudrate :
  get_connection s clientId = Some c ->
  devices_has s c d = false ->
  is_Some (heap s !! c) ->
  let session := mkSession (Catalog.spread device) (or_port peripheralId device)
                           baudrate (now s) "connected" in
  let s' := connectDone rnd clientId c d device peripheralId baudrate s in
  devices_of s' c = <[d := session]> (devices_of s c)
  /\ sent_on s' c
     = sent_on s c
         ++ [(now s, DeviceConnected d (or_port peripheralId device) baudrate
                       (Catalog.capabilities <$> Catalog.spread device)
                       (Catalog.pins <$> Catalog.spread device))]
  /\ timers s'
     = timers s
         ++ [mkTimer (nextTimer s) (now s + (1000 + rnd (draws s) * 2000))
                     (Some (1000 + rnd (draws s) * 2000)%Q) (TelemetryTick c d)]
         ++ welcome_timers clientId c d (S (nextTimer s)) (now s)
  /\ draws s' = S (draws s).
Proof.
  intros Hc Hd Hheap session. unfold connectDone. rewrite Hd. cbv zeta.
  fold session.
  set (s1 := devices_set c d session s).
  set (s2 := send c (DeviceConnected d (or_port peripheralId device) baudrate
                       (Catalog.capabilities <$> Catalog.spread device)
                       (Catalog.pins <$> Catalog.spread device)) s1).
  assert (devices_of s2 c = <[d := session]> (devices_of s c)) as Hdev.
  { subst s2 s1. rewrite devices_of_send, devices_of_devices_set.
    rewrite decide_True by done. done. }
  assert (sent_on s2 c
          = sent_on s c
              ++ [(now s, DeviceConnected d (or_port peripheralId device) baudrate
                            (Catalog.capabilities <$> Catalog.spread device)
                            (Catalog.pins <$> Catalog.spread device))]) as Hsent.
  { subst s2 s1. rewrite sent_on_send.
    - by rewrite sent_on_devices_set.
    - cbn [devices_set with_heap heap]. by apply is_Some_lookup_alter. }
  unfold startDeviceDataSimulation.
  change (get_connection s2 clientId) with (get_connection s clientId). rewrite Hc.
  unfold devices_get. rewrite Hdev, lookup_insert_eq.
  unfold random. cbv beta iota zeta.
  unfold handleDeviceSpecificActions.
  change (get_connection (setInterval ?cb ?q ?x) clientId)
    with (get_connection s clientId).
  rewrite Hc. unfold welcome_timers.
  repeat (match goal with |- context [if String.eqb d ?x then _ else _] =>
            destruct (String.eqb d x) end);
    (split; [exact Hdev|]; split; [exact Hsent|]; split; [|reflexivity]);
    cbn [setTimeout setInterval timers]; rewrite <- ?app_assoc; reflexivity.
Qed.

(** The completion of [connectDevice] on a registered connection that does
    not hold the device. *)
Lemma connectDone_fires_open s s' tm clientId c d device peripheralId baudrate :
  wf s ->
  find_timer (tid tm) s = Some tm ->
  callback tm = ConnectDone clientId c d device peripheralId baudrate ->
  get_connection s clientId = Some c ->
  devices_has s c d = false ->
  step rnd (EvTimer (tid tm)) s = Some s' ->
  let session := mkSession (Catalog.spread device) (or_port peripheralId device)
                           baudrate (due tm) "connected" in
  devices_of s' c = <[d := session]> (devices_of s c)
  /\ sent_on s' c
     = sent_on s c
         ++ [(due tm, DeviceConnected d (or_port peripheralId device) baudrate
                        (Catalog.capabilities <$> Catalog.spread device)
                        (Catalog.pins <$> Catalog.spread device))]
  /\ timers s'
     = timers (clearInterval (tid tm) s)
         ++ [mkTimer (nextTimer s) (due tm + (1000 + rnd (draws s) * 2000))
                     (Some (1000 + rnd (draws s) * 2000)%Q) (TelemetryTick c d)]
         ++ welcome_timers clientId c d (S (nextTimer s)) (due tm)
  /\ draws s' = S (draws s).
Proof.
  intros Hwf Hf Hcb Hc Hd Hs.
  destruct (timeout_fires rnd s s' tm Hwf Hf) as [-> Hcap]; [by rewrite Hcb|done|].
  rewrite Hcb in *. cbn [runCallback].
  assert (is_Some (heap s !! c)) as Hheap
    by (apply Hcap, list_elem_of_singleton; done).
  exact (connectDone_absent (remove_timer (tid tm) (at_time (due tm) s))
           clientId c d device peripheralId baudrate Hc Hd Hheap).
Qed.

Lemma sendDataDone_fires s s' tm c d data :
  wf s ->
  find_timer (tid tm) s = Some tm ->
  callback tm = SendDataDone c d data ->
  step rnd (EvTimer (tid tm)) s = Some s' ->
  sent_on s' c = sent_on s c ++ [(due tm, DeviceData d (Processed data (due tm)))]
  /\ timers s' = timers (clearInterval (tid tm) s)
  /\ (forall c', devices_of s' c' = devices_of s c').
Proof.
  intros Hwf Hf Hcb Hs.
  destruct (timeout_fires rnd s s' tm Hwf Hf) as [-> Hcap]; [by rewrite Hcb|done|].
  rewrite Hcb in *. cbn [runCallback]. split; [|split; [done|]].
  - rewrite sent_on_send; [done|]. apply Hcap, list_elem_of_singleton. done.
  - intros c'. by rewrite devices_of_send.
Qed.

End MoreCompletions.

(** X9: a [connectDevice] request for a catalog device schedules one
    completion that carries the port and the baud rate of the request. When
    that completion runs on a connection that is still registered and does not
    hold the device, it writes the session: the catalog copy, the port of the
    request or, when the request has none or an empty one, the port of the
    catalog, the baud rate of the request or 9600, the time of the completion
    and the status [connected]. It sends [deviceConnected] with the same port
    and baud rate, arms the telemetry interval with a period drawn at that
    moment, and schedules the welcome action of the device 1000 ms later. *)
Theorem connect_completion_attaches (rnd : nat -> Q) (s0 s1 : State) (t : Q)
    (clientId c : nat) (m : Message) (device : Catalog.PropertyValue) :
  get_connection s0 clientId = Some c ->
  msg_type m = "connectDevice"%string ->
  Catalog.get_property (msg_deviceId m) = Some device ->
  step rnd (EvMessage t clientId (Some m)) s0 = Some s1 ->
  let d := msg_deviceId m in
  let baudrate := match msg_baudrate m with Some b => b | None => 9600%Z end in
  let port := match msg_peripheralId m with
              | Some (String a p) => Some (String a p)
              | Some EmptyString | None => Catalog.port <$> Catalog.spread device
              end in
  let cb := ConnectDone clientId c d device (msg_peripheralId m) baudrate in
  timers s1
  = timers s0 ++ [mkTimer (nextTimer s0) (t + (rnd (draws s0) * 1000 + 500)) None cb]
  /\ forall s s' tm,
       reachable rnd s ->
       find_timer (tid tm) s = Some tm ->
       callback tm = cb ->
       get_connection s clientId = Some c ->
       devices_has s c d = false ->
       step rnd (EvTimer (tid tm)) s = Some s' ->
       devices_of s' c
       = <[d := mkSession (Catalog.spread device) port baudrate (due tm) "connected"]>
           (devices_of s c)
       /\ sent_on s' c
          = sent_on s c
              ++ [(due tm, DeviceConnected d port baudrate
                             (Catalog.capabilities <$> Catalog.spread device)
                             (Catalog.pins <$> Catalog.spread device))]
       /\ timers s'
          = timers (clearInterval (tid tm) s)
              ++ [mkTimer (nextTimer s) (due tm + (1000 + rnd (draws s) * 2000))
                          (Some (1000 + rnd (draws s) * 2000)%Q) (TelemetryTick c d)]
              ++ welcome_timers clientId c d (S (nextTimer s)) (due tm)
       /\ draws s' = S (draws s).
Proof.
  intros Hc Hty Hp Hs. cbv zeta. split.
  - cbn [step] in Hs.
    destruct (heap s0 !! clientId) as [conn|] eqn:Hh; [|done].
    destruct (quiet_until t s0); [|done]. injection Hs as <-.
    cbn [onMessage]. unfold handleMessage.
    replace (get_connection (at_time t s0) clientId) with (Some c)
      by (symmetry; exact Hc).
    cbv zeta. rewrite Hty. cbn [String.eqb Ascii.eqb Bool.eqb].
    unfold handleConnectDevice.
    replace (get_connection (at_time t s0) clientId) with (Some c)
      by (symmetry; exact Hc).
    cbv zeta. rewrite Hp. unfold random. cbv beta iota zeta.
    by destruct (msg_baudrate m).
  - intros s s' tm Hr Hf Hcb Hc' Hd Hs'.
    pose proof (connectDone_fires_open rnd s s' tm clientId c (msg_deviceId m) device
                  (msg_peripheralId m)
                  match msg_baudrate m with Some b => b | None => 9600%Z end
                  (reachable_wf rnd s Hr) Hf Hcb Hc' Hd Hs') as H.
    cbv zeta in H. unfold or_port in H.
    by destruct (msg_peripheralId m) as [[|a p]|].
Qed.

Lemma connect_completion_attaches_witness :
  devices_of (state_after tape_zero (pico_requested_on_port ++ [EvTimer 0])) 1
  = <["raspberry-pico"%string :=
        mkSession (Catalog.spread (Catalog.OwnDevice Catalog.raspberry_pico))
                  (Some "COM7"%string) 115200 (1 + (0 * 1000 + 500)) "connected"]>
      (devices_of (state_after tape_zero pico_requested_on_port) 1).
Proof.
  refine (proj1
            (proj2
               (connect_completion_attaches tape_zero
                  (state_after tape_zero [EvConnection 0 "127.0.0.1"])
                  (state_after tape_zero pico_requested_on_port)
                  1 1 1 connect_pico_on_port
                  (Catalog.OwnDevice Catalog.raspberry_pico) _ _ _ _)
               (state_after tape_zero pico_requested_on_port)
               (state_after tape_zero (pico_requested_on_port ++ [EvTimer 0]))
               (mkTimer 0 (1 + (0 * 1000 + 500)) None
                  (ConnectDone 1 1 "raspberry-pico"
                     (Catalog.OwnDevice Catalog.raspberry_pico)
                     (Some "COM7"%string) 115200))
               _ _ _ _ _ _)).
  - vm_compute; reflexivity.
  - reflexivity.
  - vm_compute; reflexivity.
  - vm_compute; reflexivity.
  - apply (run_reachable tape_zero pico_requested_on_port initial);
      [apply reachable_initial|vm_compute; reflexivity].
  - vm_compute; reflexivity.
  - reflexivity.
  - vm_compute; reflexivity.
  - vm_compute; reflexivity.
  - vm_compute; reflexivity.
Defined.

(** X10: connecting a device and then disconnecting it gives back the
    device map the connection had before. The telemetry interval armed by the
    connect is still pending after the disconnect. *)
Theorem connect_then_disconnect_restores_map (rnd : nat -> Q) (s s1 s2 : State)
    (tm : Timer) (t : Q) (clientId c : nat) (d : string)
    (device : Catalog.PropertyValue) (peripheralId : option string) (baudrate : Z)
    (m : Message) :
  reachable rnd s ->
  find_timer (tid tm) s = Some tm ->
  callback tm = ConnectDone clientId c d device peripheralId baudrate ->
  get_connection s clientId = Some c ->
  devices_has s c d = false ->
  step rnd (EvTimer (tid tm)) s = Some s1 ->
  msg_type m = "disconnectDevice"%string ->
  msg_deviceId m = d ->
  step rnd (EvMessage t clientId (Some m)) s1 = Some s2 ->
  devices_of s2 c = devices_of s c
  /\ timers s2 = timers s1
  /\ exists interval, interval ∈ timers s2 /\ callback interval = TelemetryTick c d.
Proof.
  intros Hr Hf Hcb Hc Hd Hs1 Hty Hdev Hs2.
  destruct (connectDone_fires_open rnd s s1 tm clientId c d device peripheralId baudrate
              (reachable_wf rnd s Hr) Hf Hcb Hc Hd Hs1) as (Hmap & _ & Htimers & _).
  assert (get_connection s1 clientId = Some c) as Hc1.
  { destruct (step_touch rnd _ s s1 (reachable_wf rnd s Hr) Hs1) as (tm' & _ & Ha & _).
    unfold get_connection in *. by rewrite Ha. }
  assert (devices_has s1 c d = true) as Hd1.
  { unfold devices_has, devices_get. by rewrite Hmap, lookup_insert_eq. }
  destruct (disconnect_removes rnd s1 s2 t clientId c d m Hc1 Hd1 Hty Hdev Hs2)
    as (Hmap2 & _ & Htimers2).
  split; [|split; [done|]].
  - rewrite Hmap2, Hmap. apply delete_insert_id.
    unfold devices_has, devices_get in Hd. by destruct (devices_of s c !! d).
  - exists (mkTimer (nextTimer s) (due tm + (1000 + rnd (draws s) * 2000))
                    (Some (1000 + rnd (draws s) * 2000)%Q) (TelemetryTick c d)).
    split; [|reflexivity]. rewrite Htimers2, Htimers.
    apply elem_of_app. right. apply elem_of_cons. by left.
Qed.

Lemma connect_then_disconnect_restores_map_witness :
  devices_of (state_after tape_zero
                (pico_requested
                   ++ [EvTimer 0;
                       EvMessage 600 1
                         (Some (message_for "disconnectDevice" "raspberry-pico" []))])) 1
  = devices_of (state_after tape_zero pico_requested) 1.
Proof.
  refine (proj1
            (connect_then_disconnect_restores_map tape_zero
               (state_after tape_zero pico_requested)
               (state_after tape_zero (pico_requested ++ [EvTimer 0]))
               (state_after tape_zero
                  (pico_requested
                     ++ [EvTimer 0;
                         EvMessage 600 1
                           (Some (message_for "disconnectDevice" "raspberry-pico" []))]))
               (mkTimer 0 (1 + (0 * 1000 + 500)) None
                  (ConnectDone 1 1 "raspberry-pico"
                     (Catalog.OwnDevice Catalog.raspberry_pico) None 9600))
               600 1 1 "raspberry-pico" (Catalog.OwnDevice Catalog.raspberry_pico)
               None 9600%Z (message_for "disconnectDevice" "raspberry-pico" [])
               _ _ _ _ _ _ _ _ _)).
  - apply (run_reachable tape_zero pico_requested initial);
      [apply reachable_initial|vm_compute; reflexivity].
  - vm_compute; reflexivity.
  - reflexivity.
  - vm_compute; reflexivity.
  - vm_compute; reflexivity.
  - vm_compute; reflexivity.
  - reflexivity.
  - reflexivity.
  - vm_compute; reflexivity.
Defined.

(** X11: with every random value in the range of [Math.random], a request
    schedules at most one time-out, under the next free handle, and its delay
    lies in the window of the request, both ends included: 500 to 1500 ms for
    [connectDevice] and [executeCode], 100 to 300 ms for [sendData], 1000 to
    3000 ms for [uploadCode]. The upper end is included because the sum is
    rounded in the code and can reach it. No request schedules any other
    callback, and none starts an interval. *)
Theorem request_delay_windows (rnd : nat -> Q) (s s' : State) (t : Q)
    (clientId : nat) (m : Message) :
  (forall i, 0 <= rnd i /\ rnd i < 1)%Q ->
  step rnd (EvMessage t clientId (Some m)) s = Some s' ->
  forall tm, tm ∈ timers s' ->
    tm ∈ timers s
    \/ (tid tm = nextTimer s /\ period tm = None
        /\ match callback tm with
           | ConnectDone _ _ _ _ _ _ | ExecuteDone _ _ _ =>
               (t + 500 <= due tm /\ due tm <= t + 1500)%Q
           | SendDataDone _ _ _ => (t + 100 <= due tm /\ due tm <= t + 300)%Q
           | UploadDone _ _ _ _ => (t + 1000 <= due tm /\ due tm <= t + 3000)%Q
           | _ => False
           end).
Proof.
  intros Hr Hs tm Hin. cbn [step] in Hs.
  destruct (heap s !! clientId); [|done].
  destruct (quiet_until t s); [|done]. injection Hs as <-.
  cbn [onMessage] in Hin. unfold handleMessage in Hin.
  destruct (get_connection (at_time t s) clientId) as [connection|] eqn:Hc;
    [|by left].
  cbv zeta in Hin.
  repeat match type of Hin with
         | context [if String.eqb (msg_type m) ?x then _ else _] =>
             destruct (String.eqb (msg_type m) x)
         end;
    unfold handleGetDeviceList, handleConnectDevice, handleDisconnectDevice,
      handleSendData, handleGetDeviceStatus, handlePing, handleUploadCode,
      handleExecuteCode in Hin;
    rewrite ?Hc in Hin; cbv zeta in Hin;
    repeat match type of Hin with
           | context [match Catalog.get_property ?d with _ => _ end] =>
               destruct (Catalog.get_property d)
           | context [match devices_get ?a ?b ?d with _ => _ end] =>
               destruct (devices_get a b d)
           | context [negb (devices_has ?a ?b ?d)] =>
               destruct (devices_has a b d); cbn [negb] in Hin
           | context [simulateOutput ?r ?k ?code] =>
               let j := fresh "j" in
               let output := fresh "output" in
               let Hj := fresh "Hj" in
               pose proof (Hr (fst (simulateOutput r k code))) as Hj;
               destruct (simulateOutput r k code) as [j output];
               cbn [fst] in Hj
           end;
    try (left; exact Hin);
    unfold random in Hin;
    cbn [setTimeout timers activeConnections heap connectionId nextTimer now draws
         at_time] in Hin;
    apply elem_of_app in Hin as [Hin|Hin]; try (left; exact Hin);
    apply list_elem_of_singleton in Hin as ->; right;
    cbn [tid period callback due];
    (split; [reflexivity|]; split; [reflexivity|]);
    try (pose proof (Hr (draws s)); lra); lra.
Qed.

Lemma request_delay_windows_witness :
  mkTimer 0 (1 + (0 * 1000 + 500)) None
    (ConnectDone 1 1 "raspberry-pico" (Catalog.OwnDevice Catalog.raspberry_pico)
                 None 9600)
    ∈ timers (state_after tape_zero [EvConnection 0 "127.0.0.1"])
  \/ (0%nat = nextTimer (state_after tape_zero [EvConnection 0 "127.0.0.1"])
      /\ @None Q = None
      /\ (1 + 500 <= 1 + (0 * 1000 + 500) /\ 1 + (0 * 1000 + 500) <= 1 + 1500)%Q).
Proof.
  refine (request_delay_windows tape_zero
            (state_after tape_zero [EvConnection 0 "127.0.0.1"])
            (state_after tape_zero pico_requested)
            1 1 (message_for "connectDevice" "raspberry-pico" []) _ _
            (mkTimer 0 (1 + (0 * 1000 + 500)) None
               (ConnectDone 1 1 "raspberry-pico"
                  (Catalog.OwnDevice Catalog.raspberry_pico) None 9600)) _).
  - intros i. unfold tape_zero. lra.
  - vm_compute; reflexivity.
  - apply list_elem_of_singleton. vm_compute. reflexivity.
Defined.

(** X12: a message on a registered socket has exactly one consequence. Either
    one frame is sent on that socket at once and no timer is made, or no frame
    is sent and one time-out is scheduled under the next free handle. This
    holds for every message type, the unsupported ones and the text that does
    not parse included. *)
Theorem request_answered_now_or_later (rnd : nat -> Q) (s s' : State) (t : Q)
    (clientId : nat) (raw : option Message) :
  clientId ∈ activeConnections s ->
  step rnd (EvMessage t clientId raw) s = Some s' ->
  (exists f, sent_on s' clientId = sent_on s clientId ++ [(t, f)]
             /\ timers s' = timers s)
  \/ (exists cb delay,
        sent_on s' clientId = sent_on s clientId
        /\ timers s' = timers s ++ [mkTimer (nextTimer s) (t + delay) None cb]).
Proof.
  intros Hreg Hs. cbn [step] in Hs.
  destruct (heap s !! clientId) as [conn|] eqn:Hh; [|done].
  destruct (quiet_until t s); [|done]. injection Hs as <-.
  assert (is_Some (heap (at_time t s) !! clientId)) as Hheap
    by (cbn [at_time heap]; by rewrite Hh).
  destruct raw as [m|]; cbn [onMessage].
  2: { left. eexists. split; [|done]. by rewrite sent_on_send. }
  unfold handleMessage.
  assert (get_connection (at_time t s) clientId = Some clientId) as Hc.
  { unfold get_connection. cbn [at_time activeConnections].
    by rewrite bool_decide_true. }
  rewrite Hc. cbv zeta.
  repeat match goal with
         | |- context [if String.eqb (msg_type m) ?x then _ else _] =>
             destruct (String.eqb (msg_type m) x)
         end;
    unfold handleGetDeviceList, handleConnectDevice, handleDisconnectDevice,
      handleSendData, handleGetDeviceStatus, handlePing, handleUploadCode,
      handleExecuteCode;
    rewrite ?Hc; cbv zeta;
    repeat match goal with
           | |- context [match Catalog.get_property ?d with _ => _ end] =>
               destruct (Catalog.get_property d)
           | |- context [match devices_get ?a ?b ?d with _ => _ end] =>
               destruct (devices_get a b d)
           | |- context [negb (devices_has ?a ?b ?d)] =>
               destruct (devices_has a b d); cbn [negb]
           | |- context [simulateOutput ?r ?k ?code] =>
               destruct (simulateOutput r k code)
           end;
    first
      [ left; eexists; split; [|reflexivity];
        rewrite sent_on_send;
        [ rewrite ?sent_on_devices_delete; reflexivity
        | try exact Hheap;
          cbn [devices_delete with_heap heap at_time]; by apply is_Some_lookup_alter ]
      | right; eexists; eexists; split; reflexivity ].
Qed.

Lemma request_answered_now_or_later_witness :
  (exists f, sent_on (state_after tape_zero pico_requested) 1
             = sent_on (state_after tape_zero [EvConnection 0 "127.0.0.1"]) 1 ++ [(1%Q, f)]
             /\ timers (state_after tape_zero pico_requested)
                = timers (state_after tape_zero [EvConnection 0 "127.0.0.1"]))
  \/ (exists cb delay,
        sent_on (state_after tape_zero pico_requested) 1
        = sent_on (state_after tape_zero [EvConnection 0 "127.0.0.1"]) 1
        /\ timers (state_after tape_zero pico_requested)
           = timers (state_after tape_zero [EvConnection 0 "127.0.0.1"])
               ++ [mkTimer (nextTimer (state_after tape_zero [EvConnection 0 "127.0.0.1"]))
                           (1 + delay)%Q None cb]).
Proof.
  refine (request_answered_now_or_later tape_zero
            (state_after tape_zero [EvConnection 0 "127.0.0.1"])
            (state_after tape_zero pico_requested)
            1 1 (Some (message_for "connectDevice" "raspberry-pico" [])) _ _).
  - vm_compute; reflexivity.
  - vm_compute; reflexivity.
Defined.

(** X13: a [sendData] request for an attached device sends nothing at once
    and schedules one answer that carries the device name and the data of the
    request. That answer checks nothing when it runs: in any reachable state,
    firing it sends one [deviceData] frame with the data of the request on the
    connection the request came from, stamped with the time of the firing, and
    leaves the device maps alone, also when the device has been disconnected
    or the socket has closed in the meantime. *)
Theorem sendData_echo (rnd : nat -> Q) (s0 s1 : State) (t : Q) (clientId c : nat)
    (m : Message) :
  get_connection s0 clientId = Some c ->
  msg_type m = "sendData"%string ->
  devices_has s0 c (msg_deviceId m) = true ->
  step rnd (EvMessage t clientId (Some m)) s0 = Some s1 ->
  let cb := SendDataDone c (msg_deviceId m) (msg_data m) in
  timers s1
  = timers s0 ++ [mkTimer (nextTimer s0) (t + (rnd (draws s0) * 200 + 100)) None cb]
  /\ sent_on s1 c = sent_on s0 c
  /\ forall s s' tm,
       reachable rnd s ->
       find_timer (tid tm) s = Some tm ->
       callback tm = cb ->
       step rnd (EvTimer (tid tm)) s = Some s' ->
       sent_on s' c
       = sent_on s c
           ++ [(due tm, DeviceData (msg_deviceId m) (Processed (msg_data m) (due tm)))]
       /\ timers s' = timers (clearInterval (tid tm) s)
       /\ (forall c', devices_of s' c' = devices_of s c').
Proof.
  intros Hc Hty Hd Hs. cbv zeta. split; [|split].
  - cbn [step] in Hs.
    destruct (heap s0 !! clientId) as [conn|] eqn:Hh; [|done].
    destruct (quiet_until t s0); [|done]. injection Hs as <-.
    cbn [onMessage]. unfold handleMessage.
    replace (get_connection (at_time t s0) clientId) with (Some c)
      by (symmetry; exact Hc).
    cbv zeta. rewrite Hty. cbn [String.eqb Ascii.eqb Bool.eqb].
    unfold handleSendData.
    replace (get_connection (at_time t s0) clientId) with (Some c)
      by (symmetry; exact Hc).
    cbv zeta.
    replace (devices_has (at_time t s0) c (msg_deviceId m)) with true
      by (symmetry; exact Hd).
    reflexivity.
  - cbn [step] in Hs.
    destruct (heap s0 !! clientId) as [conn|] eqn:Hh; [|done].
    destruct (quiet_until t s0); [|done]. injection Hs as <-.
    cbn [onMessage]. unfold handleMessage.
    replace (get_connection (at_time t s0) clientId) with (Some c)
      by (symmetry; exact Hc).
    cbv zeta. rewrite Hty. cbn [String.eqb Ascii.eqb Bool.eqb].
    unfold handleSendData.
    replace (get_connection (at_time t s0) clientId) with (Some c)
      by (symmetry; exact Hc).
    cbv zeta.
    replace (devices_has (at_time t s0) c (msg_deviceId m)) with true
      by (symmetry; exact Hd).
    reflexivity.
  - intros s s' tm Hr Hf Hcb Hs'.
    exact (sendDataDone_fires rnd s s' tm c (msg_deviceId m) (msg_data m)
             (reachable_wf rnd s Hr) Hf Hcb Hs').
Qed.

Lemma sendData_echo_witness :
  devices_has (state_after tape_zero
                 (arduino_attached
                    ++ [EvMessage 600 1 (Some send_led_to_arduino);
                        disconnect_arduino 650])) 1
              "arduino-uno" = false
  /\ sent_on (state_after tape_zero
                (arduino_attached
                   ++ [EvMessage 600 1 (Some send_led_to_arduino);
                       disconnect_arduino 650; EvTimer 3])) 1
     = sent_on (state_after tape_zero
                  (arduino_attached
                     ++ [EvMessage 600 1 (Some send_led_to_arduino);
                         disconnect_arduino 650])) 1
         ++ [((600 + (0 * 200 + 100))%Q,
              DeviceData "arduino-uno" (Processed "led=1" (600 + (0 * 200 + 100))))].
Proof.
  split; [vm_compute; reflexivity|].
  refine (proj1
            (proj2
               (proj2
                  (sendData_echo tape_zero
                     (state_after tape_zero arduino_attached)
                     (state_after tape_zero
                        (arduino_attached ++ [EvMessage 600 1 (Some send_led_to_arduino)]))
                     600 1 1 send_led_to_arduino _ _ _ _))
               (state_after tape_zero
                  (arduino_attached
                     ++ [EvMessage 600 1 (Some send_led_to_arduino);
                         disconnect_arduino 650]))
               (state_after tape_zero
                  (arduino_attached
                     ++ [EvMessage 600 1 (Some send_led_to_arduino);
                         disconnect_arduino 650; EvTimer 3]))
               (mkTimer 3 (600 + (0 * 200 + 100)) None
                  (SendDataDone 1 "arduino-uno" "led=1"))
               _ _ _ _)).
  - vm_compute; reflexivity.
  - reflexivity.
  - vm_compute; reflexivity.
  - vm_compute; reflexivity.
  - apply (run_reachable tape_zero
             (arduino_attached
                ++ [EvMessage 600 1 (Some send_led_to_arduino); disconnect_arduino 650])
             initial);
      [apply reachable_initial|vm_compute; reflexivity].
  - vm_compute; reflexivity.
  - reflexivity.
  - vm_compute; reflexivity.
Defined.

(** X14: the welcome actions check nothing when they run. In any reachable
    state the Pico action sends [codeInjected] on the connection it captured
    and schedules [codeOutput] 500 ms later; the [codeOutput] callback, the
    Arduino blink and the micro:bit pattern each send their one frame and
    schedule nothing. None of them looks at the registry or at the device
    map, and none changes a device map. *)
Theorem welcome_actions (rnd : nat -> Q) (s s' : State) (tm : Timer) :
  reachable rnd s ->
  find_timer (tid tm) s = Some tm ->
  step rnd (EvTimer (tid tm)) s = Some s' ->
  match callback tm with
  | PicoInject _ c d =>
      sent_on s' c = sent_on s c ++ [(due tm, CodeInjected d)]
      /\ timers s'
         = timers (clearInterval (tid tm) s)
             ++ [mkTimer (nextTimer s) (due tm + 500) None (PicoOutput c d)]
      /\ (forall c', devices_of s' c' = devices_of s c')
  | PicoOutput c d =>
      sent_on s' c = sent_on s c ++ [(due tm, CodeOutput d)]
      /\ timers s' = timers (clearInterval (tid tm) s)
      /\ (forall c', devices_of s' c' = devices_of s c')
  | ArduinoBlink _ c d =>
      sent_on s' c
      = sent_on s c
          ++ [(due tm, DeviceAction d "led_blink" "LED integrado parpadeando"
                         (Some "D13"%string) "blink_5_times")]
      /\ timers s' = timers (clearInterval (tid tm) s)
      /\ (forall c', devices_of s' c' = devices_of s c')
  | MicrobitPattern _ c d =>
      sent_on s' c
      = sent_on s c
          ++ [(due tm, DeviceAction d "led_pattern" "Patrón de bienvenida en LED matrix"
                         None "smile_face")]
      /\ timers s' = timers (clearInterval (tid tm) s)
      /\ (forall c', devices_of s' c' = devices_of s c')
  | _ => True
  end.
Proof.
  intros Hr Hf Hs. pose proof (reachable_wf rnd s Hr) as Hwf.
  destruct (callback tm) eqn:Hcb; try exact I;
    (destruct (timeout_fires rnd s s' tm Hwf Hf) as [-> Hcap];
     [by rewrite Hcb|done|]);
    rewrite Hcb in *; cbn [runCallback];
    (split; [|split; [reflexivity|]]).
  all: try (intros c'; try change (devices_of (setTimeout ?cb ?q ?x) c')
                         with (devices_of x c');
            by rewrite devices_of_send).
  all: try change (sent_on (setTimeout ?cb ?q ?x) ?c) with (sent_on x c).
  all: rewrite sent_on_send; [done|]; apply Hcap, list_elem_of_singleton; done.
Qed.

Lemma welcome_actions_witness :
  sent_on (state_after tape_zero (pico_requested ++ [EvTimer 0; EvTimer 2])) 1
  = sent_on (state_after tape_zero (pico_requested ++ [EvTimer 0])) 1
      ++ [((1 + (0 * 1000 + 500) + 1000)%Q, CodeInjected "raspberry-pico")]
  /\ timers (state_after tape_zero (pico_requested ++ [EvTimer 0; EvTimer 2]))
     = timers (clearInterval 2 (state_after tape_zero (pico_requested ++ [EvTimer 0])))
         ++ [mkTimer 3 (1 + (0 * 1000 + 500) + 1000 + 500) None
                     (PicoOutput 1 "raspberry-pico")]
  /\ (forall c',
        devices_of (state_after tape_zero (pico_requested ++ [EvTimer 0; EvTimer 2])) c'
        = devices_of (state_after tape_zero (pico_requested ++ [EvTimer 0])) c').
Proof.
  refine (welcome_actions tape_zero
            (state_after tape_zero (pico_requested ++ [EvTimer 0]))
            (state_after tape_zero (pico_requested ++ [EvTimer 0; EvTimer 2]))
            (mkTimer 2 (1 + (0 * 1000 + 500) + 1000) None
               (PicoInject 1 1 "raspberry-pico")) _ _ _).
  - apply (run_reachable tape_zero (pico_requested ++ [EvTimer 0]) initial);
      [apply reachable_initial|vm_compute; reflexivity].
  - vm_compute; reflexivity.
  - vm_compute; reflexivity.
Defined.

Section Doubles.

Import Double.

Lemma round_even_cases x :
  round_even x = Qfloor x
  \/ (round_even x = (Qfloor x + 1)%Z /\ (inject_Z (Qfloor x) < x)%Q).
Proof.
  unfold round_even. cbv zeta.
  destruct (Qcompare (x - inject_Z (Qfloor x)) (1 # 2)) eqn:E.
  - apply Qeq_alt in E. destruct (Z.even (Qfloor x)); [by left|].
    right. split; [reflexivity|]. lra.
  - by left.
  - apply Qgt_alt in E. right. split; [reflexivity|]. lra.
Qed.

Lemma round_even_ge (k : Z) x : (inject_Z k <= x)%Q -> (k <= round_even x)%Z.
Proof.
  intros H. assert (k <= Qfloor x)%Z as Hk.
  { rewrite <- (Qfloor_Z k). by apply Qfloor_resp_le. }
  destruct (round_even_cases x) as [->|[-> _]]; lia.
Qed.

Lemma round_even_le (k : Z) x : (x <= inject_Z k)%Q -> (round_even x <= k)%Z.
Proof.
  intros H. pose proof (Qfloor_le x) as Hf.
  destruct (round_even_cases x) as [->|[-> Hlt]].
  - rewrite Zle_Qle. lra.
  - assert (Qfloor x < k)%Z; [|lia]. rewrite Zlt_Qlt. lra.
Qed.

Lemma pow2_pos (j : Z) : (0 <= j)%Z -> (0 < inject_Z (2 ^ j))%Q.
Proof.
  intros H. change 0%Q with (inject_Z 0). rewrite <- Zlt_Qlt.
  by apply Z.pow_pos_nonneg.
Qed.

Lemma exponent_lt x (m : Z) :
  (0 <= m)%Z -> (x < inject_Z (2 ^ m))%Q -> (exponent x < m)%Z.
Proof.
  intros Hm Hx. unfold exponent.
  set (F := Qfloor (x * inject_Z (2 ^ 1100))).
  destruct (Z.le_gt_cases F 0) as [H0|H0].
  - rewrite Z.log2_nonpos by done. lia.
  - assert (F < 2 ^ (m + 1100))%Z as HF.
    { rewrite Zlt_Qlt. eapply Qle_lt_trans; [apply Qfloor_le|].
      rewrite Z.pow_add_r by lia. rewrite inject_Z_mult.
      apply Qmult_lt_compat_r; [by apply pow2_pos|exact Hx]. }
    apply Z.log2_lt_pow2 in HF; lia.
Qed.

Lemma places_ge x (m i : Z) :
  (0 <= m)%Z -> (x < inject_Z (2 ^ m))%Q -> (i + m <= 53)%Z -> (i <= 1074)%Z ->
  (i <= places x)%Z.
Proof.
  intros Hm Hx Him Hi. pose proof (exponent_lt x m Hm Hx). unfold places. lia.
Qed.

Lemma scale_dyadic (k i j : Z) :
  (0 <= i <= j)%Z ->
  (inject_Z k / inject_Z (2 ^ i) * inject_Z (2 ^ j) == inject_Z (k * 2 ^ (j - i)))%Q.
Proof.
  intros Hij. replace j with (i + (j - i))%Z at 1 by lia.
  rewrite Z.pow_add_r by lia. rewrite !inject_Z_mult.
  pose proof (pow2_pos i (proj1 Hij)). field. lra.
Qed.

Lemma round_pos_between x (lo hi i : Z) :
  (0 <= i <= places x)%Z ->
  (inject_Z lo / inject_Z (2 ^ i) <= x)%Q ->
  (x <= inject_Z hi / inject_Z (2 ^ i))%Q ->
  (inject_Z lo / inject_Z (2 ^ i) <= round_pos x)%Q
  /\ (round_pos x <= inject_Z hi / inject_Z (2 ^ i))%Q.
Proof.
  intros Hi Hlo Hhi. unfold round_pos. cbv zeta.
  set (j := places x) in *.
  assert (0 <= j)%Z as Hj by lia.
  rewrite (proj2 (Z.leb_le 0 j) Hj).
  pose proof (pow2_pos j Hj) as Hp. pose proof (pow2_pos i (proj1 Hi)) as Hpi.
  assert (lo * 2 ^ (j - i) <= round_even (x * inject_Z (2 ^ j)))%Z as H1.
  { apply round_even_ge. rewrite <- (scale_dyadic lo i j Hi).
    apply Qmult_le_compat_r; [exact Hlo|lra]. }
  assert (round_even (x * inject_Z (2 ^ j)) <= hi * 2 ^ (j - i))%Z as H2.
  { apply round_even_le. rewrite <- (scale_dyadic hi i j Hi).
    apply Qmult_le_compat_r; [exact Hhi|lra]. }
  rewrite Zle_Qle in H1, H2.
  rewrite <- (scale_dyadic lo i j Hi) in H1. rewrite <- (scale_dyadic hi i j Hi) in H2.
  split.
  - apply Qle_shift_div_l; [exact Hp|exact H1].
  - apply Qle_shift_div_r; [exact Hp|exact H2].
Qed.

(** Rounding keeps a number between two bounds that are themselves
    doubles: here fractions with denominator [2 ^ i], for a number below
    [2 ^ m] in size with [i + m <= 53]. *)
Lemma round_between x (lo hi i m : Z) :
  (0 <= i)%Z -> (0 <= m)%Z -> (i + m <= 53)%Z ->
  (- inject_Z (2 ^ m) < x)%Q -> (x < inject_Z (2 ^ m))%Q ->
  (inject_Z lo / inject_Z (2 ^ i) <= x)%Q ->
  (x <= inject_Z hi / inject_Z (2 ^ i))%Q ->
  (inject_Z lo / inject_Z (2 ^ i) <= round x)%Q
  /\ (round x <= inject_Z hi / inject_Z (2 ^ i))%Q.
Proof.
  intros Hi Hm Him Hneg Hpos Hlo Hhi. unfold round.
  pose proof (pow2_pos i Hi) as Hpi.
  destruct (Qcompare x 0) eqn:E.
  - apply Qeq_alt in E. lra.
  - assert (inject_Z (- hi) / inject_Z (2 ^ i) == - (inject_Z hi / inject_Z (2 ^ i)))%Q
      as Eh by (rewrite inject_Z_opp; field; lra).
    assert (inject_Z (- lo) / inject_Z (2 ^ i) == - (inject_Z lo / inject_Z (2 ^ i)))%Q
      as El by (rewrite inject_Z_opp; field; lra).
    destruct (round_pos_between (- x) (- hi) (- lo) i) as [H1 H2].
    + split; [exact Hi|]. apply (places_ge (- x) m i); [done|lra|done|lia].
    + rewrite Eh. lra.
    + rewrite El. lra.
    + rewrite Eh in H1. rewrite El in H2. lra.
  - apply (round_pos_between x lo hi i); [|done|done].
    split; [exact Hi|]. apply (places_ge x m i); [done|done|done|lia].
Qed.

Lemma Qdiv_one (q : Q) : (q / 1 == q)%Q.
Proof. field. Qed.

Lemma round_between_int x (lo hi m : Z) :
  (0 <= m <= 53)%Z ->
  (- inject_Z (2 ^ m) < x)%Q -> (x < inject_Z (2 ^ m))%Q ->
  (inject_Z lo <= x)%Q -> (x <= inject_Z hi)%Q ->
  (inject_Z lo <= round x)%Q /\ (round x <= inject_Z hi)%Q.
Proof.
  intros Hm Hneg Hpos Hlo Hhi.
  destruct (round_between x lo hi 0 m) as [H1 H2]; try lia; try done.
  - change (inject_Z (2 ^ 0)) with 1%Q. by rewrite Qdiv_one.
  - change (inject_Z (2 ^ 0)) with 1%Q. by rewrite Qdiv_one.
  - change (inject_Z (2 ^ 0)) with 1%Q in H1, H2.
    rewrite Qdiv_one in H1, H2. done.
Qed.

Lemma round_half x :
  (- (1 # 2) <= x)%Q -> (x <= 1 # 2)%Q ->
  (- (1 # 2) <= round x)%Q /\ (round x <= 1 # 2)%Q.
Proof.
  intros Hlo Hhi.
  destruct (round_between x (-1) 1 1 0) as [H1 H2]; try lia.
  - change (inject_Z (2 ^ 0)) with 1%Q. lra.
  - change (inject_Z (2 ^ 0)) with 1%Q. lra.
  - change (inject_Z (-1) / inject_Z (2 ^ 1))%Q with (- (1 # 2))%Q. lra.
  - change (inject_Z 1 / inject_Z (2 ^ 1))%Q with (1 # 2)%Q. lra.
  - change (inject_Z (-1) / inject_Z (2 ^ 1))%Q with (- (1 # 2))%Q in H1.
    change (inject_Z 1 / inject_Z (2 ^ 1))%Q with (1 # 2)%Q in H2. lra.
Qed.

End Doubles.

Section Readings.

Variable rnd : nat -> Q.
Hypothesis rnd_range : forall i, (0 <= rnd i /\ rnd i < 1)%Q.

Lemma Qfloor_range (x : Q) (lo hi : Z) :
  (inject_Z lo <= x)%Q -> (x < inject_Z hi)%Q -> (lo <= Qfloor x < hi)%Z.
Proof.
  intros Hlo Hhi. split.
  - rewrite <- (Qfloor_Z lo). by apply Qfloor_resp_le.
  - rewrite Zlt_Qlt. eapply Qle_lt_trans; [apply Qfloor_le|exact Hhi].
Qed.

Lemma above_range (bound r : Q) : (0 <= above bound r <= 1)%Z.
Proof. unfold above. destruct (Qle_bool r bound); lia. Qed.

Lemma scaled_range (i : nat) (n : Z) :
  (0 < n)%Z -> (0 <= Qfloor (rnd i * inject_Z n) < n)%Z.
Proof.
  intros Hn. destruct (rnd_range i) as [H0 H1].
  assert (inject_Z 0 < inject_Z n)%Q as Hq by (by rewrite <- Zlt_Qlt).
  change (inject_Z 0) with 0%Q in Hq.
  apply Qfloor_range.
  - change (inject_Z 0) with 0%Q. by apply Qmult_le_0_compat; [|apply Qlt_le_weak].
  - rewrite <- (Qmult_1_l (inject_Z n)) at 2. by apply Qmult_lt_compat_r.
Qed.

(** [(Math.random() - 0.5) * 2000] *)
Lemma acceleration_range (i : nat) :
  (-1000 <= Double.round (Double.round (rnd i - (1 # 2)) * 2000))%Q
  /\ (Double.round (Double.round (rnd i - (1 # 2)) * 2000) <= 1000)%Q.
Proof.
  destruct (rnd_range i) as [H0 H1].
  destruct (round_half (rnd i - (1 # 2))) as [Ha Hb]; [lra|lra|].
  apply (round_between_int _ (-1000) 1000 10); [lia|..];
    change (inject_Z (2 ^ 10)) with 1024%Q;
    change (inject_Z (-1000)) with (-1000)%Q;
    change (inject_Z 1000) with 1000%Q; lra.
Qed.

(** [Math.floor(Math.random() * 30 + 15)] *)
Lemma temperature_range (i : nat) :
  (15 <= Qfloor (Double.round (Double.round (rnd i * 30) + 15)) <= 45)%Z.
Proof.
  destruct (rnd_range i) as [H0 H1].
  destruct (round_between_int (rnd i * 30) 0 30 5) as [Ha Hb]; [lia|..];
    try (change (inject_Z (2 ^ 5)) with 32%Q;
         change (inject_Z 0) with 0%Q; change (inject_Z 30) with 30%Q; lra).
  change (inject_Z 0) with 0%Q in Ha. change (inject_Z 30) with 30%Q in Hb.
  destruct (round_between_int (Double.round (rnd i * 30) + 15) 15 45 6) as [Hc Hd];
    [lia|..];
    try (change (inject_Z (2 ^ 6)) with 64%Q;
         change (inject_Z 15) with 15%Q; change (inject_Z 45) with 45%Q; lra).
  split.
  - rewrite <- (Qfloor_Z 15). by apply Qfloor_resp_le.
  - rewrite <- (Qfloor_Z 45). by apply Qfloor_resp_le.
Qed.

Lemma sample_within_ranges (d : string) (k : nat) :
  within_ranges (fst (sampleSensorData rnd d k)).
Proof.
  unfold sampleSensorData.
  destruct (String.eqb d "arduino-uno"); [|destruct (String.eqb d "microbit-v2");
    [|destruct (String.eqb d "raspberry-pico")]]; cbn [fst within_ranges].
  - repeat split; try apply above_range;
      try apply (scaled_range _ 1024 eq_refl).
  - pose proof (acceleration_range k). pose proof (acceleration_range (k + 1)).
    pose proof (acceleration_range (k + 2)).
    split; [tauto|]. split; [apply temperature_range|split; apply above_range].
  - repeat split; try apply above_range;
      try apply (scaled_range _ 4096 eq_refl).
  - exact I.
Qed.

Lemma sample_draws (d : string) (k : nat) :
  snd (sampleSensorData rnd d k)
  = (k + if String.eqb d "arduino-uno" || String.eqb d "microbit-v2"
              || String.eqb d "raspberry-pico" then 6 else 0)%nat.
Proof.
  unfold sampleSensorData.
  destruct (String.eqb d "arduino-uno"); [done|destruct (String.eqb d "microbit-v2");
    [done|destruct (String.eqb d "raspberry-pico"); [done|]]].
  cbn [snd orb]. lia.
Qed.

End Readings.

(** X15: with every random value in the range of [Math.random], a
    telemetry tick that finds its device sends one [deviceData] frame whose
    readings are within the ranges of the device: analog values from 0 to
    1023 on the Arduino and from 0 to 4095 on the Pico, digital values and
    buttons 0 or 1, acceleration from -1000 to 1000, temperature from 15 to
    45 (the sum is rounded and can reach 45), and the LED pin of the Pico
    always 1. The tick makes six draws for each of the three devices and none
    for any other name. *)
Theorem telemetry_readings_in_range (rnd : nat -> Q) (s s' : State) (tm : Timer)
    (c : nat) (d : string) :
  (forall i, 0 <= rnd i /\ rnd i < 1)%Q ->
  find_timer (tid tm) s = Some tm ->
  callback tm = TelemetryTick c d ->
  devices_has s c d = true ->
  step rnd (EvTimer (tid tm)) s = Some s' ->
  sent_on s' c
  = sent_on s c
      ++ [(due tm, DeviceData d (Telemetry (fst (sampleSensorData rnd d (draws s)))
                                           (due tm)))]
  /\ within_ranges (fst (sampleSensorData rnd d (draws s)))
  /\ draws s'
     = (draws s
        + if String.eqb d "arduino-uno" || String.eqb d "microbit-v2"
             || String.eqb d "raspberry-pico" then 6 else 0)%nat.
Proof.
  intros Hr Hf Hcb Hd Hs. cbn [step] in Hs. rewrite Hf in Hs.
  destruct (quiet_until (due tm) s); [|done]. injection Hs as <-.
  pose proof (devices_has_heap_of s c d Hd) as Hheap.
  rewrite <- (sample_draws rnd d (draws s)).
  split; [|split; [by apply sample_within_ranges|]];
    unfold fire; rewrite Hcb; destruct (period tm) as [p|];
    cbn [runCallback]; unfold telemetryTick.
  - replace (devices_has (at_time (due tm) s) c d) with true by (symmetry; exact Hd).
    cbn [negb]. change (draws (at_time (due tm) s)) with (draws s).
    destruct (sampleSensorData rnd d (draws s)) as [sensorData k]. cbv zeta.
    change (sent_on (rearm ?t ?q ?x) c) with (sent_on x c).
    by rewrite sent_on_send.
  - replace (devices_has (remove_timer (tid tm) (at_time (due tm) s)) c d) with true
      by (symmetry; exact Hd).
    cbn [negb]. change (draws (remove_timer ?t (at_time ?q s))) with (draws s).
    destruct (sampleSensorData rnd d (draws s)) as [sensorData k]. cbv zeta.
    by rewrite sent_on_send.
  - replace (devices_has (at_time (due tm) s) c d) with true by (symmetry; exact Hd).
    cbn [negb]. change (draws (at_time (due tm) s)) with (draws s).
    by destruct (sampleSensorData rnd d (draws s)) as [sensorData k].
  - replace (devices_has (remove_timer (tid tm) (at_time (due tm) s)) c d) with true
      by (symmetry; exact Hd).
    cbn [negb]. change (draws (remove_timer ?t (at_time ?q s))) with (draws s).
    by destruct (sampleSensorData rnd d (draws s)) as [sensorData k].
Qed.

Lemma telemetry_readings_in_range_witness :
  sent_on (state_after tape_eighths (microbit_attached ++ [EvTimer 1])) 1
  = sent_on (state_after tape_eighths microbit_attached) 1
      ++ [((1 + (tape_eighths 0 * 1000 + 500) + (1000 + tape_eighths 1 * 2000))%Q,
           DeviceData "microbit-v2"
             (Telemetry
                (fst (sampleSensorData tape_eighths "microbit-v2"
                        (draws (state_after tape_eighths microbit_attached))))
                (1 + (tape_eighths 0 * 1000 + 500) + (1000 + tape_eighths 1 * 2000))))]
  /\ match fst (sampleSensorData tape_eighths "microbit-v2"
                  (draws (state_after tape_eighths microbit_attached))) with
     | MicrobitData x y z temperature buttonA buttonB =>
         (Qred x, Qred y, Qred z, temperature, buttonA, buttonB)
         = ((-500)%Q, (-250)%Q, 0%Q, 33%Z, 0%Z, 1%Z)
     | _ => False
     end.
Proof.
  split; [|vm_compute; reflexivity].
  refine (proj1
            (telemetry_readings_in_range tape_eighths
               (state_after tape_eighths microbit_attached)
               (state_after tape_eighths (microbit_attached ++ [EvTimer 1]))
               (mkTimer 1 (1 + (tape_eighths 0 * 1000 + 500)
                             + (1000 + tape_eighths 1 * 2000))
                        (Some (1000 + tape_eighths 1 * 2000)%Q)
                        (TelemetryTick 1 "microbit-v2"))
               1 "microbit-v2" _ _ _ _ _)).
  - intros i. unfold tape_eighths, Qle, Qlt. cbn [Qnum Qden].
    pose proof (Nat.mod_upper_bound i 8). lia.
  - vm_compute; reflexivity.
  - reflexivity.
  - vm_compute; reflexivity.
  - vm_compute; reflexivity.
Defined.

(** The readings are rounded as the code rounds them. With the random value
    just below 3/5 the exact sum is below 33 and the rounded one is 33; with
    the largest random value the temperature is 45; and a button is pressed
    by a random value above the double written 0.8, which lies above 4/5. *)
Example readings_are_rounded_to_doubles :
  Qfloor ((5404319552844594 # 9007199254740992) * 30 + 15) = 32%Z
  /\ match fst (sampleSensorData (fun _ => 5404319552844594 # 9007199254740992)
                  "microbit-v2" 0) with
     | MicrobitData _ _ _ temperature _ _ => temperature = 33%Z
     | _ => False
     end
  /\ match fst (sampleSensorData (fun _ => 9007199254740991 # 9007199254740992)
                  "microbit-v2" 0) with
     | MicrobitData _ _ _ temperature _ _ => temperature = 45%Z
     | _ => False
     end
  /\ match fst (sampleSensorData (fun _ => 3602879701896397 # 4503599627370496)
                  "microbit-v2" 0) with
     | MicrobitData _ _ _ _ buttonA _ => buttonA = 0%Z
     | _ => False
     end.
Proof. vm_compute. repeat split. Qed.

Section Captures.

Lemma closes_sound s :
  closes s = true -> exists q post, s = q :: 41%N :: post /\ is_quote q = true.
Proof.
  destruct s as [|q [|p post]]; try done. cbn [closes].
  intros [Hq Hp]%andb_true_iff. apply N.eqb_eq in Hp as ->. eauto.
Qed.

Lemma lazy_group_sound s m :
  lazy_group s = Some m ->
  exists q post, s = m ++ q :: 41%N :: post /\ is_quote q = true /\ dot_run m = true.
Proof.
  revert m. induction s as [|c s IH]; intros m; cbn [lazy_group].
  - cbn [closes]. done.
  - destruct (closes (c :: s)) eqn:E.
    + intros [= <-]. apply closes_sound in E as (q & post & Heq & Hq).
      exists q, post. done.
    + destruct (is_line_terminator c) eqn:Et; [done|].
      destruct (lazy_group s) as [m'|] eqn:El; [|done].
      cbn [option_map]. intros [= <-].
      destruct (IH m' eq_refl) as (q & post & -> & Hq & Hall).
      exists q, post. split; [done|]. split; [done|].
      unfold dot_run. cbn [forallb]. by rewrite Et.
Qed.

Lemma strip_prefix_sound p s r : strip_prefix p s = Some r -> s = p ++ r.
Proof.
  revert s. induction p as [|a p IH]; intros [|b s]; cbn [strip_prefix]; try done.
  - by intros [= <-].
  - by intros [= <-].
  - destruct (a =? b)%N eqn:E; [|done]. apply N.eqb_eq in E as ->.
    intros H. by rewrite (IH s H).
Qed.

Lemma strip_prefix_app p r : strip_prefix p (p ++ r) = Some r.
Proof.
  induction p as [|a p IH]; cbn [strip_prefix app]; [by destruct r|].
  by rewrite N.eqb_refl.
Qed.

Lemma match_here_sound prefix s m :
  match_here prefix s = Some m ->
  exists q1 q2 post,
    s = prefix ++ q1 :: m ++ q2 :: 41%N :: post
    /\ is_quote q1 = true /\ is_quote q2 = true /\ dot_run m = true.
Proof.
  unfold match_here.
  destruct (strip_prefix prefix s) as [[|q rest]|] eqn:E; try done.
  destruct (is_quote q) eqn:Hq; [|done].
  intros (q2 & post & -> & Hq2 & Hall)%lazy_group_sound.
  apply strip_prefix_sound in E as ->. eauto 10.
Qed.

Lemma regex_match_sound prefix s m :
  regex_match prefix s = Some m ->
  exists pre q1 q2 post,
    s = pre ++ prefix ++ q1 :: m ++ q2 :: 41%N :: post
    /\ is_quote q1 = true /\ is_quote q2 = true /\ dot_run m = true.
Proof.
  induction s as [|c s IH]; cbn [regex_match];
    destruct (match_here prefix _) as [m'|] eqn:E; try done.
  - intros [= <-]. apply match_here_sound in E as (q1 & q2 & post & H).
    exists [], q1, q2, post. exact H.
  - intros [= <-]. apply match_here_sound in E as (q1 & q2 & post & H).
    exists [], q1, q2, post. exact H.
  - intros (pre & q1 & q2 & post & -> & H)%IH.
    exists (c :: pre), q1, q2, post. done.
Qed.

Lemma lazy_group_complete m q post :
  is_quote q = true -> dot_run m = true ->
  forallb (fun c => negb (is_quote c)) m = true ->
  lazy_group (m ++ q :: 41%N :: post) = Some m.
Proof.
  intros Hq. induction m as [|c m IH]; cbn [app lazy_group].
  - intros _ _. cbn [closes]. by rewrite Hq, N.eqb_refl.
  - unfold dot_run. cbn [forallb].
    intros [Hc Hm]%andb_true_iff [Hc' Hm']%andb_true_iff.
    apply negb_true_iff in Hc, Hc'.
    assert (closes (c :: m ++ q :: 41%N :: post) = false) as ->.
    { cbn [closes]. destruct (m ++ q :: 41%N :: post); [done|]. by rewrite Hc'. }
    rewrite Hc. by rewrite (IH Hm Hm').
Qed.

Lemma dot_run_single m : dot_run m = true -> single_line m = true.
Proof.
  unfold dot_run, single_line. induction m as [|c m IH]; [done|]. cbn [forallb].
  intros [Hc Hm]%andb_true_iff. rewrite (IH Hm), andb_true_r.
  unfold is_line_terminator in Hc. apply negb_true_iff in Hc.
  by destruct (c =? 10)%N.
Qed.

Lemma single_line_app a b :
  single_line (a ++ b) = single_line a && single_line b.
Proof. unfold single_line. by rewrite forallb_app. Qed.

Lemma replace_from_single pat rep skip s :
  single_line rep = true -> single_line s = true ->
  single_line (replace_from pat rep skip s) = true.
Proof.
  intros Hrep. revert skip. induction s as [|c s IH]; intros skip; [done|].
  unfold single_line at 1. cbn [forallb]. fold (single_line s).
  intros [Hc Hs]%andb_true_iff. cbn [replace_from].
  destruct skip as [|j]; [|by apply IH].
  destruct (startsWith (c :: s) pat).
  - rewrite single_line_app, Hrep. by apply IH.
  - unfold single_line. cbn [forallb]. rewrite Hc. by apply IH.
Qed.

Lemma uint_units_single u : single_line (uint_units u) = true.
Proof. induction u; cbn [uint_units]; done. Qed.

Lemma number_units_single z : single_line (number_units z) = true.
Proof.
  unfold number_units. destruct (Z.to_int z); [apply uint_units_single|].
  unfold single_line. cbn [forallb]. apply uint_units_single.
Qed.

Lemma scanLine_single rnd k output line :
  Forall (fun l => single_line l = true) output ->
  Forall (fun l => single_line l = true) (snd (scanLine rnd (k, output) line)).
Proof.
  intros Hout. unfold scanLine.
  destruct (trim line) as [|c rest]; [done|].
  destruct (startsWith (c :: rest) (units "#")); [done|].
  assert (Forall (fun l => single_line l = true)
            match printMatch (c :: rest) with
            | Some m => output ++ [m]
            | None => output
            end) as Hp.
  { destruct (printMatch (c :: rest)) as [m|] eqn:E; [|done].
    apply Forall_app. split; [done|]. apply Forall_singleton.
    apply regex_match_sound in E as (? & ? & ? & ? & _ & _ & _ & H).
    by apply dot_run_single. }
  destruct (fStringMatch (c :: rest)) as [m|] eqn:E; [|done]. cbn [snd].
  apply Forall_app. split; [done|]. apply Forall_singleton.
  apply regex_match_sound in E as (? & ? & ? & ? & _ & _ & _ & H).
  unfold replace. apply replace_from_single; [apply number_units_single|].
  apply replace_from_single; [apply number_units_single|].
  by apply dot_run_single.
Qed.

Lemma fold_scanLine_single rnd lines k output :
  Forall (fun l => single_line l = true) output ->
  Forall (fun l => single_line l = true) (snd (fold_left (scanLine rnd) lines (k, output))).
Proof.
  revert k output. induction lines as [|line lines IH]; intros k output H; [done|].
  cbn [fold_left]. pose proof (scanLine_single rnd k output line H) as H1.
  destruct (scanLine rnd (k, output) line) as [k1 out1]. by apply IH.
Qed.

Lemma idiomLines_single code :
  Forall (fun l => single_line l = true) (idiomLines code).
Proof.
  unfold idiomLines.
  repeat (apply Forall_app; split);
    match goal with |- Forall _ (if ?b then _ else _) => destruct b end;
    first [by apply Forall_nil_2 | apply Forall_singleton; vm_compute; reflexivity].
Qed.

Lemma simulateOutput_single rnd k code :
  Forall (fun l => single_line l = true) (snd (simulateOutput rnd k code)).
Proof.
  rewrite simulateOutput_unfold. cbn [snd]. apply Forall_app. split.
  - by apply fold_scanLine_single.
  - apply idiomLines_single.
Qed.

Lemma split_single x : single_line x = true -> split x = [x].
Proof.
  unfold single_line. induction x as [|c x IH]; [done|]. cbn [forallb split].
  intros [Hc Hx]%andb_true_iff. apply negb_true_iff in Hc.
  by rewrite Hc, (IH Hx).
Qed.

Lemma split_app_newline x rest :
  single_line x = true -> split (x ++ 10%N :: rest) = x :: split rest.
Proof.
  unfold single_line. induction x as [|c x IH]; [done|]. cbn [forallb split app].
  intros [Hc Hx]%andb_true_iff. apply negb_true_iff in Hc.
  by rewrite Hc, (IH Hx).
Qed.

Lemma split_join output :
  Forall (fun l => single_line l = true) output ->
  split (join output) = match output with [] => [[]] | _ :: _ => output end.
Proof.
  induction output as [|x output IH]; [done|]. intros H.
  apply Forall_cons in H as [Hx H].
  destruct output as [|y output].
  - by apply split_single.
  - change (join (x :: y :: output)) with (x ++ 10%N :: join (y :: output)).
    rewrite (split_app_newline _ _ Hx). by rewrite (IH H).
Qed.

Lemma fold_scanLine_counts rnd lines k output :
  let P := List.filter (fun line => scanned line
             && match printMatch (trim line) with Some _ => true | None => false end)
             lines in
  let F := List.filter (fun line => scanned line
             && match fStringMatch (trim line) with Some _ => true | None => false end)
             lines in
  fst (fold_left (scanLine rnd) lines (k, output)) = (k + 2 * length F)%nat
  /\ length (snd (fold_left (scanLine rnd) lines (k, output)))
     = (length output + length P + length F)%nat.
Proof.
  revert k output. induction lines as [|line lines IH]; intros k output.
  - cbv zeta. cbn [fold_left List.filter fst snd length]. lia.
  - cbn [fold_left List.filter]. cbv zeta in IH |- *.
    destruct (scanLine rnd (k, output) line) as [k1 o1] eqn:Hsl.
    assert (k1 = (k + (if scanned line
                          && match fStringMatch (trim line) with
                             | Some _ => true
                             | None => false
                             end then 2 else 0))%nat
            /\ length o1
               = (length output
                  + (if scanned line
                        && match printMatch (trim line) with
                           | Some _ => true
                           | None => false
                           end then 1 else 0)
                  + (if scanned line
                        && match fStringMatch (trim line) with
                           | Some _ => true
                           | None => false
                           end then 1 else 0))%nat) as [-> Hlen].
    { unfold scanLine in Hsl. unfold scanned.
      destruct (trim line) as [|c rest]; cbn [andb].
      - injection Hsl as <- <-. lia.
      - destruct (startsWith (c :: rest) (units "#")); cbn [negb andb].
        + injection Hsl as <- <-. lia.
        + destruct (printMatch (c :: rest)), (fStringMatch (c :: rest));
            injection Hsl as <- <-; rewrite ?length_app; cbn [length]; lia. }
    destruct (IH (k + (if scanned line
                          && match fStringMatch (trim line) with
                             | Some _ => true
                             | None => false
                             end then 2 else 0))%nat o1) as [-> ->].
    rewrite Hlen.
    destruct (scanned line
              && match printMatch (trim line) with
                 | Some _ => true
                 | None => false
                 end),
             (scanned line
              && match fStringMatch (trim line) with
                 | Some _ => true
                 | None => false
                 end); cbn [length]; lia.
Qed.

End Captures.

(** X16: what the two print expressions capture. When one of them finds a
    match in a line, the captured text stands in the line between the prefix
    followed by a quote character and a quote character followed by a closing
    parenthesis, and it contains no line terminator. The two quote characters
    need not be the same. *)
Theorem capture_is_between_quotes (prefix s m : jsstring) :
  regex_match prefix s = Some m ->
  exists pre q1 q2 post,
    s = pre ++ prefix ++ q1 :: m ++ q2 :: 41%N :: post
    /\ is_quote q1 = true /\ is_quote q2 = true /\ dot_run m = true.
Proof. apply regex_match_sound. Qed.

Lemma capture_is_between_quotes_witness :
  exists pre q1 q2 post,
    units "x = print('hello')" = pre ++ units "print(" ++ q1 :: units "hello" ++ q2 :: 41%N :: post
    /\ is_quote q1 = true /\ is_quote q2 = true /\ dot_run (units "hello") = true.
Proof.
  refine (capture_is_between_quotes (units "print(") (units "x = print('hello')")
            (units "hello") _).
  vm_compute; reflexivity.
Defined.

(** X17: a quoted literal without quote characters and line terminators
    inside is captured whole by both print expressions, whatever follows the
    closing parenthesis and whichever of the two quote characters opens and
    closes it. *)
Theorem quoted_literal_is_captured (q1 q2 : N) (m post : jsstring) :
  is_quote q1 = true ->
  is_quote q2 = true ->
  dot_run m = true ->
  forallb (fun c => negb (is_quote c)) m = true ->
  printMatch (units "print(" ++ q1 :: m ++ q2 :: 41%N :: post) = Some m
  /\ fStringMatch (units "print(f" ++ q1 :: m ++ q2 :: 41%N :: post) = Some m.
Proof.
  intros Hq1 Hq2 Hdot Hnq.
  assert (forall prefix,
            regex_match prefix (prefix ++ q1 :: m ++ q2 :: 41%N :: post) = Some m) as H.
  { intros prefix.
    assert (match_here prefix (prefix ++ q1 :: m ++ q2 :: 41%N :: post) = Some m) as E.
    { unfold match_here. rewrite strip_prefix_app, Hq1.
      by apply lazy_group_complete. }
    destruct (prefix ++ q1 :: m ++ q2 :: 41%N :: post); cbn [regex_match];
      by rewrite E. }
  split; apply H.
Qed.

Lemma quoted_literal_is_captured_witness :
  printMatch (units "print(" ++ 39%N :: units "hola" ++ 34%N :: 41%N :: units " # fin")
  = Some (units "hola")
  /\ fStringMatch (units "print(f" ++ 39%N :: units "hola" ++ 34%N :: 41%N :: units " # fin")
     = Some (units "hola").
Proof.
  refine (quoted_literal_is_captured 39 34 (units "hola") (units " # fin") _ _ _ _);
    vm_compute; reflexivity.
Defined.

(** X18: the entries of the output array never contain a newline, so the
    joined [output] of [codeExecuted] splits back into exactly the entries;
    an empty array gives the empty string, which splits into one empty
    line. *)
Theorem output_lines_recoverable (rnd : nat -> Q) (k : nat) (code : jsstring) :
  split (join (snd (simulateOutput rnd k code)))
  = match snd (simulateOutput rnd k code) with
    | [] => [[]]
    | _ :: _ => snd (simulateOutput rnd k code)
    end.
Proof. apply split_join, simulateOutput_single. Qed.

(** X19: the scan makes two random draws for every scanned line on which the
    f-string expression matches, placeholders or not, and none otherwise;
    the output array has one entry for each scanned line the plain expression
    matches, one for each the f-string expression matches, and the idiom
    lines. *)
Theorem scan_draws_and_entries (rnd : nat -> Q) (k : nat) (code : jsstring) :
  fst (simulateOutput rnd k code) = (k + 2 * length (fstring_lines code))%nat
  /\ length (snd (simulateOutput rnd k code))
     = (length (print_lines code) + length (fstring_lines code)
        + length (idiomLines code))%nat.
Proof.
  rewrite simulateOutput_unfold. cbn [fst snd]. rewrite length_app.
  destruct (fold_scanLine_counts rnd (split code) k []) as [-> ->].
  unfold fstring_lines, print_lines. cbn [length]. lia.
Qed.

(** The number put for the angle is the floor of the rounded product: with
    this random value the exact product is below 23 and the double is 23. *)
Example angle_is_rounded_before_the_floor :
  Qfloor ((287729976193115 # 2251799813685248) * 180) = 22%Z
  /\ scanLine (fun _ => 287729976193115 # 2251799813685248) (0%nat, [])
              (units "print(f'{angle}')")
     = (2%nat, [units "23"]).
Proof. vm_compute. repeat split. Qed.
